(** * voice-clone-site: the "Imprint AI" wizard page and its knowledge base

    The development follows the repository:

    - [JS]        strings as the browser has them (sequences of UTF-16 code
                  units), and the few built-ins the page relies on;
    - [Page]      the React component [Index] of the wizard page: its state
                  hooks, the event handlers [sendMessage], [processDocuments],
                  [clearKnowledgeBase], [configurePersona] and the tab guard;
    - [Base64]    [atob] and [base64ToBlob] of the deprecated HTML frontend;
    - [Knowledge] the retrieval engine behind the REST endpoints the page
                  calls (vector store, retriever, orchestrator);
    - [Inputs]    the upload and voice handlers of the page and everything
                  the user can do, one action at a time;
    - [Form]      the script of the deprecated HTML frontend;
    - [Uploading] [processDocuments] from one [await] to the next, with the
                  other actions of the page in between. *)

From Stdlib Require Import List Bool Arith NArith ZArith QArith Lia.
From Stdlib Require Import String Ascii DecimalString.
From Stdlib Require Import Permutation Sorted.
From Stdlib Require Import Reals Lra Setoid.
Import ListNotations.

Close Scope Q_scope.
Close Scope R_scope.
Close Scope Z_scope.
Close Scope N_scope.

Set Implicit Arguments.

(* ===================================================================== *)
(** * JS: strings and truthiness                                          *)
(* ===================================================================== *)

Module JS.

(** A JavaScript string is a sequence of 16-bit code units; [s.length] counts
    code units, [s.substring(a, b)] and [s.charCodeAt(i)] index them. *)
Definition code_unit := N.
Definition jsstring := list code_unit.

(** A literal written in the source, as code units (the literals of the page
    that matter here are ASCII). *)
Definition lit (s : string) : jsstring :=
  map N_of_ascii (list_ascii_of_string s).

(** [s.substring(0, n)] for [0 <= n]: the first [n] code units, or all of
    [s] when it is shorter. *)
Definition substring0 (n : nat) (s : jsstring) : jsstring := firstn n s.

(** White space and line terminators, the code units [String.prototype.trim]
    removes. *)
Definition is_white_space (c : code_unit) : bool :=
  ((9 <=? c) && (c <=? 13) || (c =? 32) || (c =? 160) || (c =? 5760)
   || (8192 <=? c) && (c <=? 8202) || (c =? 8232) || (c =? 8233)
   || (c =? 8239) || (c =? 8287) || (c =? 12288) || (c =? 65279))%N%bool.

Fixpoint trim_start (s : jsstring) : jsstring :=
  match s with
  | c :: s' => if is_white_space c then trim_start s' else s
  | [] => []
  end.

Definition trim (s : jsstring) : jsstring :=
  rev (trim_start (rev (trim_start s))).

(** Truthiness of a string: the empty string is falsy. *)
Definition truthy (s : jsstring) : bool :=
  match s with [] => false | _ :: _ => true end.

End JS.

Import JS.

(* ===================================================================== *)
(** * Page: the React component [Index] of the wizard                     *)
(* ===================================================================== *)

Module Page.

(** ** Data *)

Inductive Role := user | assistant.

(** [interface Message]; [msg_id n] stands for the string [msg_<n>], [n] the
    value of [Date.now()] when the message was built. *)
Record Message := mkMessage {
  msg_id : N;
  role : Role;
  content : jsstring;
  audioUrl : option jsstring;
  sources : option Z;
  timestamp : N
}.

Record File := mkFile {
  file_name : jsstring;
  file_type : jsstring;
  file_size : N
}.

(** [interface Document] of the page: an uploaded file or a pasted text. *)
Record Document := mkDocument {
  doc_id : N;
  doc_name : jsstring;
  doc_content : option jsstring;
  doc_size : option N;
  doc_file : option File
}.

Inductive Step := upload | voice | persona | chat.

Definition Step_eqb (a b : Step) : bool :=
  match a, b with
  | upload, upload | voice, voice | persona, persona | chat, chat => true
  | _, _ => false
  end.

Inductive Variant := default | destructive.

Record Toast := mkToast {
  title : string;
  description : string;
  variant : Variant
}.

(** ** The REST client [TTSApi] *)

Record KnowledgeChatRequest := mkChatRequest {
  message : jsstring;
  conversation_id : N;
  use_default_voice : bool;
  system_prompt : option jsstring
}.

Record KnowledgeChatResponse := mkChatResponse {
  text_response : jsstring;
  sources_used : Z;
  tokens_used : Z
}.

Record TTSRequest := mkTTSRequest { text : jsstring }.

Record TTSResponse := mkTTSResponse { audio_base64 : jsstring }.

Record AddKnowledgeRequest := mkAddKnowledge {
  add_documents : list jsstring;
  add_sources : list jsstring (* metadatas[i].source; upload_type is "paste" *)
}.

(** What the page does to the world outside its own state, in order. *)
Inductive Effect :=
| ShowToast (t : Toast)
| CallChat (r : KnowledgeChatRequest)
| CallTTS (r : TTSRequest) (f : File)
| CallUpload (f : File)
| CallAddKnowledge (r : AddKnowledgeRequest)
| CallReset
| PlayAudio (url : jsstring)
| CheckHealth
| ConsoleError.

(** A rejected promise. *)
Inductive Error := Timeout | RateLimited | InvalidRequest | HttpError (status : N).

Inductive Result (A : Type) :=
| Ok (a : A)
| Threw (e : Error).
Arguments Ok {A} a.
Arguments Threw {A} e.

(** The server as the page sees it: every call resolves or rejects, possibly
    depending on everything the page did before. *)
Record Api := mkApi {
  chatWithKnowledge : list Effect -> KnowledgeChatRequest -> Result KnowledgeChatResponse;
  generateTTSWithVoice : list Effect -> TTSRequest -> File -> Result TTSResponse;
  uploadTextFile : list Effect -> File -> Result unit;
  addKnowledge : list Effect -> AddKnowledgeRequest -> Result unit;
  resetKnowledge : list Effect -> Result unit
}.

(** ** State hooks of [Index] *)

Record State := mkState {
  documents : list Document;
  isUploading : bool;
  uploadProgress : Q;
  documentsEmbedded : bool;
  personaConfigured : bool;
  isEditingPersona : bool;
  voiceFile : option File;
  isVoiceReady : bool;
  voiceCloneGenerated : bool;
  testVoiceText : jsstring;
  isGeneratingVoice : bool;
  testAudioUrl : option jsstring;
  messages : list Message;
  inputMessage : jsstring;
  isGenerating : bool;
  conversationId : N;
  knowledgeStats : option Z;
  currentStep : Step;
  systemPrompt : option jsstring;
  effects : list Effect
}.

(** [knowledgeStats] holds [total_documents] of the last statistics fetched
    (or [null]); [systemPrompt] is the entry of [localStorage]. *)

Definition initial (session : N) : State :=
  mkState [] false 0%Q false false false None false false
          (lit "Hello! This is a test of my cloned voice.") false None
          [] [] false session None upload None [].

Definition setDocuments v (s : State) : State :=
  mkState v s.(isUploading) s.(uploadProgress) s.(documentsEmbedded)
    s.(personaConfigured) s.(isEditingPersona) s.(voiceFile)
    s.(isVoiceReady) s.(voiceCloneGenerated) s.(testVoiceText)
    s.(isGeneratingVoice) s.(testAudioUrl) s.(messages) s.(inputMessage)
    s.(isGenerating) s.(conversationId) s.(knowledgeStats) s.(currentStep)
    s.(systemPrompt) s.(effects).

Definition setIsUploading v (s : State) : State :=
  mkState s.(documents) v s.(uploadProgress) s.(documentsEmbedded)
    s.(personaConfigured) s.(isEditingPersona) s.(voiceFile)
    s.(isVoiceReady) s.(voiceCloneGenerated) s.(testVoiceText)
    s.(isGeneratingVoice) s.(testAudioUrl) s.(messages) s.(inputMessage)
    s.(isGenerating) s.(conversationId) s.(knowledgeStats) s.(currentStep)
    s.(systemPrompt) s.(effects).

Definition setUploadProgress v (s : State) : State :=
  mkState s.(documents) s.(isUploading) v s.(documentsEmbedded)
    s.(personaConfigured) s.(isEditingPersona) s.(voiceFile)
    s.(isVoiceReady) s.(voiceCloneGenerated) s.(testVoiceText)
    s.(isGeneratingVoice) s.(testAudioUrl) s.(messages) s.(inputMessage)
    s.(isGenerating) s.(conversationId) s.(knowledgeStats) s.(currentStep)
    s.(systemPrompt) s.(effects).

Definition setDocumentsEmbedded v (s : State) : State :=
  mkState s.(documents) s.(isUploading) s.(uploadProgress) v
    s.(personaConfigured) s.(isEditingPersona) s.(voiceFile)
    s.(isVoiceReady) s.(voiceCloneGenerated) s.(testVoiceText)
    s.(isGeneratingVoice) s.(testAudioUrl) s.(messages) s.(inputMessage)
    s.(isGenerating) s.(conversationId) s.(knowledgeStats) s.(currentStep)
    s.(systemPrompt) s.(effects).

Definition setPersonaConfigured v (s : State) : State :=
  mkState s.(documents) s.(isUploading) s.(uploadProgress)
    s.(documentsEmbedded) v s.(isEditingPersona) s.(voiceFile)
    s.(isVoiceReady) s.(voiceCloneGenerated) s.(testVoiceText)
    s.(isGeneratingVoice) s.(testAudioUrl) s.(messages) s.(inputMessage)
    s.(isGenerating) s.(conversationId) s.(knowledgeStats) s.(currentStep)
    s.(systemPrompt) s.(effects).

Definition setIsEditingPersona v (s : State) : State :=
  mkState s.(documents) s.(isUploading) s.(uploadProgress)
    s.(documentsEmbedded) s.(personaConfigured) v s.(voiceFile)
    s.(isVoiceReady) s.(voiceCloneGenerated) s.(testVoiceText)
    s.(isGeneratingVoice) s.(testAudioUrl) s.(messages) s.(inputMessage)
    s.(isGenerating) s.(conversationId) s.(knowledgeStats) s.(currentStep)
    s.(systemPrompt) s.(effects).

Definition setVoiceFile v (s : State) : State :=
  mkState s.(documents) s.(isUploading) s.(uploadProgress)
    s.(documentsEmbedded) s.(personaConfigured) s.(isEditingPersona) v
    s.(isVoiceReady) s.(voiceCloneGenerated) s.(testVoiceText)
    s.(isGeneratingVoice) s.(testAudioUrl) s.(messages) s.(inputMessage)
    s.(isGenerating) s.(conversationId) s.(knowledgeStats) s.(currentStep)
    s.(systemPrompt) s.(effects).

Definition setIsVoiceReady v (s : State) : State :=
  mkState s.(documents) s.(isUploading) s.(uploadProgress)
    s.(documentsEmbedded) s.(personaConfigured) s.(isEditingPersona)
    s.(voiceFile) v s.(voiceCloneGenerated) s.(testVoiceText)
    s.(isGeneratingVoice) s.(testAudioUrl) s.(messages) s.(inputMessage)
    s.(isGenerating) s.(conversationId) s.(knowledgeStats) s.(currentStep)
    s.(systemPrompt) s.(effects).

Definition setVoiceCloneGenerated v (s : State) : State :=
  mkState s.(documents) s.(isUploading) s.(uploadProgress)
    s.(documentsEmbedded) s.(personaConfigured) s.(isEditingPersona)
    s.(voiceFile) s.(isVoiceReady) v s.(testVoiceText) s.(isGeneratingVoice)
    s.(testAudioUrl) s.(messages) s.(inputMessage) s.(isGenerating)
    s.(conversationId) s.(knowledgeStats) s.(currentStep) s.(systemPrompt)
    s.(effects).

Definition setTestVoiceText v (s : State) : State :=
  mkState s.(documents) s.(isUploading) s.(uploadProgress)
    s.(documentsEmbedded) s.(personaConfigured) s.(isEditingPersona)
    s.(voiceFile) s.(isVoiceReady) s.(voiceCloneGenerated) v
    s.(isGeneratingVoice) s.(testAudioUrl) s.(messages) s.(inputMessage)
    s.(isGenerating) s.(conversationId) s.(knowledgeStats) s.(currentStep)
    s.(systemPrompt) s.(effects).

Definition setIsGeneratingVoice v (s : State) : State :=
  mkState s.(documents) s.(isUploading) s.(uploadProgress)
    s.(documentsEmbedded) s.(personaConfigured) s.(isEditingPersona)
    s.(voiceFile) s.(isVoiceReady) s.(voiceCloneGenerated) s.(testVoiceText)
    v s.(testAudioUrl) s.(messages) s.(inputMessage) s.(isGenerating)
    s.(conversationId) s.(knowledgeStats) s.(currentStep) s.(systemPrompt)
    s.(effects).

Definition setTestAudioUrl v (s : State) : State :=
  mkState s.(documents) s.(isUploading) s.(uploadProgress)
    s.(documentsEmbedded) s.(personaConfigured) s.(isEditingPersona)
    s.(voiceFile) s.(isVoiceReady) s.(voiceCloneGenerated) s.(testVoiceText)
    s.(isGeneratingVoice) v s.(messages) s.(inputMessage) s.(isGenerating)
    s.(conversationId) s.(knowledgeStats) s.(currentStep) s.(systemPrompt)
    s.(effects).

Definition setMessages (f : list Message -> list Message) (s : State) : State :=
  mkState s.(documents) s.(isUploading) s.(uploadProgress)
    s.(documentsEmbedded) s.(personaConfigured) s.(isEditingPersona)
    s.(voiceFile) s.(isVoiceReady) s.(voiceCloneGenerated) s.(testVoiceText)
    s.(isGeneratingVoice) s.(testAudioUrl) (f s.(messages)) s.(inputMessage)
    s.(isGenerating) s.(conversationId) s.(knowledgeStats) s.(currentStep)
    s.(systemPrompt) s.(effects).

Definition setInputMessage v (s : State) : State :=
  mkState s.(documents) s.(isUploading) s.(uploadProgress)
    s.(documentsEmbedded) s.(personaConfigured) s.(isEditingPersona)
    s.(voiceFile) s.(isVoiceReady) s.(voiceCloneGenerated) s.(testVoiceText)
    s.(isGeneratingVoice) s.(testAudioUrl) s.(messages) v s.(isGenerating)
    s.(conversationId) s.(knowledgeStats) s.(currentStep) s.(systemPrompt)
    s.(effects).

Definition setIsGenerating v (s : State) : State :=
  mkState s.(documents) s.(isUploading) s.(uploadProgress)
    s.(documentsEmbedded) s.(personaConfigured) s.(isEditingPersona)
    s.(voiceFile) s.(isVoiceReady) s.(voiceCloneGenerated) s.(testVoiceText)
    s.(isGeneratingVoice) s.(testAudioUrl) s.(messages) s.(inputMessage) v
    s.(conversationId) s.(knowledgeStats) s.(currentStep) s.(systemPrompt)
    s.(effects).

Definition setKnowledgeStats v (s : State) : State :=
  mkState s.(documents) s.(isUploading) s.(uploadProgress)
    s.(documentsEmbedded) s.(personaConfigured) s.(isEditingPersona)
    s.(voiceFile) s.(isVoiceReady) s.(voiceCloneGenerated) s.(testVoiceText)
    s.(isGeneratingVoice) s.(testAudioUrl) s.(messages) s.(inputMessage)
    s.(isGenerating) s.(conversationId) v s.(currentStep) s.(systemPrompt)
    s.(effects).

Definition setCurrentStep v (s : State) : State :=
  mkState s.(documents) s.(isUploading) s.(uploadProgress)
    s.(documentsEmbedded) s.(personaConfigured) s.(isEditingPersona)
    s.(voiceFile) s.(isVoiceReady) s.(voiceCloneGenerated) s.(testVoiceText)
    s.(isGeneratingVoice) s.(testAudioUrl) s.(messages) s.(inputMessage)
    s.(isGenerating) s.(conversationId) s.(knowledgeStats) v
    s.(systemPrompt) s.(effects).

Definition setSystemPrompt v (s : State) : State :=
  mkState s.(documents) s.(isUploading) s.(uploadProgress)
    s.(documentsEmbedded) s.(personaConfigured) s.(isEditingPersona)
    s.(voiceFile) s.(isVoiceReady) s.(voiceCloneGenerated) s.(testVoiceText)
    s.(isGeneratingVoice) s.(testAudioUrl) s.(messages) s.(inputMessage)
    s.(isGenerating) s.(conversationId) s.(knowledgeStats) s.(currentStep) v
    s.(effects).

Definition emit (e : Effect) (s : State) : State :=
  mkState s.(documents) s.(isUploading) s.(uploadProgress)
    s.(documentsEmbedded) s.(personaConfigured) s.(isEditingPersona)
    s.(voiceFile) s.(isVoiceReady) s.(voiceCloneGenerated) s.(testVoiceText)
    s.(isGeneratingVoice) s.(testAudioUrl) s.(messages) s.(inputMessage)
    s.(isGenerating) s.(conversationId) s.(knowledgeStats) s.(currentStep)
    s.(systemPrompt) (s.(effects) ++ [e]).

(** A state after some uploads: only the progress bar moved and requests
    were sent. *)
Definition withUpload (p : Q) (sent : list Effect) (s : State) : State :=
  mkState s.(documents) s.(isUploading) p s.(documentsEmbedded)
    s.(personaConfigured) s.(isEditingPersona) s.(voiceFile)
    s.(isVoiceReady) s.(voiceCloneGenerated) s.(testVoiceText)
    s.(isGeneratingVoice) s.(testAudioUrl) s.(messages) s.(inputMessage)
    s.(isGenerating) s.(conversationId) s.(knowledgeStats) s.(currentStep)
    s.(systemPrompt) (s.(effects) ++ sent).

Definition toast (t d : string) (v : Variant) : State -> State :=
  emit (ShowToast (mkToast t d v)).

(** ** Handlers run in a state-and-exception monad *)

Definition Act (A : Type) := State -> Result A * State.

Definition ret {A} (a : A) : Act A := fun s => (Ok a, s).

Definition bind {A B} (m : Act A) (k : A -> Act B) : Act B :=
  fun s => match m s with
           | (Ok a, s') => k a s'
           | (Threw e, s') => (Threw e, s')
           end.

Definition update (f : State -> State) : Act unit := fun s => (Ok tt, f s).

Definition read {A} (f : State -> A) : Act A := fun s => (Ok (f s), s).

(** [await call(...)]: the request is issued, then the promise settles. *)
Definition await {A} (e : Effect) (outcome : list Effect -> Result A) : Act A :=
  fun s => (outcome s.(effects), emit e s).

(** [try { body } catch (error) { handler } finally { cleanup }] where
    neither [handler] nor [cleanup] throws. *)
Definition try_catch_finally (body : Act unit) (handler : Error -> State -> State)
    (cleanup : State -> State) : Act unit :=
  fun s => match body s with
           | (Ok tt, s') => (Ok tt, cleanup s')
           | (Threw e, s') => (Ok tt, cleanup (handler e s'))
           end.

Declare Scope act_scope.
Delimit Scope act_scope with act.
Notation "x <- m ;; k" := (bind m (fun x => k))
  (at level 61, m at next level, right associativity) : act_scope.
Notation "m ;; k" := (bind m (fun _ => k))
  (at level 61, right associativity) : act_scope.
Local Open Scope act_scope.

(** ** Derived values of a render *)

Definition canProceedToVoice (s : State) : bool := s.(documentsEmbedded).

Definition canProceedToPersona (s : State) : bool :=
  s.(documentsEmbedded) && s.(voiceCloneGenerated).

Definition canProceedToChat (s : State) : bool :=
  s.(documentsEmbedded) && s.(voiceCloneGenerated) && s.(personaConfigured).

(** [{knowledgeStats?.total_documents || 0} documents] in the settings menu. *)
Definition shownDocumentCount (s : State) : Z :=
  match s.(knowledgeStats) with
  | Some n => n
  | None => 0%Z
  end.

(** [message.sources !== undefined && message.sources > 0]: whether the
    "Using n knowledge sources" line is rendered under a message. *)
Definition sourcesBadge (m : Message) : bool :=
  match m.(sources) with
  | Some n => (0 <? n)%Z
  | None => false
  end.

(** ** [sendMessage] *)

(** The text handed to the voice clone: at most 500 code units. *)
Definition truncatedResponse (text_response : jsstring) : jsstring :=
  if 500 <? List.length text_response
  then substring0 497 text_response ++ lit "..."
  else text_response.

(** [systemPrompt || undefined] *)
Definition or_undefined (o : option jsstring) : option jsstring :=
  match o with
  | Some p => if truthy p then Some p else None
  | None => None
  end.

Definition dataUrl (audio : jsstring) : jsstring :=
  lit "data:audio/wav;base64," ++ audio.

Section Handlers.

Variable api : Api.

(** The body of the [try] block of [sendMessage]; [s0] is the render the
    handler closed over, [now'] the clock when the answer is built. *)
Definition sendMessage_try (s0 : State) (userMessage : Message) (now' : N) : Act unit :=
  prompt <- read systemPrompt ;;
  let request := mkChatRequest userMessage.(content) s0.(conversationId)
                   (negb s0.(voiceCloneGenerated)) (or_undefined prompt) in
  response <- await (CallChat request) (fun tr => api.(chatWithKnowledge) tr request) ;;
  url <- match s0.(voiceCloneGenerated), s0.(voiceFile) with
         | true, Some file =>
             let tts := mkTTSRequest (truncatedResponse response.(text_response)) in
             ttsResponse <- await (CallTTS tts file)
                              (fun tr => api.(generateTTSWithVoice) tr tts file) ;;
             let audioUrl := dataUrl ttsResponse.(audio_base64) in
             update (emit (PlayAudio audioUrl)) ;;
             ret (Some audioUrl)
         | _, _ => ret None
         end ;;
  let assistantMessage :=
    mkMessage now' assistant response.(text_response) url
              (Some response.(sources_used)) now' in
  update (setMessages (fun prev => prev ++ [assistantMessage])).

Definition sendMessage (now now' : N) : Act unit :=
  fun s0 =>
    if negb (truthy (trim s0.(inputMessage))) || s0.(isGenerating)
    then (Ok tt, s0)
    else
      let userMessage := mkMessage now user s0.(inputMessage) None None now in
      (update (setMessages (fun prev => prev ++ [userMessage])) ;;
       update (setInputMessage []) ;;
       update (setIsGenerating true) ;;
       try_catch_finally
         (sendMessage_try s0 userMessage now')
         (fun _ => toast "Error" "Failed to get response" destructive)
         (setIsGenerating false)) s0.

(** ** [processDocuments] *)

(** [((i + 1) / documents.length) * 100], as an exact rational where the
    page computes a double; the value only moves the progress bar. *)
Definition progressAfter (i total : nat) : Q :=
  ((inject_Z (Z.of_nat (i + 1)) / inject_Z (Z.of_nat total)) * 100)%Q.

(** One turn of the [for] loop. A document that has neither a file nor a
    non-empty content is passed over. *)
Definition processOne (total i : nat) (doc : Document) : Act unit :=
  match doc.(doc_file) with
  | Some file =>
      await (CallUpload file) (fun tr => api.(uploadTextFile) tr file) ;;
      update (setUploadProgress (progressAfter i total))
  | None =>
      match doc.(doc_content) with
      | Some pasted =>
          if truthy pasted then
            let request := mkAddKnowledge [pasted] [doc.(doc_name)] in
            await (CallAddKnowledge request) (fun tr => api.(addKnowledge) tr request) ;;
            update (setUploadProgress (progressAfter i total))
          else ret tt
      | None => ret tt
      end
  end.

(** The request one turn of the loop sends, if any. *)
Definition requestOf (doc : Document) : list Effect :=
  match doc.(doc_file) with
  | Some file => [CallUpload file]
  | None =>
      match doc.(doc_content) with
      | Some pasted =>
          if truthy pasted
          then [CallAddKnowledge (mkAddKnowledge [pasted] [doc.(doc_name)])]
          else []
      | None => []
      end
  end.

(** How the server settles that request after the page's trace [tr]. *)
Definition outcomeOf (tr : list Effect) (doc : Document) : Result unit :=
  match doc.(doc_file) with
  | Some file => api.(uploadTextFile) tr file
  | None =>
      match doc.(doc_content) with
      | Some pasted =>
          if truthy pasted
          then api.(addKnowledge) tr (mkAddKnowledge [pasted] [doc.(doc_name)])
          else Ok tt
      | None => Ok tt
      end
  end.

(** [for (let i = ...; i < documents.length; i++)], from index [i] on. *)
Fixpoint processLoop (total i : nat) (docs : list Document) : Act unit :=
  match docs with
  | [] => ret tt
  | doc :: rest => processOne total i doc ;; processLoop total (S i) rest
  end.

Definition processDocuments : Act unit :=
  fun s0 =>
    match s0.(documents) with
    | [] => (Ok tt, toast "No documents" "Please add some documents first" destructive s0)
    | _ :: _ =>
        (update (setIsUploading true) ;;
         update (setUploadProgress 0%Q) ;;
         try_catch_finally
           (processLoop (List.length s0.(documents)) 0 s0.(documents) ;;
            update (setUploadProgress 100%Q) ;;
            update (setDocumentsEmbedded true) ;;
            update (toast "Documents embedded" "Knowledge base created successfully" default) ;;
            update (emit CheckHealth))
           (fun _ s => toast "Processing failed" "Failed to create knowledge base"
                         destructive (emit ConsoleError s))
           (setIsUploading false)) s0
    end.

(** ** [clearKnowledgeBase] *)

(** [confirmed] is the answer to the [confirm(...)] dialog. A rejected reset
    only shows a toast. *)
Definition clearKnowledgeBase (confirmed : bool) : Act unit :=
  if negb confirmed then ret tt
  else
    fun s0 =>
      match await CallReset api.(resetKnowledge) s0 with
      | (Ok tt, s) =>
          (Ok tt,
           emit CheckHealth
             (toast "Knowledge base cleared"
                "All documents and embeddings have been removed" default
                (setCurrentStep upload
                   (setPersonaConfigured false
                      (setVoiceCloneGenerated false
                         (setDocumentsEmbedded false
                            (setKnowledgeStats None
                               (setMessages (fun _ => [])
                                  (setDocuments [] s)))))))))
      | (Threw _, s) =>
          (Ok tt, toast "Error" "Failed to clear knowledge base" destructive s)
      end.

(** ** [generateVoiceClone] *)

Definition testText : jsstring := lit "Hello! This is a test of my cloned voice.".

Definition generateVoiceClone : Act unit :=
  fun s0 =>
    match s0.(voiceFile) with
    | None =>
        (Ok tt, toast "No voice sample" "Please upload a voice sample first" destructive s0)
    | Some file =>
        (update (setIsGeneratingVoice true) ;;
         try_catch_finally
           (let tts := mkTTSRequest testText in
            response <- await (CallTTS tts file)
                          (fun tr => api.(generateTTSWithVoice) tr tts file) ;;
            if truthy response.(audio_base64) then
              let audioUrl := dataUrl response.(audio_base64) in
              update (setVoiceCloneGenerated true) ;;
              update (setTestAudioUrl (Some audioUrl)) ;;
              update (setTestVoiceText testText) ;;
              update (emit (PlayAudio audioUrl)) ;;
              update (toast "Voice clone generated!"
                        "Your voice has been cloned successfully. You can test it below."
                        default)
            else ret tt)
           (fun _ s => toast "Error" "Failed to generate voice clone. Please try again."
                         destructive (emit ConsoleError s))
           (setIsGeneratingVoice false)) s0
    end.

End Handlers.

(** ** [configurePersona] *)

(** [prompt] is the system prompt the handler builds from the persona form. *)
Definition configurePersona (prompt : jsstring) (s : State) : State :=
  toast "Persona configured" "Your AI twin is ready to chat!" default
    (setCurrentStep chat (setPersonaConfigured true (setSystemPrompt (Some prompt) s))).

(** ** The step wizard *)

(** [onValueChange] of [<Tabs value={currentStep}>]: the sequential flow is
    enforced before the step is set. *)
Definition onValueChange (value : Step) (s : State) : State :=
  if Step_eqb value voice && negb (canProceedToVoice s) then
    toast "Complete previous step" "Please upload and embed documents first" destructive s
  else if Step_eqb value persona && negb (canProceedToPersona s) then
    toast "Complete previous steps"
      "Please complete document embedding and voice cloning first" destructive s
  else if Step_eqb value chat && negb (canProceedToChat s) then
    toast "Complete previous steps" "Please complete all setup steps first" destructive s
  else setCurrentStep value s.

(** What can happen to the page. A button belongs to the panel of one step
    ([<TabsContent value=...>]) and can be clicked only while that panel is
    shown, it is rendered, and it is not [disabled]. The asynchronous
    handlers are events that run to their end; since the user may act while
    one of them awaits the server, what they write to the setup flags after
    their last [await] is an event of its own as well. *)
Inductive Event :=
| SelectTab (value : Step)
| NextVoiceCloning                 (* upload: "Next: Voice Cloning" *)
| ContinueWithoutDocuments         (* upload: "Continue without Documents" *)
| UploadNewVoice                   (* voice: "Upload New Voice" *)
| VoiceBack                        (* voice: "Back" *)
| NextConfigurePersona             (* voice: "Next: Configure Persona" *)
| SetUpTwin (prompt : jsstring)    (* persona: "Set Up Twin Configuration" / "Save Changes" *)
| EditConfiguration                (* persona: "Edit Configuration" *)
| CancelEditing                    (* persona: "Cancel Editing" *)
| PersonaBack                      (* persona: "Back" *)
| StartChatting                    (* persona: "Start Chatting" *)
| AddDocument (doc : Document)     (* upload: handleFileUpload, handlePasteText *)
| RemoveDocument (id : N)          (* upload: the X next to a document *)
| VoiceSelected (file : File)      (* voice: handleVoiceUpload, file accepted *)
| TypeMessage (input : jsstring)   (* chat: the input box *)
| EmbedDocuments (api : Api)       (* upload: "Embed Documents" *)
| GenerateClone (api : Api)        (* voice: "Generate Voice Clone" *)
| Send (api : Api) (now now' : N)  (* chat: the send button, the Enter key *)
| ClearKnowledge (api : Api) (confirmed : bool) (* settings menu *)
| DocumentsProcessed               (* processDocuments, every upload resolved *)
| VoiceCloned                      (* generateVoiceClone, audio received *)
| KnowledgeCleared.                (* clearKnowledgeBase, reset resolved *)

(** Whether the control behind an event can be operated in render [s]. *)
Definition enabled (e : Event) (s : State) : bool :=
  match e with
  | SelectTab _ => true
  | NextVoiceCloning => Step_eqb s.(currentStep) upload && s.(documentsEmbedded)
  | ContinueWithoutDocuments => Step_eqb s.(currentStep) upload && negb s.(documentsEmbedded)
  | UploadNewVoice => Step_eqb s.(currentStep) voice && s.(voiceCloneGenerated)
  | VoiceBack => Step_eqb s.(currentStep) voice
  | NextConfigurePersona => Step_eqb s.(currentStep) voice && s.(voiceCloneGenerated)
  | SetUpTwin _ =>
      Step_eqb s.(currentStep) persona
      && (negb s.(personaConfigured) || s.(isEditingPersona))
  | EditConfiguration =>
      Step_eqb s.(currentStep) persona
      && (s.(personaConfigured) && negb s.(isEditingPersona))
  | CancelEditing =>
      Step_eqb s.(currentStep) persona
      && (negb s.(personaConfigured) || s.(isEditingPersona))
      && s.(isEditingPersona)
  | PersonaBack => Step_eqb s.(currentStep) persona
  | StartChatting =>
      Step_eqb s.(currentStep) persona
      && negb (negb s.(personaConfigured) || s.(isEditingPersona))
  | AddDocument _ => Step_eqb s.(currentStep) upload && negb s.(documentsEmbedded)
  | RemoveDocument _ => Step_eqb s.(currentStep) upload && negb s.(documentsEmbedded)
  | VoiceSelected _ => Step_eqb s.(currentStep) voice && negb s.(voiceCloneGenerated)
  | TypeMessage _ => Step_eqb s.(currentStep) chat && negb s.(isGenerating)
  | EmbedDocuments _ =>
      Step_eqb s.(currentStep) upload
      && (negb (Nat.eqb (List.length s.(documents)) 0) && negb s.(documentsEmbedded))
      && negb s.(isUploading)
  | GenerateClone _ =>
      Step_eqb s.(currentStep) voice
      && (match s.(voiceFile) with Some _ => true | None => false end
          && negb s.(voiceCloneGenerated))
      && negb s.(isGeneratingVoice)
  | Send _ _ _ => Step_eqb s.(currentStep) chat
  | ClearKnowledge _ _ => true
  | DocumentsProcessed => true
  | VoiceCloned => true
  | KnowledgeCleared => true
  end.

(** What the handler of an event does to the state. *)
Definition handle (e : Event) (s : State) : State :=
  match e with
  | SelectTab value => onValueChange value s
  | NextVoiceCloning => setCurrentStep voice s
  | ContinueWithoutDocuments => setCurrentStep voice (setDocumentsEmbedded true s)
  | UploadNewVoice =>
      setVoiceCloneGenerated false (setIsVoiceReady false (setVoiceFile None s))
  | VoiceBack => setCurrentStep upload s
  | NextConfigurePersona => setCurrentStep persona s
  | SetUpTwin prompt => setIsEditingPersona false (configurePersona prompt s)
  | EditConfiguration => setIsEditingPersona true s
  | CancelEditing => setIsEditingPersona false s
  | PersonaBack => setCurrentStep voice s
  | StartChatting => setCurrentStep chat s
  | AddDocument doc => setDocuments (s.(documents) ++ [doc]) s
  | RemoveDocument id =>
      setDocuments (filter (fun d => negb (N.eqb d.(doc_id) id)) s.(documents)) s
  | VoiceSelected file =>
      toast "Voice uploaded" "Your voice sample has been uploaded successfully" default
        (setIsVoiceReady true (setVoiceFile (Some file) s))
  | TypeMessage input => setInputMessage input s
  | EmbedDocuments api => snd (processDocuments api s)
  | GenerateClone api => snd (generateVoiceClone api s)
  | Send api now now' => snd (sendMessage api now now' s)
  | ClearKnowledge api confirmed => snd (clearKnowledgeBase api confirmed s)
  | DocumentsProcessed => setDocumentsEmbedded true s
  | VoiceCloned => setVoiceCloneGenerated true s
  | KnowledgeCleared =>
      setCurrentStep upload
        (setPersonaConfigured false
           (setVoiceCloneGenerated false (setDocumentsEmbedded false s)))
  end.

Definition step (s : State) (e : Event) : State :=
  if enabled e s then handle e s else s.

Definition run (events : list Event) (s : State) : State :=
  fold_left step events s.

(** The setup flags a step needs. *)
Definition prerequisite (value : Step) (s : State) : bool :=
  match value with
  | upload => true
  | voice => canProceedToVoice s
  | persona => canProceedToPersona s
  | chat => canProceedToChat s
  end.

(** What the wizard part of a state may look like after any events. *)
Definition sequential (s : State) : Prop :=
  prerequisite s.(currentStep) s = true.

(** ** Servers and states to run the handlers on *)

(** A server that answers no request in time. *)
Definition api_down : Api :=
  mkApi (fun _ _ => Threw Timeout) (fun _ _ _ => Threw Timeout)
        (fun _ _ => Threw Timeout) (fun _ _ => Threw Timeout)
        (fun _ => Threw Timeout).

(** A server that answers every request; the chat answer repeats the
    question and uses [n] sources. *)
Definition api_up (n : Z) : Api :=
  mkApi (fun _ r => Ok (mkChatResponse r.(message) n 0))
        (fun _ r _ => Ok (mkTTSResponse r.(text)))
        (fun _ _ => Ok tt) (fun _ _ => Ok tt) (fun _ => Ok tt).

(** A server that rejects the upload of the files named [name] and accepts
    everything else. *)
Definition api_rejecting (name : jsstring) : Api :=
  mkApi (fun _ r => Ok (mkChatResponse r.(message) 0 0))
        (fun _ r _ => Ok (mkTTSResponse r.(text)))
        (fun _ f => if list_eq_dec N.eq_dec f.(file_name) name
                    then Threw (HttpError 500) else Ok tt)
        (fun _ _ => Ok tt) (fun _ => Ok tt).

Definition sample_voice : File := mkFile (lit "me.wav") (lit "audio/wav") 4096.

Definition file_document (i : N) (name : string) : Document :=
  mkDocument i (lit name) None (Some 10%N)
             (Some (mkFile (lit name) (lit "text/plain") 10)).

(** The page of a user who typed "hello" into the chat box. *)
Definition typed_hello : State := setInputMessage (lit "hello") (initial 1).

(** The same with a cloned voice. *)
Definition typed_hello_cloned : State :=
  setVoiceCloneGenerated true (setVoiceFile (Some sample_voice) typed_hello).

(** A batch of two files whose first upload the server rejects. *)
Definition bad_then_good : State :=
  setDocuments [file_document 1 "bad.txt"; file_document 2 "good.txt"] (initial 1).

(** A user who skips the documents, clones a voice and sets up the twin. *)
Definition quick_setup : list Event :=
  [ContinueWithoutDocuments; VoiceSelected sample_voice; GenerateClone (api_up 0);
   NextConfigurePersona; SetUpTwin (lit "You are Ada.")].

End Page.

(* ===================================================================== *)
(** * Base64: [base64ToBlob] of the deprecated HTML frontend              *)
(* ===================================================================== *)

Module Base64.

Local Open Scope N_scope.

(** ** The browser's [atob] (forgiving-base64 decode) *)

(** The value of a character of the base64 alphabet. *)
Definition sextet (c : code_unit) : option N :=
  if (65 <=? c) && (c <=? 90) then Some (c - 65)          (* A-Z *)
  else if (97 <=? c) && (c <=? 122) then Some (c - 71)    (* a-z *)
  else if (48 <=? c) && (c <=? 57) then Some (c + 4)      (* 0-9 *)
  else if c =? 43 then Some 62                            (* + *)
  else if c =? 47 then Some 63                            (* / *)
  else None.

Definition is_ascii_whitespace (c : code_unit) : bool :=
  (c =? 9) || (c =? 10) || (c =? 12) || (c =? 13) || (c =? 32).

(** One or two trailing [=] are removed. *)
Definition strip_padding (data : jsstring) : jsstring :=
  match rev data with
  | c1 :: r1 =>
      if c1 =? 61 then
        match r1 with
        | c2 :: r2 => if c2 =? 61 then rev r2 else rev r1
        | [] => rev r1
        end
      else data
  | [] => data
  end.

Fixpoint sextets (data : jsstring) : option (list N) :=
  match data with
  | [] => Some []
  | c :: rest =>
      match sextet c, sextets rest with
      | Some v, Some vs => Some (v :: vs)
      | _, _ => None
      end
  end.

(** The bit buffer: 24 bits give three bytes; 18 left-over bits give two
    bytes and 12 give one, the last 2 or 4 bits being dropped. *)
Fixpoint decode (vs : list N) : list N :=
  match vs with
  | a :: b :: c :: d :: rest =>
      let n := ((a * 64 + b) * 64 + c) * 64 + d in
      n / 65536 :: (n / 256) mod 256 :: n mod 256 :: decode rest
  | [a; b; c] =>
      let n := ((a * 64 + b) * 64 + c) / 4 in
      [n / 256; n mod 256]
  | [a; b] => [(a * 64 + b) / 16]
  | _ => []
  end.

(** [atob(data)]: the binary string, one code unit per byte, or [None] when
    an [InvalidCharacterError] is thrown. *)
Definition atob (data : jsstring) : option jsstring :=
  let data := filter (fun c => negb (is_ascii_whitespace c)) data in
  let data :=
    if N.of_nat (List.length data) mod 4 =? 0 then strip_padding data else data in
  if N.of_nat (List.length data) mod 4 =? 1 then None
  else match sextets data with
       | Some vs => Some (decode vs)
       | None => None
       end.

(** ** [base64ToBlob] *)

(** An [Array]: a slot is a number or a hole. *)
Definition array := list (option N).

(** [new Array(n)] *)
Definition new_Array (n : nat) : array := repeat None n.

(** [a[i] = v]; an index past the end lengthens the array. *)
Definition assign (a : array) (i : nat) (v : option N) : array :=
  firstn i (a ++ repeat None (i - List.length a)) ++ v :: skipn (S i) a.

(** [s.charCodeAt(i)]; [None] is [NaN]. *)
Definition charCodeAt (s : jsstring) (i : nat) : option N := nth_error s i.

(** [for (let i = ...; i < byteCharacters.length; i++)
       byteNumbers[i] = byteCharacters.charCodeAt(i);]
    with [todo] turns left. *)
Fixpoint fill (byteCharacters : jsstring) (todo i : nat) (byteNumbers : array) : array :=
  match todo with
  | O => byteNumbers
  | S todo' =>
      fill byteCharacters todo' (S i)
           (assign byteNumbers i (charCodeAt byteCharacters i))
  end.

(** An element of [new Uint8Array(array)]: the number modulo 256, and 0 for
    a hole or [NaN]. *)
Definition toUint8 (v : option N) : N :=
  match v with
  | Some n => n mod 256
  | None => 0
  end.

Definition Uint8Array (a : array) : list N := map toUint8 a.

Record Blob := mkBlob {
  blob_bytes : list N;
  blob_type : jsstring
}.

Definition to_ascii_lowercase (c : code_unit) : code_unit :=
  if (65 <=? c) && (c <=? 90) then c + 32 else c.

(** The [type] of [new Blob(parts, { type })]: empty when [type] has a code
    unit outside U+0020 to U+007E, and in ASCII lower case otherwise. *)
Definition blobType (type : jsstring) : jsstring :=
  if forallb (fun c => (32 <=? c) && (c <=? 126)) type
  then map to_ascii_lowercase type
  else [].

(** [new Blob([byteArray], { type })] *)
Definition new_Blob (byteArray : list N) (type : jsstring) : Blob :=
  mkBlob byteArray (blobType type).

Definition base64ToBlob (base64 mimeType : jsstring) : option Blob :=
  match atob base64 with
  | None => None
  | Some byteCharacters =>
      let byteNumbers := new_Array (List.length byteCharacters) in
      let byteNumbers :=
        fill byteCharacters (List.length byteCharacters) 0 byteNumbers in
      let byteArray := Uint8Array byteNumbers in
      Some (new_Blob byteArray mimeType)
  end.

(** ** The encoding the server applies to the audio bytes (RFC 4648, 4) *)

Definition base64_char (v : N) : code_unit :=
  if v <? 26 then v + 65
  else if v <? 52 then v + 71
  else if v <? 62 then v - 4
  else if v =? 62 then 43
  else 47.

Fixpoint b64encode (bytes : list N) : jsstring :=
  match bytes with
  | a :: b :: c :: rest =>
      base64_char (a / 4)
      :: base64_char ((a mod 4) * 16 + b / 16)
      :: base64_char ((b mod 16) * 4 + c / 64)
      :: base64_char (c mod 64)
      :: b64encode rest
  | [a; b] =>
      [base64_char (a / 4); base64_char ((a mod 4) * 16 + b / 16);
       base64_char ((b mod 16) * 4); 61]
  | [a] => [base64_char (a / 4); base64_char ((a mod 4) * 16); 61; 61]
  | [] => []
  end.

(** The same without the [=] signs at the end. *)
Fixpoint unpadded (bytes : list N) : jsstring :=
  match bytes with
  | a :: b :: c :: rest =>
      base64_char (a / 4)
      :: base64_char ((a mod 4) * 16 + b / 16)
      :: base64_char ((b mod 16) * 4 + c / 64)
      :: base64_char (c mod 64)
      :: unpadded rest
  | [a; b] =>
      [base64_char (a / 4); base64_char ((a mod 4) * 16 + b / 16);
       base64_char ((b mod 16) * 4)]
  | [a] => [base64_char (a / 4); base64_char ((a mod 4) * 16)]
  | [] => []
  end.

Definition is_byte (n : N) : Prop := n < 256.

(** A type [new Blob] keeps as it is: printable ASCII without capitals. *)
Definition canonical (type : jsstring) : Prop :=
  Forall (fun c => 32 <= c <= 126 /\ ~ 65 <= c <= 90) type.

(** Neither white space nor [=]. *)
Definition plain (c : code_unit) : Prop :=
  is_ascii_whitespace c = false /\ (c =? 61) = false.

(** Three bytes of a WAV header, to run the functions on. *)
Definition riff : list N := [82; 73; 70].

End Base64.

(* ===================================================================== *)
(** * Knowledge: the retrieval engine behind the REST endpoints           *)
(* ===================================================================== *)

(** The server is not part of the sources at hand (only its endpoints, their
    documentation and the page that calls them are). Its components are
    modelled from the design document, one definition per operation. *)

Module Knowledge.

(** ** Scores *)

(** Modelled from the spec: the similarity measure of the vector store and
    the order of its scores (the embedding model and the index are missing).
    [similarity q e] scores a stored embedding [e] against a query [q];
    [leb] is a total preorder on scores. *)
Class Measure (Vec Score : Type) := mkMeasure {
  similarity : Vec -> Vec -> Score;
  leb : Score -> Score -> bool;
  leb_total : forall a b, leb a b = true \/ leb b a = true;
  leb_trans : forall a b c, leb a b = true -> leb b c = true -> leb a c = true
}.

(** ** Cosine similarity *)

(** Dot product and Euclidean norm of real vectors; vectors of one
    collection have the same dimension. *)
Definition dot (u v : list R) : R :=
  fold_right Rplus 0%R (map (fun p => (fst p * snd p)%R) (combine u v)).

Definition norm (u : list R) : R := sqrt (dot u u).

(** Modelled from the spec: the cosine similarity of the missing vector
    index, "dot product of the query and each stored embedding divided by
    the product of their norms". *)
Definition cosine (q e : list R) : R := (dot q e / (norm q * norm e))%R.

(** [a <= b] on real scores. *)
Definition Rleb (a b : R) : bool := if Rle_dec a b then true else false.

(** The same with exact rationals and embeddings of norm 1, where the cosine
    is the dot product: an instance that computes. *)
Definition dotQ (u v : list Q) : Q :=
  fold_right Qplus 0%Q (map (fun p => (fst p * snd p)%Q) (combine u v)).

(** ** Data model *)

(** Modelled from the spec: the records of section 3 (the server's own
    declarations are missing): a stored document, a retrieval result and a
    conversation turn; a turn can be marked failed (section 4.7). *)
Definition Metadata := list (string * string).

Record Document (Vec : Type) := mkDocument {
  id : N;
  text : string;
  embedding : Vec;
  metadata : Metadata;
  created_at : N
}.

Record RetrievalResult (Score : Type) := mkResult {
  document_id : N;
  score : Score;
  result_text : string;
  result_metadata : Metadata
}.

Inductive Role := user | assistant.

Record Turn := mkTurn {
  role : Role;
  content : string;
  timestamp : N;
  failed : bool
}.

(** Modelled from the spec: the failures named in sections 4 and 7. *)
Inductive Error :=
| EmbeddingError
| DuplicateIdError
| NotFoundError
| RateLimited
| Timeout
| InvalidRequest.

Section Engine.

Context {Vec Score : Type} {M : Measure Vec Score}.

(** ** VectorStore *)

(** Modelled from the spec: the collection of the missing vector store, the
    live documents in insertion order. *)
Definition Collection := list (Document Vec).

Definition empty : Collection := [].

Definition has_id (i : N) (c : Collection) : bool :=
  existsb (fun d => N.eqb d.(id) i) c.

(** An id no document of the collection has. *)
Definition fresh_id (c : Collection) : N :=
  N.succ (fold_right N.max 0%N (map (fun d => d.(id)) c)).

(** Modelled from the spec: [add(document)] of the missing vector store,
    "assigns an id if absent; fails with DuplicateIdError if the id exists". *)
Definition add (i : option N) (t : string) (e : Vec) (m : Metadata) (now : N)
    (c : Collection) : Error + Collection :=
  match i with
  | None => inr (c ++ [mkDocument (fresh_id c) t e m now])
  | Some i =>
      if has_id i c then inl DuplicateIdError
      else inr (c ++ [mkDocument i t e m now])
  end.

(** Modelled from the spec: [delete(id)] of the missing vector store; an
    absent id is reported. *)
Definition delete (i : N) (c : Collection) : Error + Collection :=
  if has_id i c then inr (filter (fun d => negb (N.eqb d.(id) i)) c)
  else inl NotFoundError.

(** Modelled from the spec: [reset()] of the missing vector store, "clears
    the entire collection". *)
Definition reset (c : Collection) : Collection := empty.

(** Modelled from the spec: the [Stats] interface, [{totalDocuments}]. *)
Definition totalDocuments (c : Collection) : nat := List.length c.

(** The result a document gives for the query vector [q]. *)
Definition scored (q : Vec) (d : Document Vec) : RetrievalResult Score :=
  mkResult d.(id) (similarity q d.(embedding)) d.(text) d.(metadata).

(** [r] goes before the first result that does not score higher. *)
Fixpoint insert (r : RetrievalResult Score) (l : list (RetrievalResult Score))
    : list (RetrievalResult Score) :=
  match l with
  | [] => [r]
  | x :: l' =>
      if leb x.(score) r.(score) then r :: x :: l' else x :: insert r l'
  end.

(** Highest similarity first; equal scores stay in insertion order. *)
Definition rank (l : list (RetrievalResult Score)) : list (RetrievalResult Score) :=
  fold_right insert [] l.

(** Modelled from the spec: [query(vector, k)] of the missing vector store,
    "returns up to k nearest neighbors by cosine similarity, highest
    similarity first". *)
Definition query (q : Vec) (k : nat) (c : Collection) : list (RetrievalResult Score) :=
  firstn k (rank (map (scored q) c)).

(** [a] does not score higher than [b]. *)
Definition below (a b : RetrievalResult Score) : Prop :=
  leb a.(score) b.(score) = true.

(** Highest score first. *)
Definition descending (l : list (RetrievalResult Score)) : Prop :=
  StronglySorted (fun a b => below b a) l.

(** The results whose score equals [x] as far as the order can tell. *)
Definition tied (x : Score) (r : RetrievalResult Score) : bool :=
  leb x r.(score) && leb r.(score) x.

(** ** Retriever *)

(** [a < b] on scores. *)
Definition ltb (a b : Score) : bool := negb (leb b a).

(** A candidate the threshold does not filter out. *)
Definition kept (threshold : Score) (r : RetrievalResult Score) : bool :=
  negb (ltb r.(score) threshold).

Variable embed : string -> Error + Vec.

(** Modelled from the spec: [retrieve(queryText, k, threshold)] of the
    missing retriever: embed, query the top [k], then "filter out any
    candidate with score < threshold". *)
Definition retrieve (queryText : string) (k : nat) (threshold : Score)
    (c : Collection) : Error + list (RetrievalResult Score) :=
  match embed queryText with
  | inl e => inl e
  | inr v =>
      inr (filter (kept threshold) (query v k c))
  end.

(** ** ConversationStore *)

(** Modelled from the spec: the missing conversation store, the turns of
    each conversation id, oldest first; an id never seen has no turns. *)
Definition Conversations := N -> list Turn.

Definition no_conversations : Conversations := fun _ => [].

(** Modelled from the spec: [appendTurn(conversationId, turn)], "appends to
    that conversation's history only". *)
Definition appendTurn (cid : N) (t : Turn) (cs : Conversations) : Conversations :=
  fun i => if N.eqb i cid then cs i ++ [t] else cs i.

(** Modelled from the spec: [getHistory(conversationId, maxTurns)], "the
    most recent maxTurns turns in chronological order". *)
Definition getHistory (cid : N) (maxTurns : nat) (cs : Conversations) : list Turn :=
  skipn (List.length (cs cid) - maxTurns) (cs cid).

(** ** Generator and PromptAssembler *)

(** Modelled from the spec: what [generate] returns, [{text, tokensUsed}];
    the assembler and the model are collaborators of the orchestrator. *)
Record Generated := mkGenerated {
  generated_text : string;
  generated_tokens : nat
}.

Variable PromptSegments : Type.

Variable assemble :
  string -> list (RetrievalResult Score) -> list Turn -> string -> PromptSegments.

(** The external model; the outcome may differ from one attempt to the next. *)
Variable generate : nat -> PromptSegments -> Error + Generated.

(** Modelled from the spec: the retry policy of the missing orchestrator,
    "RateLimited and Timeout are retried ... up to a small fixed attempt
    count; InvalidRequest is not retried". [attempt] counts from 0. *)
Fixpoint generate_with_retry (left attempt : nat) (p : PromptSegments)
    : Error + Generated :=
  match generate attempt p with
  | inr g => inr g
  | inl e =>
      match e, left with
      | (RateLimited | Timeout), S left' => generate_with_retry left' (S attempt) p
      | _, _ => inl e
      end
  end.

(** ** Orchestrator *)

(** The settings the documentation lists in [kb_config.py] ([TOP_K_RESULTS],
    [SIMILARITY_THRESHOLD]) with the history bound and the retry count. *)
Record Config := mkConfig {
  top_k : nat;
  similarity_threshold : Score;
  max_turns : nat;
  retries : nat
}.

(** Modelled from the spec: the result of a chat turn,
    [{responseText, sourcesUsed, relevanceScores, tokensUsed}]. *)
Record ChatResult := mkChatResult {
  responseText : string;
  sourcesUsed : nat;
  relevanceScores : list Score;
  tokensUsed : nat
}.

(** Modelled from the spec: the "synthetic error turn (role assistant,
    marked failed)". *)
Definition error_turn (now : N) : Turn := mkTurn assistant "" now true.

(** Modelled from the spec: [chatWithKnowledge(message, conversationId,
    personaPrompt)] of the missing orchestrator, steps 1 to 5 of its
    description. The collection is read, the conversations are updated. *)
Definition chatWithKnowledge (cfg : Config) (c : Collection)
    (message : string) (cid : N) (personaPrompt : string) (now : N)
    (cs : Conversations) : (Error + ChatResult) * Conversations :=
  let cs1 := appendTurn cid (mkTurn user message now false) cs in
  match retrieve message cfg.(top_k) cfg.(similarity_threshold) c with
  | inl e => (inl e, appendTurn cid (error_turn now) cs1)
  | inr retrievedResults =>
      let history := getHistory cid cfg.(max_turns) cs1 in
      let prompt := assemble personaPrompt retrievedResults history message in
      match generate_with_retry cfg.(retries) 0 prompt with
      | inl e => (inl e, appendTurn cid (error_turn now) cs1)
      | inr g =>
          (inr (mkChatResult g.(generated_text)
                  (List.length retrievedResults)
                  (map (fun r => r.(score)) retrievedResults)
                  g.(generated_tokens)),
           appendTurn cid (mkTurn assistant g.(generated_text) now false) cs1)
      end
  end.

End Engine.

End Knowledge.

(* ===================================================================== *)
(** * Measures and a small knowledge base                                 *)
(* ===================================================================== *)

(** ** The two measures *)

Lemma Rleb_le a b : Knowledge.Rleb a b = true <-> (a <= b)%R.
Proof.
  unfold Knowledge.Rleb.
  destruct (Rle_dec a b); split; trivial; try discriminate. intros. contradiction.
Qed.

Lemma Rleb_total a b : Knowledge.Rleb a b = true \/ Knowledge.Rleb b a = true.
Proof. rewrite !Rleb_le. lra. Qed.

Lemma Rleb_trans a b c :
  Knowledge.Rleb a b = true -> Knowledge.Rleb b c = true -> Knowledge.Rleb a c = true.
Proof. rewrite !Rleb_le. lra. Qed.

(** Cosine similarity on real vectors. *)
#[export] Instance cosine_measure : Knowledge.Measure (list R) R :=
  Knowledge.mkMeasure Knowledge.cosine Knowledge.Rleb Rleb_total Rleb_trans.

Lemma Qle_bool_total a b : Qle_bool a b = true \/ Qle_bool b a = true.
Proof.
  destruct (Qlt_le_dec a b) as [H | H]; [left | right]; apply Qle_bool_iff.
  - now apply Qlt_le_weak.
  - exact H.
Qed.

Lemma Qle_bool_trans a b c :
  Qle_bool a b = true -> Qle_bool b c = true -> Qle_bool a c = true.
Proof.
  intros H1 H2. apply Qle_bool_iff. apply Qle_bool_iff in H1, H2.
  now apply Qle_trans with b.
Qed.

(** Dot product on rational vectors of norm 1. *)
#[export] Instance dot_measure : Knowledge.Measure (list Q) Q :=
  Knowledge.mkMeasure Knowledge.dotQ Qle_bool Qle_bool_total Qle_bool_trans.

(** ** A small knowledge base to run the engine on *)

(** Three documents with embeddings of norm 1. *)
Definition zoo : Knowledge.Collection (Vec := list Q) :=
  [Knowledge.mkDocument 1 "cats are mammals" [1; 0; 0]%Q [] 10;
   Knowledge.mkDocument 2 "dogs are mammals" [4 # 5; 3 # 5; 0]%Q [] 11;
   Knowledge.mkDocument 3 "the sky is blue" [0; 0; 1]%Q [] 12].

(** An embedder that knows one question and rejects the empty text. *)
Definition toy_embed (t : string) : Knowledge.Error + list Q :=
  if String.eqb t "" then inl Knowledge.EmbeddingError
  else if String.eqb t "what mammals exist?" then inr [3 # 5; 4 # 5; 0]%Q
  else inr [0; 1; 0]%Q.

(** The prompt is the bare message; the model answers with the prompt. *)
Definition toy_assemble (persona : string)
    (retrieved : list (Knowledge.RetrievalResult Q))
    (history : list Knowledge.Turn) (message : string) : string := message.

Definition toy_generate (attempt : nat) (prompt : string)
    : Knowledge.Error + Knowledge.Generated :=
  inr (Knowledge.mkGenerated prompt 7).

(** A model that answers at the third attempt. *)
Definition slow_generate (attempt : nat) (prompt : string)
    : Knowledge.Error + Knowledge.Generated :=
  if Nat.ltb attempt 2 then inl Knowledge.Timeout
  else inr (Knowledge.mkGenerated prompt 7).

Definition toy_config : Knowledge.Config (Score := Q) :=
  Knowledge.mkConfig 2 (1 # 2)%Q 6 2.


(* ===================================================================== *)
(** * Inputs: the other handlers of the wizard page                       *)
(* ===================================================================== *)

(** [handleFileUpload], [handlePasteText], [handleVoiceUpload],
    [testVoiceClone] and the text boxes of the page [Index], with the three
    state hooks of the upload panel that [Page.State] leaves out. *)

Module Inputs.

Import Page.
Local Open Scope act_scope.

Definition MAX_DOCUMENTS : nat := 10.

(** [10 * 1024 * 1024] *)
Definition MAX_FILE_SIZE : N := 10 * 1024 * 1024.

(** ** Strings *)

(** [a === b] on strings. *)
Definition str_eqb (a b : jsstring) : bool :=
  if list_eq_dec N.eq_dec a b then true else false.

(** [list.includes(x)] *)
Definition includes (l : list jsstring) (x : jsstring) : bool :=
  existsb (str_eqb x) l.

(** [s.split(sep)] for a separator of one code unit: never empty. *)
Fixpoint split (sep : code_unit) (s : jsstring) : list jsstring :=
  match s with
  | [] => [[]]
  | c :: rest =>
      if N.eqb c sep then [] :: split sep rest
      else match split sep rest with
           | seg :: segs => (c :: seg) :: segs
           | [] => [[c]]
           end
  end.

(** [array.pop()]: the last element, [undefined] for an empty array. *)
Definition pop (l : list jsstring) : option jsstring :=
  match rev l with
  | x :: _ => Some x
  | [] => None
  end.

(** The number of bytes of [new Blob([s])]: the UTF-8 encoding of [s], a
    surrogate without its partner counting as U+FFFD. *)
Fixpoint utf8_size (s : jsstring) : N :=
  match s with
  | [] => 0
  | c :: rest =>
      if N.ltb c 128 then 1 + utf8_size rest
      else if N.ltb c 2048 then 2 + utf8_size rest
      else if N.leb 55296 c && N.leb c 56319 then
        match rest with
        | d :: rest' =>
            if N.leb 56320 d && N.leb d 57343 then 4 + utf8_size rest'
            else 3 + utf8_size rest
        | [] => 3
        end
      else 3 + utf8_size rest
  end.

(** ** State *)

(** The page with [pastedText], [uploadError] and [uploadSuccess]. *)
Record Panel := mkPanel {
  page : State;
  pastedText : jsstring;
  uploadError : option string;
  uploadSuccess : bool
}.

Definition initial (session : N) : Panel :=
  mkPanel (Page.initial session) [] None false.

Definition onPage (f : State -> State) (p : Panel) : Panel :=
  mkPanel (f p.(page)) p.(pastedText) p.(uploadError) p.(uploadSuccess).

Definition setPastedText v (p : Panel) : Panel :=
  mkPanel p.(page) v p.(uploadError) p.(uploadSuccess).

Definition setUploadError v (p : Panel) : Panel :=
  mkPanel p.(page) p.(pastedText) v p.(uploadSuccess).

Definition setUploadSuccess v (p : Panel) : Panel :=
  mkPanel p.(page) p.(pastedText) p.(uploadError) v.

(** ** [handleFileUpload] *)

Definition validTypes : list jsstring :=
  [lit "text/plain";
   lit "application/pdf";
   lit "application/msword";
   lit "application/vnd.openxmlformats-officedocument.wordprocessingml.document";
   lit "application/x-pdf";
   lit "application/octet-stream"].

(** The keys of [SUPPORTED_TYPES], whose values are the [accept] list of the
    file picker. *)
Definition SUPPORTED_TYPES : list jsstring :=
  [lit "text/plain";
   lit "text/markdown";
   lit "text/csv";
   lit "application/json";
   lit "application/pdf";
   lit "application/vnd.openxmlformats-officedocument.wordprocessingml.document";
   lit "application/msword"].

(** The [catch] block of [handleFileUpload]. *)
Definition uploadFailed (message : string) (p : Panel) : Panel :=
  setUploadSuccess false (setUploadError (Some message) (onPage (emit ConsoleError) p)).

Section FileUpload.

(** [String.prototype.toLowerCase] of the browser. *)
Variable toLowerCase : jsstring -> jsstring.

(** [file.name.split('.').pop()?.toLowerCase()] *)
Definition fileExtension (file : File) : option jsstring :=
  option_map toLowerCase (pop (split 46%N file.(file_name))).

Definition isValidType (file : File) : bool :=
  includes validTypes file.(file_type)
  || (match fileExtension file with
      | Some e => str_eqb e (lit "pdf")
      | None => false
      end
      && str_eqb file.(file_type) (lit "application/octet-stream")).

Definition handleFileUpload (now : N) (file : File) (p : Panel) : Panel :=
  let p := setUploadError None p in
  if negb (isValidType file) then
    uploadFailed "Invalid file type. Please upload a text file, PDF, or Word document." p
  else if N.ltb MAX_FILE_SIZE file.(file_size) then
    uploadFailed "File size too large. Maximum size is 10MB." p
  else
    setUploadSuccess true
      (onPage (fun s => setDocuments
                          (s.(documents)
                           ++ [mkDocument now file.(file_name) None
                                 (Some file.(file_size)) (Some file)]) s) p).

End FileUpload.

(** ** [handlePasteText] *)

(** [time] is [new Date().toLocaleTimeString()]. *)
Definition handlePasteText (now : N) (time : jsstring) (p : Panel) : Panel :=
  if negb (truthy (trim p.(pastedText))) then p
  else
    onPage (toast "Text added" "Your text has been added to documents" default)
      (setPastedText []
         (onPage (fun s => setDocuments
                             (s.(documents)
                              ++ [mkDocument now (lit "Pasted text " ++ time)
                                    (Some p.(pastedText))
                                    (Some (utf8_size p.(pastedText))) None]) s) p)).

(** ** [handleVoiceUpload] *)

Definition voiceTypes : list jsstring :=
  [lit "audio/wav"; lit "audio/x-wav"; lit "audio/wave"; lit "audio/mp4";
   lit "audio/x-m4a"].

Definition handleVoiceUpload (file : File) (s : State) : State :=
  if negb (includes voiceTypes file.(file_type)) then
    toast "Error" "Invalid file type. Please upload a WAV or M4A file." destructive
      (emit ConsoleError s)
  else if N.ltb MAX_FILE_SIZE file.(file_size) then
    toast "Error" "File size too large. Maximum size is 10MB." destructive
      (emit ConsoleError s)
  else
    toast "Voice uploaded" "Your voice sample has been uploaded successfully" default
      (setIsVoiceReady true (setVoiceFile (Some file) s)).

(** ** [testVoiceClone] and its text box *)

(** [onChange] of the test text: a longer text is not taken. *)
Definition onTestVoiceTextChange (text : jsstring) (s : State) : State :=
  if Nat.leb (List.length text) 500 then setTestVoiceText text s else s.

Definition testVoiceClone (api : Api) : Act unit :=
  fun s0 =>
    match s0.(voiceFile) with
    | None => (Ok tt, s0)
    | Some file =>
        if negb (truthy (trim s0.(testVoiceText))) then (Ok tt, s0)
        else
          (update (setIsGeneratingVoice true) ;;
           try_catch_finally
             (let tts := mkTTSRequest s0.(testVoiceText) in
              response <- await (CallTTS tts file)
                            (fun tr => api.(generateTTSWithVoice) tr tts file) ;;
              let audioUrl := dataUrl response.(audio_base64) in
              update (setTestAudioUrl (Some audioUrl)) ;;
              update (emit (PlayAudio audioUrl)) ;;
              update (toast "Voice test generated" "Playing your cloned voice" default))
             (fun _ s => toast "Error" "Failed to generate voice test" destructive
                           (emit ConsoleError s))
             (setIsGeneratingVoice false)) s0
    end.

(** ** Everything the user can do *)

Section Actions.

Variable toLowerCase : jsstring -> jsstring.

(** The events of the wizard, where the two events that stood for an
    accepted file are replaced by the handlers that accept it, and the
    controls of the panels that the wizard does not look at. *)
Inductive Action :=
| Wizard (e : Event)
| FileChosen (now : N) (file : File)        (* upload: file picker, drop *)
| PastedTextChanged (text : jsstring)       (* upload: the paste box *)
| AddText (now : N) (time : jsstring)       (* upload: "Add Text" *)
| VoiceChosen (file : File)                 (* voice: file picker *)
| RemoveVoice                               (* voice: the X next to the file *)
| TestTextChanged (text : jsstring)         (* voice: the test text box *)
| TestVoice (api : Api).                    (* voice: "Test Voice" *)

Definition is_step (value : Step) (p : Panel) : bool :=
  Step_eqb p.(page).(currentStep) value.

Definition possible (a : Action) (p : Panel) : bool :=
  match a with
  | Wizard (AddDocument _) => false
  | Wizard (VoiceSelected _) => false
  | Wizard e => enabled e p.(page)
  | FileChosen _ _ => is_step upload p && negb p.(page).(documentsEmbedded)
  | PastedTextChanged _ => is_step upload p && negb p.(page).(documentsEmbedded)
  | AddText _ _ =>
      is_step upload p && negb p.(page).(documentsEmbedded)
      && negb (negb (truthy (trim p.(pastedText)))
               || Nat.leb MAX_DOCUMENTS (List.length p.(page).(documents))
               || p.(page).(documentsEmbedded))
  | VoiceChosen _ => is_step voice p && negb p.(page).(voiceCloneGenerated)
  | RemoveVoice =>
      is_step voice p
      && (match p.(page).(voiceFile) with Some _ => true | None => false end
          && negb p.(page).(voiceCloneGenerated))
  | TestTextChanged _ => is_step voice p && p.(page).(voiceCloneGenerated)
  | TestVoice _ =>
      is_step voice p && p.(page).(voiceCloneGenerated)
      && negb (p.(page).(isGeneratingVoice)
               || negb (truthy (trim p.(page).(testVoiceText))))
  end.

Definition perform (a : Action) (p : Panel) : Panel :=
  match a with
  | Wizard e => onPage (handle e) p
  | FileChosen now file => handleFileUpload toLowerCase now file p
  | PastedTextChanged text => setPastedText text p
  | AddText now time => handlePasteText now time p
  | VoiceChosen file => onPage (handleVoiceUpload file) p
  | RemoveVoice => onPage (fun s => setIsVoiceReady false (setVoiceFile None s)) p
  | TestTextChanged text => onPage (onTestVoiceTextChange text) p
  | TestVoice api => onPage (fun s => snd (testVoiceClone api s)) p
  end.

Definition act (p : Panel) (a : Action) : Panel :=
  if possible a p then perform a p else p.

(** Each action runs to its end before the next one. For [processDocuments]
    with the user acting between its requests see [Uploading]. *)
Definition session (actions : list Action) (p : Panel) : Panel :=
  fold_left act actions p.

End Actions.

(** ** What the page may send *)

(** A voice sample [handleVoiceUpload] takes. *)
Definition accepted_voice (file : File) : Prop :=
  includes voiceTypes file.(file_type) = true
  /\ (file.(file_size) <= MAX_FILE_SIZE)%N.

(** A speech request of at most 500 code units with an accepted sample. *)
Definition modest (e : Effect) : Prop :=
  match e with
  | CallTTS r f => List.length r.(text) <= 500 /\ accepted_voice f
  | _ => True
  end.

(** A speech request as a handler sends it from render [s]: with the voice
    sample of [s], and with a text of at most 500 code units or the test
    text of [s]. *)
Definition speaks (s : State) (e : Effect) : Prop :=
  match e with
  | CallTTS r f =>
      s.(voiceFile) = Some f
      /\ (List.length r.(text) <= 500 \/ r.(text) = s.(testVoiceText))
  | _ => True
  end.

(** What the page keeps true of its voice sample, its test text and the
    speech requests it has sent. *)
Definition careful (s : State) : Prop :=
  Forall modest s.(effects)
  /\ (forall f, s.(voiceFile) = Some f -> accepted_voice f)
  /\ List.length s.(testVoiceText) <= 500.

(** A document [processDocuments] has a request for. *)
Definition sendable (doc : Document) : Prop :=
  List.length (requestOf doc) = 1.

(** What holds of a page after any actions. *)
Definition tidy (p : Panel) : Prop :=
  careful p.(page) /\ Forall sendable p.(page).(documents).

(** ** Files and texts to run the handlers on *)

(** ASCII letters to lower case, enough for the names used here. *)
Definition ascii_lower (s : jsstring) : jsstring :=
  map (fun c => if N.leb 65 c && N.leb c 90 then (c + 32)%N else c) s.

Definition notes_md : File := mkFile (lit "notes.md") (lit "text/markdown") 100.

Definition cv_pdf : File := mkFile (lit "CV.PDF") (lit "application/pdf") 2048.

Definition huge_txt : File := mkFile (lit "huge.txt") (lit "text/plain") 10485761.

(** A server whose chat answers and whose speech synthesis is down. *)
Definition api_mute : Api :=
  mkApi (fun _ r => Ok (mkChatResponse r.(message) 1 0))
        (fun _ _ _ => Threw (HttpError 503))
        (fun _ _ => Ok tt) (fun _ _ => Ok tt) (fun _ => Ok tt).

(** A server whose speech synthesis answers with no audio. *)
Definition api_silent : Api :=
  mkApi (fun _ r => Ok (mkChatResponse r.(message) 1 0))
        (fun _ _ _ => Ok (mkTTSResponse []))
        (fun _ _ => Ok tt) (fun _ _ => Ok tt) (fun _ => Ok tt).

(** A user who skips the documents, chooses a voice sample and clones it. *)
Definition clone_a_voice : list Action :=
  [Wizard ContinueWithoutDocuments; VoiceChosen sample_voice;
   Wizard (GenerateClone (api_up 0))].

(** A user who pastes a note, drops a file and embeds both. *)
Definition paste_and_drop : list Action :=
  [PastedTextChanged (lit " I like tea. "); AddText 3 (lit "10:00:00");
   FileChosen 4 cv_pdf].

(** The page of a user who chose a voice sample. *)
Definition voice_chosen : State :=
  setIsVoiceReady true (setVoiceFile (Some sample_voice) (Page.initial 1)).

End Inputs.

(* ===================================================================== *)
(** * Form: the script of the deprecated HTML frontend                    *)
(* ===================================================================== *)

(** [updateCharCounter], [showStatus] and the [submit] listener of the form,
    which calls [Base64.base64ToBlob] on the server's answer. *)

Module Form.

Import Page.

(** ** The document *)

Inductive StatusType := error | loading | success.

Inductive CounterClass := counter_plain | counter_warning | counter_error.

Inductive Endpoint := tts | tts_with_voice.

(** The body of a request: the fields of the [FormData] as the sliders give
    them, or the JSON object with the numbers parsed from them. *)
Inductive Body (Number : Type) :=
| FormData (text exaggeration temperature cfg_weight seed : jsstring) (audio_file : File)
| Json (text : jsstring) (exaggeration temperature cfg_weight seed : Number).
Arguments FormData {Number}.
Arguments Json {Number}.

Definition body_text {Number : Type} (b : Body Number) : jsstring :=
  match b with
  | FormData text _ _ _ _ _ => text
  | Json text _ _ _ _ => text
  end.

Definition body_file {Number : Type} (b : Body Number) : option File :=
  match b with
  | FormData _ _ _ _ _ file => Some file
  | Json _ _ _ _ _ => None
  end.

Record Request (Number : Type) := mkRequest {
  endpoint : Endpoint;
  body : Body Number
}.
Arguments mkRequest {Number}.
Arguments endpoint {Number}.
Arguments body {Number}.

(** How [fetch] and the reading of the answer end: the promise rejects with
    a message, the server answers with an error status (and perhaps a
    [detail]), or it answers with the audio. [status] is the status code as
    the template literal prints it. *)
Inductive Fetched :=
| Rejected (message : jsstring)
| NotOk (detail : option jsstring) (status : jsstring)
| Answered (audio_base64 message : jsstring).

Record Dom (Number : Type) := mkDom {
  textInput : jsstring;               (* textInput.value *)
  audioFileInput : option File;       (* audioFileInput.files[0] *)
  exaggerationSlider : jsstring;
  temperatureSlider : jsstring;
  cfgWeightSlider : jsstring;
  seedInput : jsstring;
  generateBtn_disabled : bool;
  statusText : jsstring;
  statusClass : option StatusType;    (* 'status <type>', [None] for 'status' *)
  statusShown : bool;
  audioShown : bool;                  (* audioContainer.style.display *)
  audioPlayer : option Base64.Blob;   (* the blob behind the player's URL *)
  charCounterText : jsstring;
  charCounterClass : CounterClass;
  requests : list (Request Number);
  consoleErrors : nat
}.
Arguments mkDom {Number}.
Arguments textInput {Number}.
Arguments audioFileInput {Number}.
Arguments exaggerationSlider {Number}.
Arguments temperatureSlider {Number}.
Arguments cfgWeightSlider {Number}.
Arguments seedInput {Number}.
Arguments generateBtn_disabled {Number}.
Arguments statusText {Number}.
Arguments statusClass {Number}.
Arguments statusShown {Number}.
Arguments audioShown {Number}.
Arguments audioPlayer {Number}.
Arguments charCounterText {Number}.
Arguments charCounterClass {Number}.
Arguments requests {Number}.
Arguments consoleErrors {Number}.

Section Script.

Variable Number : Type.
Variable parseFloat : jsstring -> Number.
Variable parseInt : jsstring -> Number.

(** The message of the [InvalidCharacterError] that [atob] throws. *)
Variable atobMessage : jsstring.

(** ** [showStatus] *)

Definition showStatus (message : jsstring) (type : StatusType) (d : Dom Number) : Dom Number :=
  mkDom d.(textInput) d.(audioFileInput) d.(exaggerationSlider)
    d.(temperatureSlider) d.(cfgWeightSlider) d.(seedInput)
    d.(generateBtn_disabled) message (Some type) true d.(audioShown)
    d.(audioPlayer) d.(charCounterText) d.(charCounterClass) d.(requests)
    d.(consoleErrors).

(** ** [updateCharCounter] *)

(** A number as a template literal prints it. *)
Definition decimal (n : nat) : jsstring :=
  lit (NilZero.string_of_uint (Nat.to_uint n)).

Definition updateCharCounter (d : Dom Number) : Dom Number :=
  let length := List.length d.(textInput) in
  mkDom d.(textInput) d.(audioFileInput) d.(exaggerationSlider)
    d.(temperatureSlider) d.(cfgWeightSlider) d.(seedInput)
    d.(generateBtn_disabled) d.(statusText) d.(statusClass) d.(statusShown)
    d.(audioShown) d.(audioPlayer)
    (decimal length ++ lit " / 300")
    (if Nat.ltb 280 length then counter_error
     else if Nat.ltb 200 length then counter_warning
     else counter_plain)
    d.(requests) d.(consoleErrors).

(** The [input] event of the text box. *)
Definition onInput (value : jsstring) (d : Dom Number) : Dom Number :=
  updateCharCounter
    (mkDom value d.(audioFileInput) d.(exaggerationSlider)
       d.(temperatureSlider) d.(cfgWeightSlider) d.(seedInput)
       d.(generateBtn_disabled) d.(statusText) d.(statusClass) d.(statusShown)
       d.(audioShown) d.(audioPlayer) d.(charCounterText) d.(charCounterClass)
       d.(requests) d.(consoleErrors)).

(** ** The [submit] listener *)

Definition setBusy (busy : bool) (d : Dom Number) : Dom Number :=
  mkDom d.(textInput) d.(audioFileInput) d.(exaggerationSlider)
    d.(temperatureSlider) d.(cfgWeightSlider) d.(seedInput)
    busy d.(statusText) d.(statusClass) d.(statusShown) d.(audioShown)
    d.(audioPlayer) d.(charCounterText) d.(charCounterClass) d.(requests)
    d.(consoleErrors).

Definition setAudio (shown : bool) (player : option Base64.Blob) (d : Dom Number) : Dom Number :=
  mkDom d.(textInput) d.(audioFileInput) d.(exaggerationSlider)
    d.(temperatureSlider) d.(cfgWeightSlider) d.(seedInput)
    d.(generateBtn_disabled) d.(statusText) d.(statusClass) d.(statusShown)
    shown player d.(charCounterText) d.(charCounterClass) d.(requests)
    d.(consoleErrors).

Definition send (r : Request Number) (d : Dom Number) : Dom Number :=
  mkDom d.(textInput) d.(audioFileInput) d.(exaggerationSlider)
    d.(temperatureSlider) d.(cfgWeightSlider) d.(seedInput)
    d.(generateBtn_disabled) d.(statusText) d.(statusClass) d.(statusShown)
    d.(audioShown) d.(audioPlayer) d.(charCounterText) d.(charCounterClass)
    (d.(requests) ++ [r]) d.(consoleErrors).

Definition consoleError (d : Dom Number) : Dom Number :=
  mkDom d.(textInput) d.(audioFileInput) d.(exaggerationSlider)
    d.(temperatureSlider) d.(cfgWeightSlider) d.(seedInput)
    d.(generateBtn_disabled) d.(statusText) d.(statusClass) d.(statusShown)
    d.(audioShown) d.(audioPlayer) d.(charCounterText) d.(charCounterClass)
    d.(requests) (S d.(consoleErrors)).

(** The request the listener builds for the trimmed [text]. *)
Definition requestFor (text : jsstring) (d : Dom Number) : Request Number :=
  match d.(audioFileInput) with
  | Some file =>
      mkRequest tts_with_voice
        (FormData text d.(exaggerationSlider) d.(temperatureSlider)
           d.(cfgWeightSlider) d.(seedInput) file)
  | None =>
      mkRequest tts
        (Json text (parseFloat d.(exaggerationSlider))
           (parseFloat d.(temperatureSlider)) (parseFloat d.(cfgWeightSlider))
           (parseInt d.(seedInput)))
  end.

(** What the [try] block ends with: the message of the error thrown, or the
    blob and the message of the answer. *)
Definition attempt (answer : Fetched) : jsstring + Base64.Blob * jsstring :=
  match answer with
  | Rejected message => inl message
  | NotOk detail status =>
      inl (match detail with
           | Some text => if truthy text then text
                          else lit "HTTP error! status: " ++ status
           | None => lit "HTTP error! status: " ++ status
           end)
  | Answered audio_base64 message =>
      match Base64.base64ToBlob audio_base64 (lit "audio/wav") with
      | Some blob => inr (blob, message)
      | None => inl atobMessage
      end
  end.

(** U+1F399 U+FE0F, U+2705 and U+274C, each followed by a space. *)
Definition microphone : jsstring := [55356; 57241; 65039; 32]%N.
Definition check_mark : jsstring := [9989; 32]%N.
Definition cross_mark : jsstring := [10060; 32]%N.

Definition submit (fetch : Request Number -> Fetched) (d : Dom Number) : Dom Number :=
  let text := trim d.(textInput) in
  if negb (truthy text) then
    showStatus (lit "Please enter some text to generate speech.") error d
  else if Nat.ltb 300 (List.length text) then
    showStatus (lit "Text must be 300 characters or less.") error d
  else
    let d :=
      setAudio false d.(audioPlayer)
        (showStatus (microphone ++ lit "Generating speech... This may take a moment.")
           loading (setBusy true d)) in
    let request := requestFor text d in
    let d := send request d in
    setBusy false
      (match attempt (fetch request) with
       | inr (blob, message) =>
           showStatus (check_mark ++ message) success (setAudio true (Some blob) d)
       | inl message =>
           showStatus (cross_mark ++ lit "Error: " ++ message) error (consoleError d)
       end).

End Script.

(** ** A page and servers to run the script on *)

Definition blank_page : Dom jsstring :=
  mkDom [] None (lit "0.5") (lit "0.8") (lit "0.5") (lit "0") false [] None false
        false None (lit "0 / 300") counter_plain [] 0.

(** A server that answers with the three bytes [Base64.riff]. *)
Definition server_riff (r : Request jsstring) : Fetched :=
  Answered (lit "UklG") (lit "done").

(** A server whose answer is not base64. *)
Definition server_garbled (r : Request jsstring) : Fetched :=
  Answered (lit "?") (lit "done").

End Form.

(* ===================================================================== *)
(** * Uploading: [processDocuments] while the user goes on                *)
(* ===================================================================== *)

(** [processDocuments] gives the page back at each [await]: until the
    request settles, the user can operate every control that is not
    disabled, the controls that add and remove documents among them. Here
    the handler runs from one [await] to the next, and the other actions
    of the page come in between. *)

Module Uploading.

Import Page Inputs.

(** What the handler holds while a request is out: the [documents] of the
    render in which the button was pressed, and the turn [i] of the loop. *)
Record Pending := mkPending {
  closure : list Document;
  index : nat
}.

(** The page, and the batch that awaits the server, if any. *)
Record World := mkWorld {
  panel : Panel;
  pending : option Pending
}.

(** The end of the [try] block, then the [finally] block. *)
Definition embedded (s : State) : State :=
  setIsUploading false
    (emit CheckHealth
       (toast "Documents embedded" "Knowledge base created successfully" default
          (setDocumentsEmbedded true (setUploadProgress 100%Q s)))).

(** The [catch] block, then the [finally] block. *)
Definition failed (s : State) : State :=
  setIsUploading false
    (toast "Processing failed" "Failed to create knowledge base" destructive
       (emit ConsoleError s)).

(** What [processDocuments] does after its loop. *)
Definition ending (r : Result unit * State) : State :=
  match r with
  | (Ok _, s) => embedded s
  | (Threw _, s) => failed s
  end.

(** The loop from turn [i], with [todo] the documents from [i] on, as far as
    the next [await] or through the end of the handler. A document with
    neither a file nor a text has no request and is passed over. *)
Fixpoint resume (documents : list Document) (i : nat) (todo : list Document)
    (s : State) : State * option Pending :=
  match todo with
  | [] => (embedded s, None)
  | doc :: rest =>
      match requestOf doc with
      | [] => resume documents (S i) rest s
      | request => (withUpload s.(uploadProgress) request s,
                    Some (mkPending documents i))
      end
  end.

(** The handler from its start to the first [await]. *)
Definition start (s0 : State) : State * option Pending :=
  match s0.(documents) with
  | [] => (toast "No documents" "Please add some documents first" destructive s0, None)
  | _ :: _ =>
      resume s0.(documents) 0 s0.(documents)
        (setUploadProgress 0%Q (setIsUploading true s0))
  end.

(** The awaited request settles: the progress bar moves and the loop goes
    on, or the rejection is caught. *)
Definition settle (outcome : Result unit) (q : Pending) (s : State)
    : State * option Pending :=
  match outcome with
  | Ok _ =>
      resume q.(closure) (S q.(index)) (skipn (S q.(index)) q.(closure))
        (setUploadProgress (progressAfter q.(index) (List.length q.(closure))) s)
  | Threw _ => (failed s, None)
  end.

Section Moves.

Variable toLowerCase : jsstring -> jsstring.

(** What happens next: the user operates a control, or the server settles
    the request that is out. "Embed Documents" starts the handler, which
    then goes on with each [Settle]; every other action is as in [Inputs],
    where the other handlers that await the server (none of them uploads)
    are taken in one step. *)
Inductive Move :=
| Do (a : Action)
| Settle (outcome : Result unit).

Definition onState (r : State * option Pending) (w : World) : World :=
  mkWorld (onPage (fun _ => fst r) w.(panel)) (snd r).

Definition move (w : World) (m : Move) : World :=
  match m with
  | Do (Wizard (EmbedDocuments api)) =>
      if possible (Wizard (EmbedDocuments api)) w.(panel)
      then onState (start w.(panel).(page)) w
      else w
  | Do a => mkWorld (act toLowerCase w.(panel) a) w.(pending)
  | Settle outcome =>
      match w.(pending) with
      | Some q => onState (settle outcome q w.(panel).(page)) w
      | None => w
      end
  end.

Definition play (moves : list Move) (w : World) : World :=
  fold_left move moves w.

End Moves.

(** A move other than pressing "Embed Documents". *)
Definition calm (m : Move) : Prop :=
  match m with
  | Do (Wizard (EmbedDocuments _)) => False
  | _ => True
  end.

(** A request of [processDocuments]. *)
Definition is_upload (e : Effect) : bool :=
  match e with
  | CallUpload _ => true
  | CallAddKnowledge _ => true
  | _ => false
  end.

(** The requests of [processDocuments] among the effects of a page. *)
Definition uploads (w : World) : list Effect :=
  filter is_upload w.(panel).(page).(effects).

(** A rejection among the moves. *)
Definition rejected (moves : list Move) : Prop :=
  exists e, In (Settle (Threw e)) moves.

(** What holds of a batch of the documents [docs] that was started when the
    requests sent were [base]: the requests of the documents up to the one
    that is awaited have been added, in their order; and a batch that is
    over has gone through all the documents, unless [stopped]. *)
Definition underway (base : list Effect) (docs : list Document) (stopped : Prop)
    (w : World) : Prop :=
  exists sent unsent,
    docs = sent ++ unsent
    /\ uploads w = base ++ flat_map requestOf sent
    /\ match w.(pending) with
       | Some q =>
           q.(closure) = docs
           /\ sent = firstn (S q.(index)) docs
           /\ q.(index) < List.length docs
       | None => unsent = [] \/ stopped
       end.

(** ** A batch to run *)

(** A user who has a note and a file, presses "Embed Documents", and pastes
    a second note before the first request is answered. *)
Definition two_documents : World :=
  mkWorld (session ascii_lower paste_and_drop (Inputs.initial 1)) None.

Definition late_note : list Move :=
  [Do (PastedTextChanged (lit "One more thing.")); Do (AddText 5 (lit "10:00:05"));
   Settle (Ok tt); Settle (Ok tt)].

End Uploading.

(* ===================================================================== *)
(** * Properties of the page                                              *)
(* ===================================================================== *)

Unset Implicit Arguments.

Section PageFacts.

Import Page.
Local Open Scope act_scope.

(** Runs the monadic plumbing of a handler. *)
Ltac run_act :=
  repeat (unfold bind, update, try_catch_finally, read, await, ret; cbn).

(** ** Truncation for the voice clone *)

Lemma lit_dots_length : List.length (lit "...") = 3.
Proof. reflexivity. Qed.

Lemma truncatedResponse_short (t : jsstring) :
  List.length t <= 500 -> truncatedResponse t = t.
Proof.
  intros H. unfold truncatedResponse.
  destruct (Nat.ltb_spec 500 (List.length t)); [lia | reflexivity].
Qed.

Lemma truncatedResponse_long (t : jsstring) :
  500 < List.length t -> truncatedResponse t = firstn 497 t ++ lit "...".
Proof.
  intros H. unfold truncatedResponse, substring0.
  destruct (Nat.ltb_spec 500 (List.length t)); [reflexivity | lia].
Qed.

Lemma truncatedResponse_length (t : jsstring) :
  List.length (truncatedResponse t) <= 500.
Proof.
  destruct (Nat.le_gt_cases (List.length t) 500) as [H | H].
  - rewrite truncatedResponse_short by assumption. assumption.
  - rewrite truncatedResponse_long by assumption.
    rewrite length_app, length_firstn, lit_dots_length. lia.
Qed.

(** ** [sendMessage] *)

(** The request [sendMessage] builds in render [s0]. *)
Lemma sendMessage_guarded api now now' s0 :
  negb (truthy (trim s0.(inputMessage))) || s0.(isGenerating) = true ->
  sendMessage api now now' s0 = (Ok tt, s0).
Proof. intros H. unfold sendMessage. rewrite H. reflexivity. Qed.

(** The handler is the three state updates followed by the [try] block: when
    the block starts, the user's message is in the history and nothing has
    been sent yet. *)
Lemma sendMessage_appends_first api now now' s0 :
  truthy (trim s0.(inputMessage)) = true ->
  s0.(isGenerating) = false ->
  let userMessage := mkMessage now user s0.(inputMessage) None None now in
  exists s1,
    s1.(messages) = s0.(messages) ++ [userMessage]
    /\ s1.(effects) = s0.(effects)
    /\ s1.(isGenerating) = true
    /\ sendMessage api now now' s0 =
       try_catch_finally (sendMessage_try api s0 userMessage now')
         (fun _ => toast "Error" "Failed to get response" destructive)
         (setIsGenerating false) s1.
Proof.
  intros Hin Hgen userMessage.
  exists (setIsGenerating true
            (setInputMessage [] (setMessages (fun prev => prev ++ [userMessage]) s0))).
  repeat split.
  unfold sendMessage. rewrite Hin, Hgen. reflexivity.
Qed.

(** C1. For every chat turn the user's message is appended to the history
    before the chat request is sent; when the request fails, the history
    holds the user's turn and no assistant turn, and the failure is shown
    to the user in a destructive toast. *)
Theorem sendMessage_failure_keeps_user_turn api now now' s0 e :
  truthy (trim s0.(inputMessage)) = true ->
  s0.(isGenerating) = false ->
  api.(chatWithKnowledge) s0.(effects)
    (mkChatRequest s0.(inputMessage) s0.(conversationId)
       (negb s0.(voiceCloneGenerated)) (or_undefined s0.(systemPrompt)))
  = Threw e ->
  (exists s1,
      s1.(messages) = s0.(messages) ++ [mkMessage now user s0.(inputMessage) None None now]
      /\ s1.(effects) = s0.(effects)
      /\ sendMessage api now now' s0 =
         try_catch_finally
           (sendMessage_try api s0 (mkMessage now user s0.(inputMessage) None None now) now')
           (fun _ => toast "Error" "Failed to get response" destructive)
           (setIsGenerating false) s1)
  /\ fst (sendMessage api now now' s0) = Ok tt
  /\ (snd (sendMessage api now now' s0)).(messages)
     = s0.(messages) ++ [mkMessage now user s0.(inputMessage) None None now]
  /\ (snd (sendMessage api now now' s0)).(effects)
     = s0.(effects)
       ++ [CallChat (mkChatRequest s0.(inputMessage) s0.(conversationId)
                       (negb s0.(voiceCloneGenerated)) (or_undefined s0.(systemPrompt)));
           ShowToast (mkToast "Error" "Failed to get response" destructive)]
  /\ (snd (sendMessage api now now' s0)).(isGenerating) = false.
Proof.
  intros Hin Hgen Hfail. split.
  - destruct (sendMessage_appends_first api now now' s0 Hin Hgen)
      as (s1 & Hm & He & _ & Hrun).
    exists s1. auto.
  - unfold sendMessage. rewrite Hin, Hgen. cbn.
    unfold bind, update, try_catch_finally, sendMessage_try, bind, read, await.
    cbn. rewrite Hfail. cbn. rewrite <- app_assoc. auto.
Qed.

Lemma sendMessage_failure_keeps_user_turn_witness :
  (snd (sendMessage api_down 5 6 typed_hello)).(messages)
  = [mkMessage 5 user (lit "hello") None None 5].
Proof.
  exact (proj1 (proj2 (proj2
    (sendMessage_failure_keeps_user_turn api_down 5 6 typed_hello Timeout
       eq_refl eq_refl eq_refl)))).
Defined.

(** What one run of [sendMessage] sends and shows, case by case. *)
Lemma sendMessage_effects api now now' s0 :
  let request := mkChatRequest s0.(inputMessage) s0.(conversationId)
                   (negb s0.(voiceCloneGenerated)) (or_undefined s0.(systemPrompt)) in
  let failed := ShowToast (mkToast "Error" "Failed to get response" destructive) in
  let s' := snd (sendMessage api now now' s0) in
  s'.(effects) = s0.(effects)
  \/ s'.(effects) = s0.(effects) ++ [CallChat request; failed]
  \/ exists response,
       api.(chatWithKnowledge) s0.(effects) request = Ok response
       /\ (s'.(effects) = s0.(effects) ++ [CallChat request]
           \/ exists file,
                s0.(voiceFile) = Some file
                /\ s0.(voiceCloneGenerated) = true
                /\ let tts := mkTTSRequest (truncatedResponse response.(text_response)) in
                   s'.(effects) = s0.(effects) ++ [CallChat request; CallTTS tts file; failed]
                   \/ exists audio,
                        s'.(effects) = s0.(effects)
                          ++ [CallChat request; CallTTS tts file; PlayAudio audio]).
Proof.
  intros request failed s'. subst s'. unfold sendMessage.
  destruct (negb (truthy (trim (inputMessage s0))) || isGenerating s0); [now left |].
  right. cbn.
  unfold bind, update, try_catch_finally, sendMessage_try, bind, read, await. cbn.
  fold request.
  destruct (chatWithKnowledge api (effects s0) request) as [response | e] eqn:Hchat; cbn.
  - right. exists response. split; [reflexivity |].
    destruct (voiceCloneGenerated s0) eqn:Hv; [| left; reflexivity].
    destruct (voiceFile s0) as [file |] eqn:Hf; [| left; reflexivity].
    right. exists file. repeat split. cbn.
    unfold bind, update, await, ret. cbn.
    destruct (generateTTSWithVoice api _ _ file) as [tts | e]; cbn;
      repeat rewrite <- app_assoc; cbn.
    + right. eexists. reflexivity.
    + left. reflexivity.
  - left. rewrite <- app_assoc. reflexivity.
Qed.

(** C8. The text [sendMessage] hands to the voice-clone synthesis has at
    most 500 code units: it is the answer itself when that has at most 500,
    and otherwise its first 497 code units followed by three dots. *)
Theorem sendMessage_voice_text_bounded api now now' s0 sent r f :
  (snd (sendMessage api now now' s0)).(effects) = s0.(effects) ++ sent ->
  In (CallTTS r f) sent ->
  exists response,
    api.(chatWithKnowledge) s0.(effects)
      (mkChatRequest s0.(inputMessage) s0.(conversationId)
         (negb s0.(voiceCloneGenerated)) (or_undefined s0.(systemPrompt)))
    = Ok response
    /\ r.(text) = truncatedResponse response.(text_response)
    /\ List.length r.(text) <= 500
    /\ (List.length response.(text_response) <= 500 ->
        r.(text) = response.(text_response))
    /\ (500 < List.length response.(text_response) ->
        r.(text) = firstn 497 response.(text_response) ++ lit "...").
Proof.
  intros Hsent Hin.
  assert (Hspec : forall response,
    r.(text) = truncatedResponse response.(text_response) ->
    r.(text) = truncatedResponse response.(text_response)
    /\ List.length r.(text) <= 500
    /\ (List.length response.(text_response) <= 500 ->
        r.(text) = response.(text_response))
    /\ (500 < List.length response.(text_response) ->
        r.(text) = firstn 497 response.(text_response) ++ lit "...")).
  { intros response E. rewrite E. split; [reflexivity |]. split.
    - apply truncatedResponse_length.
    - split; intros; [now apply truncatedResponse_short
                     | now apply truncatedResponse_long]. }
  pose proof (sendMessage_effects api now now' s0) as H. cbv zeta in H.
  rewrite Hsent in H.
  destruct H as [H | [H | (response & Hchat & H)]].
  - rewrite <- (app_nil_r (effects s0)) in H at 2.
    apply app_inv_head in H. subst sent. contradiction.
  - apply app_inv_head in H. subst sent.
    destruct Hin as [Hin | [Hin | []]]; discriminate.
  - exists response. split; [assumption |]. apply Hspec.
    destruct H as [H | (file & _ & _ & [H | (audio & H)])];
      apply app_inv_head in H; subst sent; cbn in Hin;
      repeat (destruct Hin as [Hin | Hin]; try discriminate; try contradiction);
      now inversion Hin.
Qed.

Lemma sendMessage_voice_text_bounded_witness :
  exists response,
    chatWithKnowledge (api_up 2) typed_hello_cloned.(effects)
      (mkChatRequest typed_hello_cloned.(inputMessage)
         typed_hello_cloned.(conversationId)
         (negb typed_hello_cloned.(voiceCloneGenerated))
         (or_undefined typed_hello_cloned.(systemPrompt)))
    = Ok response
    /\ lit "hello" = truncatedResponse response.(text_response)
    /\ 5 <= 500
    /\ (List.length response.(text_response) <= 500 ->
        lit "hello" = response.(text_response))
    /\ (500 < List.length response.(text_response) ->
        lit "hello" = firstn 497 response.(text_response) ++ lit "...").
Proof.
  exact (sendMessage_voice_text_bounded (api_up 2) 5 6 typed_hello_cloned
           [CallChat (mkChatRequest (lit "hello") 1 false None);
            CallTTS (mkTTSRequest (lit "hello")) sample_voice;
            PlayAudio (dataUrl (lit "hello"))]
           (mkTTSRequest (lit "hello")) sample_voice
           eq_refl (or_intror (or_introl eq_refl))).
Defined.

(** ** [processDocuments] *)

Lemma withUpload_nothing s : withUpload s.(uploadProgress) [] s = s.
Proof. destruct s. unfold withUpload. cbn. now rewrite app_nil_r. Qed.

Lemma withUpload_again p q a b s :
  withUpload q b (withUpload p a s) = withUpload q (a ++ b) s.
Proof. unfold withUpload. cbn. now rewrite app_assoc. Qed.

(** One turn of the loop sends its request; the progress bar moves when the
    request is accepted, and the turn throws when it is rejected. *)
Lemma processOne_run api total i doc s :
  (outcomeOf api s.(effects) doc = Ok tt
   /\ exists p, processOne api total i doc s = (Ok tt, withUpload p (requestOf doc) s))
  \/ (exists e,
        outcomeOf api s.(effects) doc = Threw e
        /\ processOne api total i doc s
           = (Threw e, withUpload s.(uploadProgress) (requestOf doc) s)).
Proof.
  unfold processOne, outcomeOf, requestOf.
  destruct (doc_file doc) as [file |].
  - unfold bind, await, update. cbn.
    destruct (uploadTextFile api (effects s) file) as [[] | e].
    + left. split; [reflexivity |]. now exists (progressAfter i total).
    + right. now exists e.
  - destruct (doc_content doc) as [pasted |].
    + destruct (truthy pasted).
      * unfold bind, await, update. cbn.
        destruct (addKnowledge api (effects s) _) as [[] | e].
        -- left. split; [reflexivity |]. now exists (progressAfter i total).
        -- right. now exists e.
      * left. split; [reflexivity |]. exists s.(uploadProgress).
        unfold ret. now rewrite withUpload_nothing.
    + left. split; [reflexivity |]. exists s.(uploadProgress).
      unfold ret. now rewrite withUpload_nothing.
Qed.

(** The loop stops at the first rejected request: the documents before it
    were sent, the documents after it are not looked at. *)
Lemma processLoop_run api total docs : forall i s,
  (exists p,
      processLoop api total i docs s
      = (Ok tt, withUpload p (flat_map requestOf docs) s))
  \/ (exists before doc later e p,
        docs = before ++ doc :: later
        /\ outcomeOf api (s.(effects) ++ flat_map requestOf before) doc = Threw e
        /\ processLoop api total i docs s
           = (Threw e, withUpload p (flat_map requestOf (before ++ [doc])) s)).
Proof.
  induction docs as [| doc rest IH]; intros i s.
  - left. exists s.(uploadProgress). cbn. unfold ret. now rewrite withUpload_nothing.
  - cbn [processLoop]. unfold bind.
    destruct (processOne_run api total i doc s) as [(Hok & p & Hone) | (e & Hno & Hone)];
      rewrite Hone.
    + destruct (IH (S i) (withUpload p (requestOf doc) s))
        as [(q & Hrest) | (before & d & later & e & q & Hdocs & Hno & Hrest)];
        rewrite Hrest, withUpload_again.
      * left. now exists q.
      * right. exists (doc :: before), d, later, e, q. subst rest.
        repeat split.
        cbn [withUpload effects] in Hno. cbn [flat_map].
        now rewrite app_assoc.
    + right. exists [], doc, rest, e, s.(uploadProgress). repeat split.
      * cbn. now rewrite app_nil_r.
      * cbn. now rewrite app_nil_r.
Qed.

(** The same with what the server did to the requests that were sent: the
    loop runs to its end exactly when every request is accepted, and a
    rejected request ends it only after all the requests before it were
    accepted. *)
Lemma processLoop_first_rejected api total docs : forall i s,
  (exists p,
      processLoop api total i docs s
      = (Ok tt, withUpload p (flat_map requestOf docs) s)
      /\ forall before doc later,
           docs = before ++ doc :: later ->
           outcomeOf api (s.(effects) ++ flat_map requestOf before) doc = Ok tt)
  \/ (exists before doc later e p,
        docs = before ++ doc :: later
        /\ (forall earlier d between,
              before = earlier ++ d :: between ->
              outcomeOf api (s.(effects) ++ flat_map requestOf earlier) d = Ok tt)
        /\ outcomeOf api (s.(effects) ++ flat_map requestOf before) doc = Threw e
        /\ processLoop api total i docs s
           = (Threw e, withUpload p (flat_map requestOf (before ++ [doc])) s)).
Proof.
  induction docs as [| doc rest IH]; intros i s.
  - left. exists s.(uploadProgress). split.
    + cbn. unfold ret. now rewrite withUpload_nothing.
    + intros [| ? ?] ? ? H; discriminate H.
  - cbn [processLoop]. unfold bind.
    destruct (processOne_run api total i doc s) as [(Hok & p & Hone) | (e & Hno & Hone)];
      rewrite Hone.
    + destruct (IH (S i) (withUpload p (requestOf doc) s))
        as [(q & Hrest & Hall)
           | (before & d & later & e & q & Hdocs & Hall & Hno & Hrest)];
        rewrite Hrest, withUpload_again.
      * left. exists q. split; [reflexivity |].
        intros [| b before] d later H; injection H as <- Hr.
        -- cbn. now rewrite app_nil_r.
        -- specialize (Hall before d later Hr).
           cbn [withUpload effects] in Hall. cbn [flat_map].
           now rewrite app_assoc.
      * right. exists (doc :: before), d, later, e, q. subst rest.
        split; [reflexivity |]. split; [| split].
        -- intros [| b earlier] d' between H; injection H as <- Hr.
           ++ cbn. now rewrite app_nil_r.
           ++ specialize (Hall earlier d' between Hr).
              cbn [withUpload effects] in Hall. cbn [flat_map].
              now rewrite app_assoc.
        -- cbn [withUpload effects] in Hno. cbn [flat_map].
           now rewrite app_assoc.
        -- reflexivity.
    + right. exists [], doc, rest, e, s.(uploadProgress).
      split; [reflexivity |]. split; [| split].
      * intros [| ? ?] ? ? H; discriminate H.
      * cbn. now rewrite app_nil_r.
      * cbn. now rewrite app_nil_r.
Qed.

(** C2, as amended. [processDocuments] sends the documents one at a time in
    list order inside one [try] block. When the server accepts every
    request, all of them are sent and the documents are marked embedded.
    Otherwise the first rejected request ends the batch: the requests
    before it were accepted, those of the documents after it are not sent,
    a "Processing failed" toast is shown, and [documentsEmbedded] and the
    documents keep their values. The handler returns nothing in either
    case. *)
Theorem processDocuments_stops_at_first_failure api s0 :
  fst (processDocuments api s0) = Ok tt
  /\ (snd (processDocuments api s0)).(documents) = s0.(documents)
  /\ ((s0.(documents) = []
       /\ snd (processDocuments api s0)
          = toast "No documents" "Please add some documents first" destructive s0)
      \/ (s0.(documents) <> []
          /\ (forall before doc later,
                s0.(documents) = before ++ doc :: later ->
                outcomeOf api (s0.(effects) ++ flat_map requestOf before) doc = Ok tt)
          /\ (snd (processDocuments api s0)).(documentsEmbedded) = true
          /\ (snd (processDocuments api s0)).(isUploading) = false
          /\ (snd (processDocuments api s0)).(effects)
             = s0.(effects) ++ flat_map requestOf s0.(documents)
               ++ [ShowToast (mkToast "Documents embedded"
                                "Knowledge base created successfully" default);
                   CheckHealth])
      \/ (exists before doc later e,
            s0.(documents) = before ++ doc :: later
            /\ (forall earlier d between,
                  before = earlier ++ d :: between ->
                  outcomeOf api (s0.(effects) ++ flat_map requestOf earlier) d = Ok tt)
            /\ outcomeOf api (s0.(effects) ++ flat_map requestOf before) doc = Threw e
            /\ (snd (processDocuments api s0)).(documentsEmbedded)
               = s0.(documentsEmbedded)
            /\ (snd (processDocuments api s0)).(isUploading) = false
            /\ (snd (processDocuments api s0)).(effects)
               = s0.(effects) ++ flat_map requestOf (before ++ [doc])
                 ++ [ConsoleError;
                     ShowToast (mkToast "Processing failed"
                                  "Failed to create knowledge base" destructive)])).
Proof.
  unfold processDocuments.
  destruct (documents s0) as [| d0 ds] eqn:Hdocs.
  - split; [reflexivity |]. split; [cbn; now rewrite Hdocs |]. left. now split.
  - pose proof (processLoop_first_rejected api (List.length (d0 :: ds)) (d0 :: ds) 0
                  (setUploadProgress 0%Q (setIsUploading true s0))) as Hloop.
    remember (processLoop api (List.length (d0 :: ds)) 0 (d0 :: ds)) as loop eqn:E.
    clear E. unfold bind, update, try_catch_finally.
    destruct Hloop as [(p & Hrun & Hall)
                      | (before & doc & later & e & p & Hsplit & Hall & Hno & Hrun)];
      rewrite Hrun; clear Hrun; (split; [reflexivity |]);
      (split; [cbn; now rewrite Hdocs |]); right.
    + left. split; [discriminate |]. split; [exact Hall |].
      cbn -[flat_map]. repeat split. now rewrite <- !app_assoc.
    + right. exists before, doc, later, e. cbn -[flat_map].
      repeat split; try assumption. now rewrite <- !app_assoc.
Qed.

(** C2, as stated, fails: a document whose own request the server would
    accept is not sent when an earlier document of the batch was rejected. *)
Lemma processDocuments_not_independent :
  ~ (forall api s0 doc,
        In doc s0.(documents) ->
        (forall tr, outcomeOf api tr doc = Ok tt) ->
        incl (requestOf doc) (snd (processDocuments api s0)).(effects)).
Proof.
  intros H.
  specialize (H (api_rejecting (lit "bad.txt")) bad_then_good
                (file_document 2 "good.txt")).
  assert (Hin : In (CallUpload (mkFile (lit "good.txt") (lit "text/plain") 10))
                   (snd (processDocuments (api_rejecting (lit "bad.txt"))
                           bad_then_good)).(effects)).
  { apply H.
    - right. left. reflexivity.
    - intros tr. reflexivity.
    - left. reflexivity. }
  vm_compute in Hin.
  repeat (destruct Hin as [Hin | Hin]; try discriminate Hin).
  contradiction.
Qed.

(** ** The step wizard *)

(** [sequential] looks at the step and the three setup flags only. *)
Lemma sequential_ext s s' :
  s'.(currentStep) = s.(currentStep) ->
  s'.(documentsEmbedded) = s.(documentsEmbedded) ->
  s'.(voiceCloneGenerated) = s.(voiceCloneGenerated) ->
  s'.(personaConfigured) = s.(personaConfigured) ->
  sequential s -> sequential s'.
Proof.
  unfold sequential, prerequisite, canProceedToVoice, canProceedToPersona,
    canProceedToChat.
  intros -> -> -> ->. trivial.
Qed.

(** Setting a flag never breaks the sequence. *)
Lemma sequential_more s s' :
  s'.(currentStep) = s.(currentStep) ->
  (s.(documentsEmbedded) = true -> s'.(documentsEmbedded) = true) ->
  (s.(voiceCloneGenerated) = true -> s'.(voiceCloneGenerated) = true) ->
  (s.(personaConfigured) = true -> s'.(personaConfigured) = true) ->
  sequential s -> sequential s'.
Proof.
  unfold sequential, prerequisite, canProceedToVoice, canProceedToPersona,
    canProceedToChat.
  intros -> Hd Hv Hp.
  destruct (currentStep s); trivial;
    destruct (documentsEmbedded s), (voiceCloneGenerated s), (personaConfigured s);
    try discriminate; intros _;
    rewrite ?Hd, ?Hv, ?Hp; reflexivity.
Qed.

Lemma sendMessage_flags api now now' s :
  sequential s -> sequential (snd (sendMessage api now now' s)).
Proof.
  apply sequential_ext; unfold sendMessage;
    (destruct (negb (truthy (trim (inputMessage s))) || isGenerating s);
     [reflexivity |]);
    unfold sendMessage_try; run_act;
    (destruct (chatWithKnowledge api _ _); run_act; [| reflexivity]);
    (destruct (voiceCloneGenerated s) eqn:Hv; run_act; [| now rewrite ?Hv]);
    (destruct (voiceFile s); run_act; [| now rewrite ?Hv]);
    (destruct (generateTTSWithVoice api _ _ _); run_act; now rewrite ?Hv).
Qed.

Lemma processDocuments_flags api s :
  sequential s -> sequential (snd (processDocuments api s)).
Proof.
  apply sequential_more; unfold processDocuments;
    (destruct (documents s) as [| d0 ds]; [intros; assumption || reflexivity |]);
    pose proof (processLoop_run api (List.length (d0 :: ds)) (d0 :: ds) 0
                  (setUploadProgress 0%Q (setIsUploading true s))) as Hloop;
    remember (processLoop api (List.length (d0 :: ds)) 0 (d0 :: ds)) as loop eqn:E;
    clear E; unfold bind, update, try_catch_finally;
    destruct Hloop as [(p & Hrun) | (before & doc & later & e & p & _ & _ & Hrun)];
    rewrite Hrun; cbn; trivial.
Qed.

Lemma generateVoiceClone_flags api s :
  sequential s -> sequential (snd (generateVoiceClone api s)).
Proof.
  apply sequential_more; unfold generateVoiceClone;
    (destruct (voiceFile s); [| intros; assumption || reflexivity]);
    unfold bind, update, try_catch_finally, await, ret; cbn;
    (destruct (generateTTSWithVoice api _ _ _) as [r | e]; cbn; trivial);
    (destruct (truthy (audio_base64 r)); cbn; trivial).
Qed.

Lemma clearKnowledgeBase_flags api confirmed s :
  sequential s -> sequential (snd (clearKnowledgeBase api confirmed s)).
Proof.
  unfold clearKnowledgeBase. destruct confirmed; cbn; [| trivial].
  destruct (resetKnowledge api (effects s)) as [[] | e]; cbn; [reflexivity |].
  apply sequential_ext; reflexivity.
Qed.

(** Every event leaves the wizard in a step whose prerequisites hold. *)
Lemma step_sequential s e : sequential s -> sequential (step s e).
Proof.
  intros H. unfold step. destruct (enabled e s) eqn:En; [| assumption].
  destruct e; cbn [handle];
    try (now apply sendMessage_flags);
    try (now apply processDocuments_flags);
    try (now apply generateVoiceClone_flags);
    try (now apply clearKnowledgeBase_flags);
    try (revert H; apply sequential_ext; reflexivity);
    try (revert H; apply sequential_more; cbn; trivial; fail);
    unfold sequential, prerequisite, canProceedToVoice, canProceedToPersona,
      canProceedToChat, onValueChange, canProceedToVoice, canProceedToPersona,
      canProceedToChat, configurePersona, enabled in *;
    try destruct value;
    destruct s as [? ? ? de pc ie ? ? vc ? ? ? ? ? ? ? ? cs ? ?];
    cbn in *; destruct cs, de, vc, pc; cbn in *; try discriminate; reflexivity.
Qed.

Lemma run_sequential events : forall s, sequential s -> sequential (run events s).
Proof.
  induction events as [| e events IH]; intros s H; [assumption |].
  cbn. apply IH. now apply step_sequential.
Qed.

(** The tab handler turns down a step whose prerequisites are not met. *)
Lemma onValueChange_rejects value s :
  prerequisite value s = false ->
  (onValueChange value s).(currentStep) = s.(currentStep)
  /\ exists t, onValueChange value s = emit (ShowToast t) s
               /\ t.(variant) = destructive.
Proof.
  unfold prerequisite, onValueChange, toast.
  destruct value; cbn; try discriminate; intros H; rewrite ?H; cbn.
  - split; [reflexivity |]. eexists. split; reflexivity.
  - unfold canProceedToPersona, canProceedToVoice in *.
    destruct (documentsEmbedded s); cbn in *; rewrite ?H; cbn;
      (split; [reflexivity |]); eexists; split; reflexivity.
  - unfold canProceedToChat, canProceedToVoice in *.
    destruct (documentsEmbedded s), (voiceCloneGenerated s); cbn in *;
      rewrite ?H; cbn; (split; [reflexivity |]); eexists; split; reflexivity.
Qed.

(** C9. Whatever the user selects and clicks and whenever the server
    answers, the wizard is on the chat step only with documents embedded,
    the voice cloned and the persona configured; the tab handler leaves the
    step as it is when the prerequisites of the selected one are unset. *)
Theorem chat_step_needs_whole_setup session events :
  (run events (initial session)).(currentStep) = chat ->
  ((run events (initial session)).(documentsEmbedded) = true
   /\ (run events (initial session)).(voiceCloneGenerated) = true
   /\ (run events (initial session)).(personaConfigured) = true)
  /\ (forall value s,
        prerequisite value s = false ->
        (step s (SelectTab value)).(currentStep) = s.(currentStep)).
Proof.
  intros Hchat. split.
  - assert (H : sequential (run events (initial session))).
    { apply run_sequential. reflexivity. }
    unfold sequential in H. rewrite Hchat in H.
    unfold prerequisite, canProceedToChat in H.
    destruct (documentsEmbedded _), (voiceCloneGenerated _), (personaConfigured _);
      try discriminate; auto.
  - intros value s Hpre. unfold step. cbn.
    now apply onValueChange_rejects.
Qed.

Lemma chat_step_needs_whole_setup_witness :
  (run quick_setup (initial 1)).(currentStep) = chat
  /\ (run quick_setup (initial 1)).(documentsEmbedded) = true
  /\ (run quick_setup (initial 1)).(voiceCloneGenerated) = true
  /\ (run quick_setup (initial 1)).(personaConfigured) = true.
Proof.
  split; [reflexivity |].
  exact (proj1 (chat_step_needs_whole_setup 1 quick_setup eq_refl)).
Defined.

(** ** What the page keeps of an answer *)

(** The history after one run of [sendMessage]: unchanged when the handler
    is guarded, the user's turn alone when a request failed, and otherwise
    the user's turn and the answer with the number of sources the server
    reported. *)
Lemma sendMessage_messages api now now' s0 :
  (snd (sendMessage api now now' s0)).(messages) = s0.(messages)
  \/ (snd (sendMessage api now now' s0)).(messages)
     = s0.(messages) ++ [mkMessage now user s0.(inputMessage) None None now]
  \/ exists response url,
       api.(chatWithKnowledge) s0.(effects)
         (mkChatRequest s0.(inputMessage) s0.(conversationId)
            (negb s0.(voiceCloneGenerated)) (or_undefined s0.(systemPrompt)))
       = Ok response
       /\ (snd (sendMessage api now now' s0)).(messages)
          = s0.(messages)
            ++ [mkMessage now user s0.(inputMessage) None None now;
                mkMessage now' assistant response.(text_response) url
                  (Some response.(sources_used)) now'].
Proof.
  unfold sendMessage.
  destruct (negb (truthy (trim (inputMessage s0))) || isGenerating s0); [now left |].
  right. unfold sendMessage_try. run_act.
  destruct (chatWithKnowledge api (effects s0) _) as [response | e] eqn:Hchat;
    run_act; [| now left].
  destruct (voiceCloneGenerated s0); run_act.
  - destruct (voiceFile s0) as [file |]; run_act.
    + destruct (generateTTSWithVoice api _ _ file) as [tts | e]; run_act.
      * right. exists response. eexists. split; [reflexivity |].
        now rewrite <- app_assoc.
      * now left.
    + right. exists response, None. split; [reflexivity |].
      now rewrite <- app_assoc.
  - right. exists response, None. split; [reflexivity |].
    now rewrite <- app_assoc.
Qed.

(** The line "Using n knowledge sources" is shown under an answer exactly
    when the server reported at least one source. *)
Lemma sourcesBadge_answer i c url n t :
  sourcesBadge (mkMessage i assistant c url (Some n) t) = (0 <? n)%Z.
Proof. reflexivity. Qed.

(** ** [clearKnowledgeBase] *)

Lemma clearKnowledgeBase_cleared api s :
  api.(resetKnowledge) s.(effects) = Ok tt ->
  (snd (clearKnowledgeBase api true s)).(documents) = []
  /\ (snd (clearKnowledgeBase api true s)).(messages) = []
  /\ shownDocumentCount (snd (clearKnowledgeBase api true s)) = 0%Z
  /\ canProceedToVoice (snd (clearKnowledgeBase api true s)) = false
  /\ (snd (clearKnowledgeBase api true s)).(currentStep) = upload.
Proof.
  intros H. unfold clearKnowledgeBase. cbn. rewrite H. cbn. auto.
Qed.

Lemma clearKnowledgeBase_declined api s :
  clearKnowledgeBase api false s = (Ok tt, s).
Proof. reflexivity. Qed.

End PageFacts.

(* ===================================================================== *)
(** * Properties of the other handlers of the page                        *)
(* ===================================================================== *)

Section TrimFacts.

(** ** [trim] *)

Lemma trim_start_blank s : forallb is_white_space s = true -> trim_start s = [].
Proof.
  induction s as [| c s IH]; cbn; [reflexivity |].
  intros H. apply andb_prop in H as [Hc Hs]. rewrite Hc. now apply IH.
Qed.

Lemma trim_start_nil s : trim_start s = [] -> forallb is_white_space s = true.
Proof.
  induction s as [| c s IH]; cbn; [reflexivity |].
  destruct (is_white_space c); [exact IH | discriminate].
Qed.

(** What [trim_start] leaves begins with a code unit that is no white space,
    and it is what follows the white space at the start. *)
Lemma trim_start_split s :
  exists blank, s = blank ++ trim_start s
                /\ forallb is_white_space blank = true
                /\ (forall c r, trim_start s = c :: r -> is_white_space c = false).
Proof.
  induction s as [| c s (blank & E & Hb & Hh)]; cbn.
  - exists []. repeat split. discriminate.
  - destruct (is_white_space c) eqn:Hc.
    + exists (c :: blank). cbn. rewrite Hc, Hb. repeat split; [now f_equal | exact Hh].
    + exists []. repeat split. now intros ? ? [= <- _].
Qed.

Lemma forallb_rev (A : Type) (f : A -> bool) l : forallb f (rev l) = forallb f l.
Proof.
  induction l as [| a l IH]; [reflexivity |]. cbn.
  rewrite forallb_app, IH. cbn. rewrite andb_true_r. apply andb_comm.
Qed.

(** A string is blank for [trim] exactly when all of it is white space. *)
Lemma truthy_trim s :
  truthy (trim s) = existsb (fun c => negb (is_white_space c)) s.
Proof.
  unfold trim.
  destruct (trim_start_split s) as (blank & E & Hb & Hh).
  destruct (trim_start s) as [| c r] eqn:Hs.
  - cbn. symmetry. apply not_true_is_false. intros H.
    apply existsb_exists in H as (x & Hx & Hnw).
    pose proof (trim_start_nil s Hs) as Hall.
    rewrite forallb_forall in Hall. rewrite (Hall x Hx) in Hnw. discriminate.
  - pose proof (Hh c r eq_refl) as Hc.
    replace (existsb (fun c => negb (is_white_space c)) s) with true.
    2:{ symmetry. apply existsb_exists. exists c. split.
        - rewrite E. apply in_or_app. right. now left.
        - now rewrite Hc. }
    destruct (trim_start (rev (c :: r))) as [| d q] eqn:Hr.
    + apply trim_start_nil in Hr. rewrite forallb_rev in Hr.
      cbn in Hr. rewrite Hc in Hr. discriminate.
    + cbn. destruct (rev q ++ [d]) eqn:Hq; [| reflexivity].
      now apply app_eq_nil in Hq as [_ Hq].
Qed.

Lemma trim_start_length s : List.length (trim_start s) <= List.length s.
Proof.
  destruct (trim_start_split s) as (blank & E & _).
  rewrite E at 2. rewrite length_app. lia.
Qed.

Lemma trim_length s : List.length (trim s) <= List.length s.
Proof.
  unfold trim. rewrite length_rev.
  etransitivity; [apply trim_start_length |]. rewrite length_rev.
  apply trim_start_length.
Qed.

End TrimFacts.

Section InputsFacts.

Import Page Inputs.
Local Open Scope act_scope.

Ltac run_handler :=
  repeat (unfold bind, update, try_catch_finally, read, await, ret; cbn).

(** ** [handleFileUpload] *)

Lemma str_eqb_eq a b : str_eqb a b = true <-> a = b.
Proof.
  unfold str_eqb.
  destruct (list_eq_dec N.eq_dec a b); split; trivial; try discriminate.
  intros. contradiction.
Qed.

(** The clause about the extension adds nothing: the type it asks for is in
    [validTypes] already. *)
Lemma isValidType_types toLowerCase file :
  isValidType toLowerCase file = includes validTypes file.(file_type).
Proof.
  unfold isValidType.
  destruct (includes validTypes (file_type file)) eqn:E; [reflexivity |].
  cbn [orb].
  destruct (str_eqb (file_type file) (lit "application/octet-stream")) eqn:Eo;
    [| apply andb_false_r].
  apply str_eqb_eq in Eo. rewrite Eo in E. discriminate E.
Qed.

(** X1. [handleFileUpload] takes a file exactly when its MIME type is one of
    the six of [validTypes] and it has at most 10 MiB, whatever its name and
    however many documents there are: the file then becomes the last
    document; otherwise the documents stay as they are and an error is set. *)
Theorem handleFileUpload_accepts_by_type_and_size toLowerCase now file p :
  handleFileUpload toLowerCase now file p
  = if includes validTypes file.(file_type)
       && N.leb file.(file_size) (10 * 1024 * 1024)
    then mkPanel
           (setDocuments
              (p.(page).(documents)
               ++ [mkDocument now file.(file_name) None (Some file.(file_size))
                     (Some file)]) p.(page))
           p.(pastedText) None true
    else mkPanel (emit ConsoleError p.(page)) p.(pastedText)
           (Some (if includes validTypes file.(file_type)
                  then "File size too large. Maximum size is 10MB."
                  else "Invalid file type. Please upload a text file, PDF, or Word document."))%string
           false.
Proof.
  unfold handleFileUpload. rewrite isValidType_types.
  destruct (includes validTypes (file_type file)); cbn [negb andb]; [| reflexivity].
  change (10 * 1024 * 1024)%N with MAX_FILE_SIZE.
  rewrite N.ltb_antisym.
  destruct (N.leb (file_size file) MAX_FILE_SIZE); reflexivity.
Qed.

(** X2. Three of the types the file picker offers ([SUPPORTED_TYPES]) are
    turned down by [handleFileUpload]: a Markdown, CSV or JSON file is never
    added, whatever its name and size, and the user is told that the type
    is invalid. They are the only offered types that are turned down. *)
Theorem handleFileUpload_rejects_offered_types toLowerCase now file p :
  In file.(file_type) [lit "text/markdown"; lit "text/csv"; lit "application/json"] ->
  In file.(file_type) SUPPORTED_TYPES
  /\ (handleFileUpload toLowerCase now file p).(page).(documents)
     = p.(page).(documents)
  /\ (handleFileUpload toLowerCase now file p).(uploadError)
     = Some "Invalid file type. Please upload a text file, PDF, or Word document."%string
  /\ (handleFileUpload toLowerCase now file p).(uploadSuccess) = false
  /\ (forall type,
        In type SUPPORTED_TYPES ->
        includes validTypes type = false ->
        In type [lit "text/markdown"; lit "text/csv"; lit "application/json"]).
Proof.
  intros Hin.
  assert (Hno : includes validTypes (file_type file) = false).
  { destruct Hin as [H | [H | [H | []]]]; rewrite <- H; reflexivity. }
  split; [| split; [| split; [| split]]].
  - unfold SUPPORTED_TYPES.
    destruct Hin as [H | [H | [H | []]]]; rewrite <- H; cbn; tauto.
  - unfold handleFileUpload. rewrite isValidType_types, Hno. reflexivity.
  - unfold handleFileUpload. rewrite isValidType_types, Hno. reflexivity.
  - unfold handleFileUpload. rewrite isValidType_types, Hno. reflexivity.
  - intros type Ht Hv. unfold SUPPORTED_TYPES in Ht. cbn [In] in Ht.
    destruct Ht as [H | [H | [H | [H | [H | [H | [H | []]]]]]]];
      try (rewrite <- H; cbn; tauto);
      rewrite <- H in Hv; discriminate Hv.
Qed.

Lemma handleFileUpload_rejects_offered_types_witness :
  (handleFileUpload ascii_lower 7 notes_md (Inputs.initial 1)).(page).(documents) = []
  /\ (handleFileUpload ascii_lower 7 notes_md (Inputs.initial 1)).(uploadSuccess) = false.
Proof.
  pose proof (handleFileUpload_rejects_offered_types ascii_lower 7 notes_md
                (Inputs.initial 1) (or_introl eq_refl))
    as (_ & Hd & _ & Hs & _).
  exact (conj Hd Hs).
Defined.

(** ** [handlePasteText] *)

(** X3. [handlePasteText] does nothing at all when the pasted text is white
    space only. Otherwise it empties the box and appends one document that
    holds the text as it was typed, untrimmed, and for which
    [processDocuments] has exactly the request that carries this text. *)
Theorem handlePasteText_keeps_text_verbatim now time p :
  (handlePasteText now time p
  = if existsb (fun c => negb (is_white_space c)) p.(pastedText)
    then mkPanel
           (toast "Text added" "Your text has been added to documents" default
              (setDocuments
                 (p.(page).(documents)
                  ++ [mkDocument now (lit "Pasted text " ++ time)
                        (Some p.(pastedText)) (Some (utf8_size p.(pastedText)))
                        None]) p.(page)))
           [] p.(uploadError) p.(uploadSuccess)
    else p)
  /\ (existsb (fun c => negb (is_white_space c)) p.(pastedText) = true ->
      requestOf (mkDocument now (lit "Pasted text " ++ time)
                   (Some p.(pastedText)) (Some (utf8_size p.(pastedText))) None)
      = [CallAddKnowledge
           (mkAddKnowledge [p.(pastedText)] [lit "Pasted text " ++ time])]).
Proof.
  split.
  - unfold handlePasteText. rewrite truthy_trim.
    destruct (existsb _ (pastedText p)); reflexivity.
  - intros H. unfold requestOf. cbn.
    destruct (pastedText p) as [| c r]; [discriminate H | reflexivity].
Qed.

(** ** [sendMessage] *)

(** X4. [sendMessage] does nothing at all when the input is white space only
    or an answer is being generated; otherwise the first thing it sends is
    the chat request, which carries the input as typed, untrimmed, and the
    input box is emptied. *)
Theorem sendMessage_sends_unless_blank_or_busy api now now' s0 :
  (forallb is_white_space s0.(inputMessage) = true \/ s0.(isGenerating) = true ->
   sendMessage api now now' s0 = (Ok tt, s0))
  /\ (existsb (fun c => negb (is_white_space c)) s0.(inputMessage) = true ->
      s0.(isGenerating) = false ->
      (snd (sendMessage api now now' s0)).(inputMessage) = []
      /\ exists later,
           (snd (sendMessage api now now' s0)).(effects)
           = s0.(effects)
             ++ CallChat (mkChatRequest s0.(inputMessage) s0.(conversationId)
                            (negb s0.(voiceCloneGenerated))
                            (or_undefined s0.(systemPrompt)))
                :: later).
Proof.
  split.
  - intros H. apply sendMessage_guarded. rewrite truthy_trim.
    destruct H as [H | H]; [| rewrite H; apply orb_true_r].
    replace (existsb (fun c => negb (is_white_space c)) (inputMessage s0)) with false;
      [reflexivity |].
    symmetry. apply not_true_is_false. intros Hex.
    apply existsb_exists in Hex as (c & Hc & Hnw).
    rewrite forallb_forall in H. rewrite (H c Hc) in Hnw. discriminate.
  - intros Hin Hgen. rewrite <- truthy_trim in Hin.
    unfold sendMessage. rewrite Hin, Hgen. cbn [negb orb].
    unfold sendMessage_try. run_handler.
    destruct (chatWithKnowledge api (effects s0) _) as [response | e]; run_handler.
    2:{ split; [reflexivity |]. eexists. rewrite <- app_assoc. reflexivity. }
    destruct (voiceCloneGenerated s0); run_handler.
    2:{ split; [reflexivity |]. now exists []. }
    destruct (voiceFile s0) as [file |]; run_handler.
    2:{ split; [reflexivity |]. now exists []. }
    destruct (generateTTSWithVoice api _ _ file); run_handler;
      (split; [reflexivity |]); eexists; rewrite <- !app_assoc; reflexivity.
Qed.

(** X6. When the chat answers but the voice synthesis of the answer fails,
    [sendMessage] throws the answer away: the history gets the user's turn
    only, and the user sees the toast "Failed to get response". *)
Theorem sendMessage_loses_answer_when_voice_fails api now now' s0 file response e :
  truthy (trim s0.(inputMessage)) = true ->
  s0.(isGenerating) = false ->
  s0.(voiceCloneGenerated) = true ->
  s0.(voiceFile) = Some file ->
  api.(chatWithKnowledge) s0.(effects)
    (mkChatRequest s0.(inputMessage) s0.(conversationId) false
       (or_undefined s0.(systemPrompt)))
  = Ok response ->
  api.(generateTTSWithVoice)
    (s0.(effects)
     ++ [CallChat (mkChatRequest s0.(inputMessage) s0.(conversationId) false
                     (or_undefined s0.(systemPrompt)))])
    (mkTTSRequest (truncatedResponse response.(text_response))) file
  = Threw e ->
  (snd (sendMessage api now now' s0)).(messages)
  = s0.(messages) ++ [mkMessage now user s0.(inputMessage) None None now]
  /\ (snd (sendMessage api now now' s0)).(effects)
     = s0.(effects)
       ++ [CallChat (mkChatRequest s0.(inputMessage) s0.(conversationId) false
                       (or_undefined s0.(systemPrompt)));
           CallTTS (mkTTSRequest (truncatedResponse response.(text_response))) file;
           ShowToast (mkToast "Error" "Failed to get response" destructive)].
Proof.
  intros Hin Hgen Hv Hf Hchat Htts.
  unfold sendMessage. rewrite Hin, Hgen. cbn [negb orb].
  unfold sendMessage_try. run_handler. rewrite Hv. cbn [negb].
  rewrite Hchat. run_handler. rewrite Hf. run_handler.
  rewrite Htts. run_handler. now rewrite <- !app_assoc.
Qed.

Lemma sendMessage_loses_answer_when_voice_fails_witness :
  (snd (sendMessage api_mute 5 6 typed_hello_cloned)).(messages)
  = [mkMessage 5 user (lit "hello") None None 5].
Proof.
  exact (proj1 (sendMessage_loses_answer_when_voice_fails api_mute 5 6
                  typed_hello_cloned sample_voice
                  (mkChatResponse (lit "hello") 1 0) (HttpError 503)
                  eq_refl eq_refl eq_refl eq_refl eq_refl eq_refl)).
Defined.

(** X5. No handler of the page lets an error of the server escape, and each
    one releases its busy flag whatever the server did: after [sendMessage]
    no answer is being generated, after [processDocuments] nothing is being
    uploaded, after [generateVoiceClone] and [testVoiceClone] no voice is
    being generated. *)
Theorem handlers_release_busy_flags api :
  (forall now now' s,
      fst (sendMessage api now now' s) = Ok tt
      /\ (s.(isGenerating) = false ->
          (snd (sendMessage api now now' s)).(isGenerating) = false))
  /\ (forall s,
        fst (processDocuments api s) = Ok tt
        /\ (s.(isUploading) = false ->
            (snd (processDocuments api s)).(isUploading) = false))
  /\ (forall s,
        fst (generateVoiceClone api s) = Ok tt
        /\ (s.(isGeneratingVoice) = false ->
            (snd (generateVoiceClone api s)).(isGeneratingVoice) = false))
  /\ (forall s,
        fst (testVoiceClone api s) = Ok tt
        /\ (s.(isGeneratingVoice) = false ->
            (snd (testVoiceClone api s)).(isGeneratingVoice) = false)).
Proof.
  split; [| split; [| split]].
  - intros now now' s. unfold sendMessage.
    destruct (negb (truthy (trim (inputMessage s))) || isGenerating s);
      [now split |].
    unfold sendMessage_try. run_handler.
    destruct (chatWithKnowledge api _ _); run_handler; [| now split].
    destruct (voiceCloneGenerated s); run_handler; [| now split].
    destruct (voiceFile s); run_handler; [| now split].
    destruct (generateTTSWithVoice api _ _ _); run_handler; now split.
  - intros s. unfold processDocuments.
    destruct (documents s) as [| d0 ds]; [now split |].
    pose proof (processLoop_run api (List.length (d0 :: ds)) (d0 :: ds) 0
                  (setUploadProgress 0%Q (setIsUploading true s))) as Hloop.
    remember (processLoop api (List.length (d0 :: ds)) 0 (d0 :: ds)) as loop eqn:E.
    clear E. unfold bind, update, try_catch_finally.
    destruct Hloop as [(q & Hrun) | (before & doc & later & e & q & _ & _ & Hrun)];
      rewrite Hrun; now split.
  - intros s. unfold generateVoiceClone.
    destruct (voiceFile s); [| now split]. run_handler.
    destruct (generateTTSWithVoice api _ _ _) as [r | e]; run_handler; [| now split].
    destruct (truthy (audio_base64 r)); run_handler; now split.
  - intros s. unfold testVoiceClone.
    destruct (voiceFile s); [| now split].
    destruct (negb (truthy (trim (testVoiceText s)))); [now split |]. run_handler.
    destruct (generateTTSWithVoice api _ _ _) as [r | e]; run_handler; now split.
Qed.

(** X7. [sendMessage] only ever appends to the history: what was there stays
    in place, at most two messages are added, the first of them is the
    user's turn with the input as typed, and a second one is an answer. *)
Theorem sendMessage_history_grows_at_the_end api now now' s0 :
  exists added,
    (snd (sendMessage api now now' s0)).(messages) = s0.(messages) ++ added
    /\ List.length added <= 2
    /\ (forall m, nth_error added 0 = Some m ->
          m = mkMessage now user s0.(inputMessage) None None now)
    /\ (forall m, nth_error added 1 = Some m ->
          m.(role) = assistant /\ m.(sources) <> None).
Proof.
  destruct (sendMessage_messages api now now' s0)
    as [H | [H | (response & url & _ & H)]]; rewrite H.
  - exists []. rewrite app_nil_r.
    split; [reflexivity |]. split; [cbn; lia |]. split; discriminate.
  - eexists. split; [reflexivity |]. split; [cbn; lia |]. cbn.
    split; [now intros m [= <-] | discriminate].
  - eexists. split; [reflexivity |]. split; [cbn; lia |]. cbn.
    split; intros m [= <-]; [reflexivity |]. cbn. split; [reflexivity | discriminate].
Qed.

(** ** [generateVoiceClone] *)

(** X8. When the server answers the clone request without audio,
    [generateVoiceClone] tells the user nothing: the request is all it
    leaves behind, no toast is shown, nothing is played and the voice is not
    marked as cloned. *)
Theorem generateVoiceClone_silent_without_audio api s file response :
  s.(voiceFile) = Some file ->
  api.(generateTTSWithVoice) s.(effects) (mkTTSRequest testText) file = Ok response ->
  response.(audio_base64) = [] ->
  (snd (generateVoiceClone api s)).(effects)
  = s.(effects) ++ [CallTTS (mkTTSRequest testText) file]
  /\ (snd (generateVoiceClone api s)).(voiceCloneGenerated) = s.(voiceCloneGenerated)
  /\ (snd (generateVoiceClone api s)).(testAudioUrl) = s.(testAudioUrl)
  /\ (snd (generateVoiceClone api s)).(isGeneratingVoice) = false.
Proof.
  intros Hf Hr Hempty. unfold generateVoiceClone. rewrite Hf. run_handler.
  cbn in Hr. rewrite Hr. run_handler. rewrite Hempty. run_handler. auto.
Qed.

Lemma generateVoiceClone_silent_without_audio_witness :
  (snd (generateVoiceClone api_silent voice_chosen)).(effects)
  = [CallTTS (mkTTSRequest testText) sample_voice]
  /\ (snd (generateVoiceClone api_silent voice_chosen)).(voiceCloneGenerated) = false.
Proof.
  pose proof (generateVoiceClone_silent_without_audio api_silent voice_chosen
                sample_voice (mkTTSResponse []) eq_refl eq_refl eq_refl)
    as (He & Hv & _).
  exact (conj He Hv).
Defined.

(** ** [clearKnowledgeBase] *)

(** X9. [clearKnowledgeBase] is all or nothing. When the user confirms and
    the server accepts the reset, documents, messages, statistics and the
    three setup flags are cleared and the wizard is back on the upload step,
    while the voice sample and the stored system prompt stay. In every other
    case none of these changes, and a declined confirmation sends no
    request. *)
Theorem clearKnowledgeBase_all_or_nothing api confirmed s :
  (if confirmed
      && match api.(resetKnowledge) s.(effects) with Ok _ => true | Threw _ => false end
   then
     (snd (clearKnowledgeBase api confirmed s)).(documents) = []
     /\ (snd (clearKnowledgeBase api confirmed s)).(messages) = []
     /\ (snd (clearKnowledgeBase api confirmed s)).(knowledgeStats) = None
     /\ canProceedToVoice (snd (clearKnowledgeBase api confirmed s)) = false
     /\ (snd (clearKnowledgeBase api confirmed s)).(voiceCloneGenerated) = false
     /\ (snd (clearKnowledgeBase api confirmed s)).(personaConfigured) = false
     /\ (snd (clearKnowledgeBase api confirmed s)).(currentStep) = upload
   else
     (snd (clearKnowledgeBase api confirmed s)).(documents) = s.(documents)
     /\ (snd (clearKnowledgeBase api confirmed s)).(messages) = s.(messages)
     /\ (snd (clearKnowledgeBase api confirmed s)).(knowledgeStats) = s.(knowledgeStats)
     /\ canProceedToVoice (snd (clearKnowledgeBase api confirmed s))
        = canProceedToVoice s
     /\ (snd (clearKnowledgeBase api confirmed s)).(voiceCloneGenerated)
        = s.(voiceCloneGenerated)
     /\ (snd (clearKnowledgeBase api confirmed s)).(personaConfigured)
        = s.(personaConfigured)
     /\ (snd (clearKnowledgeBase api confirmed s)).(currentStep) = s.(currentStep))
  /\ (snd (clearKnowledgeBase api confirmed s)).(voiceFile) = s.(voiceFile)
  /\ (snd (clearKnowledgeBase api confirmed s)).(systemPrompt) = s.(systemPrompt)
  /\ (confirmed = false -> clearKnowledgeBase api confirmed s = (Ok tt, s)).
Proof.
  unfold clearKnowledgeBase. destruct confirmed; cbn [negb andb].
  - unfold await.
    destruct (resetKnowledge api (effects s)) as [[] | e]; cbn;
      (split; [auto 10 |]); (split; [reflexivity |]);
      (split; [reflexivity | discriminate]).
  - cbn. auto 12.
Qed.

(** ** The wizard, step by step *)

(** X10. Whatever happens, the wizard shows the voice step only with the
    documents marked embedded and the persona step only with the voice
    cloned as well; and selecting a tab whose prerequisites hold, the upload
    tab always among them, shows that step. *)
Theorem wizard_steps_in_sequence session events :
  ((run events (Page.initial session)).(currentStep) = voice ->
   (run events (Page.initial session)).(documentsEmbedded) = true)
  /\ ((run events (Page.initial session)).(currentStep) = persona ->
      (run events (Page.initial session)).(documentsEmbedded) = true
      /\ (run events (Page.initial session)).(voiceCloneGenerated) = true)
  /\ (forall value s,
        prerequisite value s = true ->
        (step s (SelectTab value)).(currentStep) = value)
  /\ (forall s, (step s (SelectTab upload)).(currentStep) = upload).
Proof.
  assert (H : sequential (run events (Page.initial session))).
  { apply run_sequential. reflexivity. }
  unfold sequential, prerequisite, canProceedToPersona, canProceedToVoice in H.
  split; [| split; [| split]].
  - intros E. now rewrite E in H.
  - intros E. rewrite E in H. now apply andb_prop in H.
  - intros value s Hpre. unfold step. cbn. unfold onValueChange.
    destruct value; cbn in *; rewrite ?Hpre; cbn; reflexivity.
  - intros s. reflexivity.
Qed.

(** ** What the handlers leave alone *)

Lemma speaks_modest s e : careful s -> speaks s e -> modest e.
Proof.
  intros (_ & Hf & Ht) H. destruct e; cbn in *; trivial.
  destruct H as (Hv & [Hl | Hl]); split; auto.
  now rewrite Hl.
Qed.

Lemma careful_append s s' sent :
  s'.(effects) = s.(effects) ++ sent ->
  Forall (speaks s) sent ->
  (s'.(voiceFile) = s.(voiceFile) \/ s'.(voiceFile) = None) ->
  (s'.(testVoiceText) = s.(testVoiceText) \/ List.length s'.(testVoiceText) <= 500) ->
  careful s -> careful s'.
Proof.
  intros He Hs Hv Ht Hc. pose proof Hc as (Hm & Hf & Hl).
  split; [| split].
  - rewrite He. apply Forall_app. split; [exact Hm |].
    revert Hs. apply Forall_impl. intros e. now apply speaks_modest.
  - intros f E. destruct Hv as [Hv | Hv]; rewrite Hv in E; [now apply Hf | discriminate].
  - destruct Ht as [-> | Ht]; assumption.
Qed.

Lemma sendMessage_frame api now now' s :
  (snd (sendMessage api now now' s)).(documents) = s.(documents)
  /\ (snd (sendMessage api now now' s)).(voiceFile) = s.(voiceFile)
  /\ (snd (sendMessage api now now' s)).(testVoiceText) = s.(testVoiceText).
Proof.
  unfold sendMessage.
  destruct (negb (truthy (trim (inputMessage s))) || isGenerating s);
    [cbn; auto |].
  unfold sendMessage_try. run_handler.
  destruct (chatWithKnowledge api _ _); run_handler; [| auto].
  destruct (voiceCloneGenerated s); run_handler; [| auto].
  destruct (voiceFile s) eqn:Hf; run_handler; [| rewrite ?Hf; auto].
  destruct (generateTTSWithVoice api _ _ _); run_handler; rewrite ?Hf; auto.
Qed.

Lemma sendMessage_speaks api now now' s :
  exists sent,
    (snd (sendMessage api now now' s)).(effects) = s.(effects) ++ sent
    /\ Forall (speaks s) sent.
Proof.
  pose proof (sendMessage_effects api now now' s) as H. cbv zeta in H.
  destruct H as [H | [H | (response & _ & [H | (file & Hf & _ & [H | (audio & H)])])]];
    rewrite H.
  - exists []. now rewrite app_nil_r.
  - eexists. split; [reflexivity |]. repeat constructor.
  - eexists. split; [reflexivity |]. repeat constructor.
  - eexists. split; [reflexivity |].
    repeat (first [apply Forall_nil | apply Forall_cons]); cbn; try exact I.
    split; [exact Hf | left; apply truncatedResponse_length].
  - eexists. split; [reflexivity |].
    repeat (first [apply Forall_nil | apply Forall_cons]); cbn; try exact I.
    split; [exact Hf | left; apply truncatedResponse_length].
Qed.

Lemma requestOf_speaks s docs : Forall (speaks s) (flat_map requestOf docs).
Proof.
  apply Forall_forall. intros e He. apply in_flat_map in He as (d & _ & He).
  unfold requestOf in He.
  destruct (doc_file d); [destruct He as [<- | []]; exact I |].
  destruct (doc_content d) as [t |]; [| contradiction].
  destruct (truthy t); [destruct He as [<- | []]; exact I | contradiction].
Qed.

Lemma processDocuments_frame api s :
  (snd (processDocuments api s)).(documents) = s.(documents)
  /\ (snd (processDocuments api s)).(voiceFile) = s.(voiceFile)
  /\ (snd (processDocuments api s)).(testVoiceText) = s.(testVoiceText)
  /\ exists sent,
       (snd (processDocuments api s)).(effects) = s.(effects) ++ sent
       /\ Forall (speaks s) sent.
Proof.
  unfold processDocuments.
  destruct (documents s) as [| d0 ds] eqn:Hd.
  { cbn. rewrite Hd. split; [reflexivity |]. split; [reflexivity |].
    split; [reflexivity |]. eexists. split; [reflexivity |].
    constructor; [exact I | constructor]. }
  rewrite <- Hd.
  pose proof (processLoop_run api (List.length (documents s)) (documents s) 0
                (setUploadProgress 0%Q (setIsUploading true s))) as Hloop.
  remember (processLoop api (List.length (documents s)) 0 (documents s)) as loop eqn:E.
  clear E. unfold bind, update, try_catch_finally.
  destruct Hloop as [(q & Hrun) | (before & doc & later & e & q & _ & _ & Hrun)];
    rewrite Hrun; cbn -[flat_map];
    (split; [reflexivity |]); (split; [reflexivity |]); (split; [reflexivity |]);
    eexists; rewrite <- !app_assoc; (split; [reflexivity |]);
    (apply Forall_app; split; [apply requestOf_speaks |]);
    (constructor; [exact I |]); (constructor; [exact I | constructor]).
Qed.

Lemma generateVoiceClone_frame api s :
  (snd (generateVoiceClone api s)).(documents) = s.(documents)
  /\ (snd (generateVoiceClone api s)).(voiceFile) = s.(voiceFile)
  /\ ((snd (generateVoiceClone api s)).(testVoiceText) = s.(testVoiceText)
      \/ List.length (snd (generateVoiceClone api s)).(testVoiceText) <= 500)
  /\ exists sent,
       (snd (generateVoiceClone api s)).(effects) = s.(effects) ++ sent
       /\ Forall (speaks s) sent.
Proof.
  unfold generateVoiceClone.
  destruct (voiceFile s) as [file |] eqn:Hf.
  2:{ cbn. rewrite Hf. split; [reflexivity |]. split; [reflexivity |].
      split; [now left |]. eexists. split; [reflexivity |].
      constructor; [exact I | constructor]. }
  assert (Hs : speaks s (CallTTS (mkTTSRequest testText) file)).
  { split; [exact Hf |]. left. cbn. lia. }
  run_handler.
  destruct (generateTTSWithVoice api _ _ file) as [r | e]; run_handler.
  - destruct (truthy (audio_base64 r)); run_handler;
      (split; [reflexivity |]); (split; [now rewrite Hf |]).
    + split; [right; lia |]. eexists. rewrite <- !app_assoc.
      split; [reflexivity |].
      constructor; [exact Hs |]. constructor; [exact I |].
      constructor; [exact I | constructor].
    + split; [now left |]. eexists. split; [reflexivity |].
      constructor; [exact Hs | constructor].
  - split; [reflexivity |]. split; [now rewrite Hf |]. split; [now left |].
    eexists. rewrite <- !app_assoc. split; [reflexivity |].
    constructor; [exact Hs |]. constructor; [exact I |].
    constructor; [exact I | constructor].
Qed.

Lemma testVoiceClone_frame api s :
  (snd (testVoiceClone api s)).(documents) = s.(documents)
  /\ (snd (testVoiceClone api s)).(voiceFile) = s.(voiceFile)
  /\ (snd (testVoiceClone api s)).(testVoiceText) = s.(testVoiceText)
  /\ exists sent,
       (snd (testVoiceClone api s)).(effects) = s.(effects) ++ sent
       /\ Forall (speaks s) sent.
Proof.
  unfold testVoiceClone.
  destruct (voiceFile s) as [file |] eqn:Hf.
  2:{ cbn. rewrite Hf. split; [reflexivity |]. split; [reflexivity |].
      split; [reflexivity |]. exists []. now rewrite app_nil_r. }
  destruct (negb (truthy (trim (testVoiceText s)))).
  { cbn. rewrite Hf. split; [reflexivity |]. split; [reflexivity |].
    split; [reflexivity |]. exists []. now rewrite app_nil_r. }
  assert (Hs : speaks s (CallTTS (mkTTSRequest (testVoiceText s)) file)).
  { split; [exact Hf |]. now right. }
  run_handler.
  destruct (generateTTSWithVoice api _ _ file) as [r | e]; run_handler;
    (split; [reflexivity |]); (split; [now rewrite Hf |]);
    (split; [reflexivity |]); eexists; rewrite <- !app_assoc;
    (split; [reflexivity |]);
    (constructor; [exact Hs |]); (constructor; [exact I |]);
    (constructor; [exact I | constructor]).
Qed.

Lemma clearKnowledgeBase_frame api confirmed s :
  ((snd (clearKnowledgeBase api confirmed s)).(documents) = s.(documents)
   \/ (snd (clearKnowledgeBase api confirmed s)).(documents) = [])
  /\ (snd (clearKnowledgeBase api confirmed s)).(voiceFile) = s.(voiceFile)
  /\ (snd (clearKnowledgeBase api confirmed s)).(testVoiceText) = s.(testVoiceText)
  /\ exists sent,
       (snd (clearKnowledgeBase api confirmed s)).(effects) = s.(effects) ++ sent
       /\ Forall (speaks s) sent.
Proof.
  unfold clearKnowledgeBase. destruct confirmed; cbn [negb].
  2:{ cbn. split; [now left |]. split; [reflexivity |]. split; [reflexivity |].
      exists []. now rewrite app_nil_r. }
  unfold await. destruct (resetKnowledge api (effects s)) as [[] | e]; cbn.
  - split; [now right |]. split; [reflexivity |]. split; [reflexivity |].
    eexists. rewrite <- !app_assoc. split; [reflexivity |].
    constructor; [exact I |]. constructor; [exact I |].
    constructor; [exact I | constructor].
  - split; [now left |]. split; [reflexivity |]. split; [reflexivity |].
    eexists. rewrite <- !app_assoc. split; [reflexivity |].
    constructor; [exact I |]. constructor; [exact I | constructor].
Qed.

(** ** What every action keeps *)

Lemma careful_unchanged s s' :
  s'.(effects) = s.(effects) ->
  (s'.(voiceFile) = s.(voiceFile) \/ s'.(voiceFile) = None) ->
  (s'.(testVoiceText) = s.(testVoiceText) \/ List.length s'.(testVoiceText) <= 500) ->
  careful s -> careful s'.
Proof.
  intros He. apply careful_append with (sent := []); [| constructor].
  now rewrite app_nil_r.
Qed.

Lemma careful_toast s s' t d v :
  s'.(effects) = s.(effects) ++ [ShowToast (mkToast t d v)] ->
  (s'.(voiceFile) = s.(voiceFile) \/ s'.(voiceFile) = None) ->
  (s'.(testVoiceText) = s.(testVoiceText) \/ List.length s'.(testVoiceText) <= 500) ->
  careful s -> careful s'.
Proof.
  intros He. apply careful_append with (sent := [ShowToast (mkToast t d v)]);
    [exact He |]. constructor; [exact I | constructor].
Qed.

Lemma careful_framed s s' :
  (s'.(voiceFile) = s.(voiceFile)
   /\ (s'.(testVoiceText) = s.(testVoiceText)
       \/ List.length s'.(testVoiceText) <= 500)
   /\ exists sent, s'.(effects) = s.(effects) ++ sent /\ Forall (speaks s) sent) ->
  careful s -> careful s'.
Proof.
  intros (Hv & Ht & sent & He & Hs).
  apply careful_append with (sent := sent); auto.
Qed.

(** Every event of the wizard but the one that stands for an accepted voice
    sample keeps the page careful. *)
Lemma handle_careful e s :
  (forall f, e <> VoiceSelected f) -> careful s -> careful (handle e s).
Proof.
  intros Hne. destruct e; cbn [handle];
    try (apply careful_unchanged; auto; fail);
    try (eapply careful_toast; [reflexivity | auto | auto]; fail).
  - unfold onValueChange.
    destruct (Step_eqb value voice && negb (canProceedToVoice s));
      [eapply careful_toast; [reflexivity | auto | auto] |].
    destruct (Step_eqb value persona && negb (canProceedToPersona s));
      [eapply careful_toast; [reflexivity | auto | auto] |].
    destruct (Step_eqb value chat && negb (canProceedToChat s));
      [eapply careful_toast; [reflexivity | auto | auto] |].
    apply careful_unchanged; auto.
  - now destruct (Hne file).
  - apply careful_framed.
    destruct (processDocuments_frame api s) as (_ & Hv & Ht & Hs). auto.
  - apply careful_framed.
    destruct (generateVoiceClone_frame api s) as (_ & Hv & Ht & Hs). auto.
  - apply careful_framed.
    destruct (sendMessage_frame api now now' s) as (_ & Hv & Ht).
    pose proof (sendMessage_speaks api now now' s). auto.
  - apply careful_framed.
    destruct (clearKnowledgeBase_frame api confirmed s) as (_ & Hv & Ht & Hs). auto.
Qed.

(** Every event of the wizard but the one that stands for an accepted
    document leaves documents that can be sent. *)
Lemma handle_sendable e s :
  (forall d, e <> AddDocument d) ->
  Forall sendable s.(documents) -> Forall sendable (handle e s).(documents).
Proof.
  intros Hne H. destruct e; cbn [handle]; try exact H.
  - unfold onValueChange.
    destruct (Step_eqb value voice && negb (canProceedToVoice s)); [exact H |].
    destruct (Step_eqb value persona && negb (canProceedToPersona s)); [exact H |].
    destruct (Step_eqb value chat && negb (canProceedToChat s)); exact H.
  - now destruct (Hne doc).
  - cbn. apply Forall_forall. intros d Hd. apply filter_In in Hd as [Hd _].
    rewrite Forall_forall in H. now apply H.
  - destruct (processDocuments_frame api s) as (Hd & _). now rewrite Hd.
  - destruct (generateVoiceClone_frame api s) as (Hd & _). now rewrite Hd.
  - destruct (sendMessage_frame api now now' s) as (Hd & _). now rewrite Hd.
  - destruct (clearKnowledgeBase_frame api confirmed s) as ([Hd | Hd] & _);
      rewrite Hd; [exact H | constructor].
Qed.

Lemma includes_voiceTypes_accepted file :
  includes voiceTypes file.(file_type) = true ->
  N.ltb MAX_FILE_SIZE file.(file_size) = false ->
  accepted_voice file.
Proof. intros Ht Hs. split; [exact Ht |]. now apply N.ltb_ge. Qed.

Lemma handleVoiceUpload_careful file s :
  careful s -> careful (handleVoiceUpload file s).
Proof.
  intros Hc. pose proof Hc as (Hm & Hf & Hl). unfold handleVoiceUpload.
  destruct (includes voiceTypes (file_type file)) eqn:Ht; cbn [negb].
  2:{ split; [| split]; cbn; auto. apply Forall_app. split.
      - apply Forall_app. split; [exact Hm | repeat constructor].
      - repeat constructor. }
  destruct (N.ltb MAX_FILE_SIZE (file_size file)) eqn:Hs.
  { split; [| split]; cbn; auto. apply Forall_app. split.
    - apply Forall_app. split; [exact Hm | repeat constructor].
    - repeat constructor. }
  split; [| split]; cbn; auto.
  - apply Forall_app. split; [exact Hm | repeat constructor].
  - intros f [= <-]. now apply includes_voiceTypes_accepted.
Qed.

Lemma act_tidy toLowerCase p a : tidy p -> tidy (act toLowerCase p a).
Proof.
  intros [Hc Hd]. unfold act.
  destruct (possible a p) eqn:Hp; [| now split].
  destruct a as [e | now file | pasted | now time | file | | typed | api];
    cbn [perform].
  - split; cbn.
    + apply handle_careful; [| exact Hc]. intros f ->. discriminate Hp.
    + apply handle_sendable; [| exact Hd]. intros d ->. discriminate Hp.
  - unfold handleFileUpload, uploadFailed.
    destruct (negb (isValidType toLowerCase file)).
    { split; cbn; [| exact Hd].
      apply careful_append with (sent := [ConsoleError]) (s := page p); auto.
      constructor; [exact I | constructor]. }
    destruct (N.ltb MAX_FILE_SIZE (file_size file)).
    { split; cbn; [| exact Hd].
      apply careful_append with (sent := [ConsoleError]) (s := page p); auto.
      constructor; [exact I | constructor]. }
    split; cbn.
    + revert Hc. apply careful_unchanged; auto.
    + apply Forall_app. split; [exact Hd |]. constructor; [reflexivity | constructor].
  - now split.
  - unfold handlePasteText.
    destruct (truthy (trim (pastedText p))) eqn:Ht; cbn [negb]; [| now split].
    split; cbn.
    + revert Hc. eapply careful_toast; [reflexivity | auto | auto].
    + apply Forall_app. split; [exact Hd |]. constructor; [| constructor].
      unfold sendable, requestOf. cbn.
      rewrite truthy_trim in Ht.
      destruct (pastedText p); [discriminate Ht | reflexivity].
  - split; cbn; [now apply handleVoiceUpload_careful | ].
    unfold handleVoiceUpload.
    destruct (negb (includes voiceTypes (file_type file))); [exact Hd |].
    destruct (N.ltb MAX_FILE_SIZE (file_size file)); exact Hd.
  - split; cbn; [| exact Hd]. revert Hc. apply careful_unchanged; auto.
  - split; cbn.
    + unfold onTestVoiceTextChange.
      destruct (Nat.leb_spec (List.length typed) 500); [| exact Hc].
      revert Hc. apply careful_unchanged; auto.
    + unfold onTestVoiceTextChange.
      destruct (Nat.leb (List.length typed) 500); exact Hd.
  - destruct (testVoiceClone_frame api (page p)) as (Hdocs & Hv & Ht & Hs).
    split; cbn.
    + revert Hc. apply careful_framed. auto.
    + now rewrite Hdocs.
Qed.

Lemma session_tidy toLowerCase actions : forall p,
  tidy p -> tidy (session toLowerCase actions p).
Proof.
  induction actions as [| a actions IH]; intros p H; [exact H |].
  cbn. apply IH. now apply act_tidy.
Qed.

Lemma initial_tidy n : tidy (Inputs.initial n).
Proof.
  split; [| constructor]. split; [constructor |].
  split; [discriminate |]. cbn. lia.
Qed.

(** X11. Whatever the user does and the server answers, every speech
    request the page sends carries a text of at most 500 code units and a
    voice sample that [handleVoiceUpload] accepted: one of the five audio
    types, of at most 10 MiB. *)
Theorem speech_requests_are_modest toLowerCase n actions r f :
  In (CallTTS r f) (session toLowerCase actions (Inputs.initial n)).(page).(effects) ->
  List.length r.(text) <= 500
  /\ includes voiceTypes f.(file_type) = true
  /\ (f.(file_size) <= 10 * 1024 * 1024)%N.
Proof.
  intros Hin.
  destruct (session_tidy toLowerCase actions _ (initial_tidy n)) as ((Hm & _) & _).
  rewrite Forall_forall in Hm. apply (Hm _ Hin).
Qed.

Lemma speech_requests_are_modest_witness :
  List.length testText <= 500
  /\ includes voiceTypes sample_voice.(file_type) = true
  /\ (sample_voice.(file_size) <= 10 * 1024 * 1024)%N.
Proof.
  exact (speech_requests_are_modest ascii_lower 1 clone_a_voice
           (mkTTSRequest testText) sample_voice (or_intror (or_introl eq_refl))).
Defined.




End InputsFacts.

(* ===================================================================== *)
(** * Properties of a batch of uploads                                    *)
(* ===================================================================== *)

Section UploadingFacts.

Import Page Inputs Uploading.
Local Open Scope act_scope.

Ltac run_quiet :=
  repeat (unfold bind, update, try_catch_finally, read, await, ret; cbn);
  rewrite ?filter_app; cbn; rewrite ?app_nil_r.

(** ** Only [processDocuments] uploads *)

Lemma uploads_requestOf doc : filter is_upload (requestOf doc) = requestOf doc.
Proof.
  unfold requestOf. destruct (doc_file doc); [reflexivity |].
  destruct (doc_content doc) as [pasted |]; [| reflexivity].
  destruct (truthy pasted); reflexivity.
Qed.

Lemma uploads_flat_map docs :
  filter is_upload (flat_map requestOf docs) = flat_map requestOf docs.
Proof.
  induction docs as [| doc docs IH]; [reflexivity |].
  cbn [flat_map]. now rewrite filter_app, uploads_requestOf, IH.
Qed.

Lemma sendMessage_quiet api now now' s :
  filter is_upload (snd (sendMessage api now now' s)).(effects)
  = filter is_upload s.(effects).
Proof.
  pose proof (sendMessage_effects api now now' s) as H. cbv zeta in H.
  destruct H as [H | [H | (response & _ & [H | (file & _ & _ & [H | (audio & H)])])]];
    rewrite H; rewrite ?filter_app; cbn; rewrite ?app_nil_r; reflexivity.
Qed.

Lemma generateVoiceClone_quiet api s :
  filter is_upload (snd (generateVoiceClone api s)).(effects)
  = filter is_upload s.(effects).
Proof.
  unfold generateVoiceClone. destruct (voiceFile s) as [file |]; run_quiet;
    [| reflexivity].
  destruct (generateTTSWithVoice api _ _ file) as [r | e]; run_quiet;
    [| reflexivity].
  destruct (truthy (audio_base64 r)); run_quiet; reflexivity.
Qed.

Lemma testVoiceClone_quiet api s :
  filter is_upload (snd (testVoiceClone api s)).(effects)
  = filter is_upload s.(effects).
Proof.
  unfold testVoiceClone. destruct (voiceFile s) as [file |]; [| reflexivity].
  destruct (negb (truthy (trim (testVoiceText s)))); [reflexivity |].
  run_quiet.
  destruct (generateTTSWithVoice api _ _ file) as [r | e]; run_quiet; reflexivity.
Qed.

Lemma clearKnowledgeBase_quiet api confirmed s :
  filter is_upload (snd (clearKnowledgeBase api confirmed s)).(effects)
  = filter is_upload s.(effects).
Proof.
  unfold clearKnowledgeBase. destruct confirmed; cbn [negb]; [| reflexivity].
  unfold await. destruct (resetKnowledge api (effects s)) as [[] | e]; run_quiet;
    reflexivity.
Qed.

Lemma handle_quiet e s :
  (forall api, e <> EmbedDocuments api) ->
  filter is_upload (handle e s).(effects) = filter is_upload s.(effects).
Proof.
  intros He. destruct e; cbn [handle]; try reflexivity;
    try (cbn; rewrite ?filter_app; cbn; rewrite ?app_nil_r; reflexivity).
  - unfold onValueChange.
    destruct (Step_eqb value voice && negb (canProceedToVoice s));
      [run_quiet; reflexivity |].
    destruct (Step_eqb value persona && negb (canProceedToPersona s));
      [run_quiet; reflexivity |].
    destruct (Step_eqb value chat && negb (canProceedToChat s)); run_quiet;
      reflexivity.
  - now destruct (He api).
  - apply generateVoiceClone_quiet.
  - apply sendMessage_quiet.
  - apply clearKnowledgeBase_quiet.
Qed.

(** No action of the user but "Embed Documents" sends an upload. *)
Lemma act_quiet toLowerCase a p :
  calm (Do a) ->
  filter is_upload (act toLowerCase p a).(page).(effects)
  = filter is_upload p.(page).(effects).
Proof.
  intros Hc. unfold act. destruct (possible a p); [| reflexivity].
  destruct a as [e | now file | pasted | now time | file | | typed | api];
    cbn [perform].
  - cbn. apply handle_quiet. intros api ->. exact Hc.
  - unfold handleFileUpload.
    destruct (negb (isValidType toLowerCase file)); [run_quiet; reflexivity |].
    destruct (N.ltb MAX_FILE_SIZE (file_size file)); run_quiet; reflexivity.
  - reflexivity.
  - unfold handlePasteText.
    destruct (negb (truthy (trim (pastedText p)))); run_quiet; reflexivity.
  - cbn. unfold handleVoiceUpload.
    destruct (negb (includes voiceTypes (file_type file))); [run_quiet; reflexivity |].
    destruct (N.ltb MAX_FILE_SIZE (file_size file)); run_quiet; reflexivity.
  - reflexivity.
  - cbn. unfold onTestVoiceTextChange.
    destruct (Nat.leb (List.length typed) 500); reflexivity.
  - cbn. apply testVoiceClone_quiet.
Qed.

(** ** The loop between two awaits *)

Lemma underway_weaken base docs (P Q : Prop) w :
  (P -> Q) -> underway base docs P w -> underway base docs Q w.
Proof.
  intros HPQ (sent & unsent & Hd & Hu & Hp). exists sent, unsent.
  split; [exact Hd |]. split; [exact Hu |].
  destruct (pending w); [exact Hp |]. destruct Hp; auto.
Qed.

Lemma resume_underway base docs (panel0 : Panel) : forall todo done s,
  docs = done ++ todo ->
  filter is_upload s.(effects) = base ++ flat_map requestOf done ->
  underway base docs False
    (mkWorld (onPage (fun _ => fst (resume docs (List.length done) todo s)) panel0)
       (snd (resume docs (List.length done) todo s))).
Proof.
  induction todo as [| doc rest IH]; intros done s Hd Hu.
  - exists docs, []. cbn. rewrite app_nil_r in *. subst done.
    split; [reflexivity |]. split; [| now left].
    unfold uploads. cbn. rewrite !filter_app. cbn. now rewrite !app_nil_r.
  - cbn [resume]. destruct (requestOf doc) as [| request more] eqn:Hr.
    + replace (S (List.length done)) with (List.length (done ++ [doc]))
        by (rewrite length_app; cbn; lia).
      apply IH.
      * now rewrite <- app_assoc.
      * rewrite flat_map_app. cbn. now rewrite Hr, !app_nil_r.
    + exists (done ++ [doc]), rest. cbn [pending snd].
      split; [now rewrite <- app_assoc |]. split; [| split; [reflexivity | split]].
      * unfold uploads. cbn. rewrite filter_app, Hu, <- Hr, uploads_requestOf.
        rewrite flat_map_app. cbn. now rewrite app_nil_r, app_assoc.
      * cbn [index]. subst docs. rewrite firstn_app.
        rewrite firstn_all2 by lia.
        replace (S (List.length done) - List.length done) with 1 by lia.
        reflexivity.
      * cbn [index]. subst docs. rewrite length_app. cbn. lia.
Qed.

(** ** One move, then any number of them *)

Lemma move_underway toLowerCase base docs (stopped : Prop) w m :
  calm m ->
  underway base docs stopped w ->
  underway base docs (stopped \/ exists e, m = Settle (Threw e))
    (move toLowerCase w m).
Proof.
  intros Hc Hw. destruct m as [a | outcome].
  - apply underway_weaken with stopped; [now left |].
    assert (Hm : move toLowerCase w (Do a)
                 = mkWorld (act toLowerCase (panel w) a) (pending w)).
    { destruct a as [e | | | | | | |]; try reflexivity.
      destruct e; try reflexivity. contradiction. }
    rewrite Hm. destruct Hw as (sent & unsent & Hd & Hu & Hp).
    exists sent, unsent. split; [exact Hd |]. split; [| exact Hp].
    unfold uploads in *. cbn [panel]. now rewrite act_quiet.
  - cbn [move]. destruct (pending w) as [q |] eqn:Hq.
    2:{ apply underway_weaken with stopped; [now left | exact Hw]. }
    destruct Hw as (sent & unsent & Hd & Hu & Hp). rewrite Hq in Hp.
    destruct Hp as (Hclosure & Hsent & Hlt).
    destruct outcome as [[] | e]; cbn [settle].
    + apply underway_weaken with False; [contradiction |].
      unfold onState. rewrite Hclosure.
      assert (Hlen : List.length (firstn (S (index q)) docs) = S (index q)).
      { rewrite length_firstn. lia. }
      pose proof (resume_underway base docs (panel w)
                    (skipn (S (index q)) docs) (firstn (S (index q)) docs)
                    (setUploadProgress
                       (progressAfter (index q) (List.length docs))
                       (page (panel w)))) as Hrun.
      rewrite Hlen in Hrun. apply Hrun.
      * now rewrite firstn_skipn.
      * rewrite <- Hsent. exact Hu.
    + exists sent, unsent. unfold onState. cbn [pending snd fst].
      split; [exact Hd |]. split; [| right; right; now exists e].
      unfold uploads in *. cbn. rewrite !filter_app. cbn.
      now rewrite !app_nil_r.
Qed.

Lemma play_underway toLowerCase base docs moves : forall (stopped : Prop) w,
  Forall calm moves ->
  underway base docs stopped w ->
  underway base docs (stopped \/ rejected moves) (play toLowerCase moves w).
Proof.
  induction moves as [| m moves IH]; intros stopped w Hc Hw.
  - apply underway_weaken with stopped; [now left | exact Hw].
  - inversion Hc as [| ? ? Hm Hms]; subst. cbn [play fold_left].
    apply underway_weaken
      with ((stopped \/ exists e, m = Settle (Threw e)) \/ rejected moves).
    + intros [[H | (e & ->)] | (e & H)]; [now left | right | right].
      * exists e. now left.
      * exists e. now right.
    + apply IH; [exact Hms |]. now apply move_underway.
Qed.

(** ** A batch that is left alone *)

Lemma skipn_past (A : Type) (done : list A) x rest :
  skipn (S (List.length done)) (done ++ x :: rest) = rest.
Proof.
  induction done as [| d done IH]; [reflexivity |]. exact IH.
Qed.

Lemma resume_alone toLowerCase api docs (panel0 : Panel) : forall todo done s,
  docs = done ++ todo ->
  exists outcomes,
    play toLowerCase (map Settle outcomes)
      (mkWorld (onPage (fun _ => fst (resume docs (List.length done) todo s)) panel0)
         (snd (resume docs (List.length done) todo s)))
    = mkWorld
        (onPage (fun _ => ending (processLoop api (List.length docs)
                                     (List.length done) todo s)) panel0)
        None.
Proof.
  induction todo as [| doc rest IH]; intros done s Hd.
  - exists []. reflexivity.
  - assert (Hnext : docs = (done ++ [doc]) ++ rest) by now rewrite <- app_assoc.
    assert (Hlen : List.length (done ++ [doc]) = S (List.length done))
      by (rewrite length_app; cbn; lia).
    assert (Hskip : skipn (S (List.length done)) docs = rest)
      by (rewrite Hd; apply skipn_past).
    cbn [resume processLoop]. unfold bind, processOne, requestOf.
    destruct (doc_file doc) as [file |].
    + unfold bind, await, update.
      destruct (uploadTextFile api (effects s) file) as [[] | e].
      * destruct (IH (done ++ [doc])
                    (setUploadProgress
                       (progressAfter (List.length done) (List.length docs))
                       (emit (CallUpload file) s)) Hnext) as (outcomes & Hrun).
        rewrite Hlen in Hrun. exists (Ok tt :: outcomes).
        cbn [map play fold_left move pending snd fst]. unfold onState, settle.
        cbn [closure index panel page onPage fst snd]. rewrite Hskip.
        exact Hrun.
      * exists [Threw e]. reflexivity.
    + destruct (doc_content doc) as [pasted |].
      * destruct (truthy pasted).
        -- unfold bind, await, update.
           destruct (addKnowledge api (effects s) _) as [[] | e].
           ++ destruct (IH (done ++ [doc])
                         (setUploadProgress
                            (progressAfter (List.length done) (List.length docs))
                            (emit (CallAddKnowledge
                                     (mkAddKnowledge [pasted] [doc_name doc])) s))
                         Hnext) as (outcomes & Hrun).
              rewrite Hlen in Hrun. exists (Ok tt :: outcomes).
              cbn [map play fold_left move pending snd fst]. unfold onState, settle.
              cbn [closure index panel page onPage fst snd]. rewrite Hskip.
              exact Hrun.
           ++ exists [Threw e]. reflexivity.
        -- destruct (IH (done ++ [doc]) s Hnext) as (outcomes & Hrun).
           rewrite Hlen in Hrun. exists outcomes. exact Hrun.
      * destruct (IH (done ++ [doc]) s Hnext) as (outcomes & Hrun).
        rewrite Hlen in Hrun. exists outcomes. exact Hrun.
Qed.

(** With nothing in between, the batch ends as [processDocuments] run in one
    go, for the answers the server gives to its requests. *)
Lemma batch_alone toLowerCase api w0 :
  exists outcomes,
    play toLowerCase (map Settle outcomes) (onState (start w0.(panel).(page)) w0)
    = mkWorld (onPage (fun s => snd (processDocuments api s)) w0.(panel)) None.
Proof.
  destruct (resume_alone toLowerCase api (documents (page (panel w0))) (panel w0)
              (documents (page (panel w0))) []
              (setUploadProgress 0%Q (setIsUploading true (page (panel w0))))
              eq_refl) as (outcomes & Hrun).
  cbn [List.length app] in Hrun.
  unfold start, processDocuments, onState, onPage in *. cbn [page panel] in *.
  destruct (documents (page (panel w0))) as [| d0 ds].
  - exists []. reflexivity.
  - exists outcomes. etransitivity; [exact Hrun |].
    unfold ending, bind, update, try_catch_finally, embedded, failed.
    destruct (processLoop api _ 0 (d0 :: ds) _) as [[[] | e] s']; reflexivity.
Qed.

(** X12. A batch of uploads sends the requests of the documents that were
    there when "Embed Documents" was pressed, in their order and nothing
    else, whatever the user does and the server answers while it runs: a
    document added in the meantime is not sent, a document removed in the
    meantime is. While a request is awaited the requests up to it have been
    sent; once the batch is over, a rejection was among the answers or every
    document of the press has been sent. *)
Theorem batch_sends_documents_of_the_press toLowerCase api w0 moves :
  w0.(pending) = None ->
  possible (Wizard (EmbedDocuments api)) w0.(panel) = true ->
  Forall calm moves ->
  exists sent unsent,
    w0.(panel).(page).(documents) = sent ++ unsent
    /\ uploads (play toLowerCase moves
                 (move toLowerCase w0 (Do (Wizard (EmbedDocuments api)))))
       = uploads w0 ++ flat_map requestOf sent
    /\ match (play toLowerCase moves
               (move toLowerCase w0 (Do (Wizard (EmbedDocuments api))))).(pending)
       with
       | Some q =>
           q.(closure) = w0.(panel).(page).(documents)
           /\ sent = firstn (S q.(index)) w0.(panel).(page).(documents)
       | None => unsent = [] \/ rejected moves
       end.
Proof.
  intros _ Hpress Hcalm.
  assert (Hstart : underway (uploads w0) w0.(panel).(page).(documents) False
                     (move toLowerCase w0 (Do (Wizard (EmbedDocuments api))))).
  { cbn [move]. rewrite Hpress. unfold onState, start.
    destruct (documents (page (panel w0))) as [| d0 ds] eqn:Hdocs.
    { cbn in Hpress. rewrite Hdocs in Hpress. cbn in Hpress.
      rewrite andb_false_r in Hpress. discriminate Hpress. }
    apply (resume_underway (uploads w0) (d0 :: ds) (panel w0) (d0 :: ds) []).
    - reflexivity.
    - cbn. now rewrite app_nil_r. }
  pose proof (play_underway toLowerCase _ _ moves False _ Hcalm Hstart)
    as (sent & unsent & Hd & Hu & Hp).
  exists sent, unsent. split; [exact Hd |]. split; [exact Hu |].
  destruct (pending _) as [q |].
  - destruct Hp as (Hc & Hs & _). now split.
  - destruct Hp as [Hp | [[] | Hp]]; auto.
Qed.

End UploadingFacts.

Lemma batch_sends_documents_of_the_press_witness :
  exists sent unsent,
    Uploading.two_documents.(Uploading.panel).(Inputs.page).(Page.documents)
    = sent ++ unsent
    /\ Uploading.uploads
         (Uploading.play Inputs.ascii_lower Uploading.late_note
            (Uploading.move Inputs.ascii_lower Uploading.two_documents
               (Uploading.Do (Inputs.Wizard (Page.EmbedDocuments (Page.api_up 0))))))
       = Uploading.uploads Uploading.two_documents
         ++ flat_map Page.requestOf sent
    /\ (unsent = [] \/ Uploading.rejected Uploading.late_note).
Proof.
  refine (batch_sends_documents_of_the_press Inputs.ascii_lower (Page.api_up 0)
            Uploading.two_documents Uploading.late_note eq_refl eq_refl _).
  unfold Uploading.late_note.
  repeat (apply Forall_cons; [exact I |]). apply Forall_nil.
Defined.

(** The page is marked embedded with three documents after two requests. *)
Example late_document_is_not_sent :
  let w := Uploading.play Inputs.ascii_lower Uploading.late_note
             (Uploading.move Inputs.ascii_lower Uploading.two_documents
                (Uploading.Do (Inputs.Wizard (Page.EmbedDocuments (Page.api_up 0))))) in
  w.(Uploading.pending) = None
  /\ w.(Uploading.panel).(Inputs.page).(Page.documentsEmbedded) = true
  /\ List.length w.(Uploading.panel).(Inputs.page).(Page.documents) = 3
  /\ List.length (Uploading.uploads w) = 2.
Proof. vm_compute. repeat split. Qed.

(* ===================================================================== *)
(** * Properties of [base64ToBlob]                                        *)
(* ===================================================================== *)

Section Base64Facts.

Import Base64.
Local Open Scope N_scope.

(** ** Lists three elements at a time *)

Lemma list_ind3 (A : Type) (P : list A -> Prop) :
  P [] -> (forall a, P [a]) -> (forall a b, P [a; b]) ->
  (forall a b c l, P l -> P (a :: b :: c :: l)) ->
  forall l, P l.
Proof.
  intros H0 H1 H2 H3 l.
  assert (H : P l /\ (forall a, P (a :: l)) /\ (forall a b, P (a :: b :: l))).
  { induction l as [| x l (IH0 & IH1 & IH2)]; auto. }
  apply H.
Qed.

(** ** The alphabet *)

Lemma sextet_base64_char v : v < 64 -> sextet (base64_char v) = Some v.
Proof.
  intros H. unfold base64_char.
  destruct (N.ltb_spec v 26).
  { unfold sextet.
    replace ((65 <=? v + 65) && (v + 65 <=? 90))%bool with true.
    - f_equal. lia.
    - symmetry. apply andb_true_intro. split; apply N.leb_le; lia. }
  destruct (N.ltb_spec v 52).
  { unfold sextet.
    replace ((65 <=? v + 71) && (v + 71 <=? 90))%bool with false.
    2:{ symmetry. apply andb_false_intro2. apply N.leb_gt. lia. }
    replace ((97 <=? v + 71) && (v + 71 <=? 122))%bool with true.
    - f_equal. lia.
    - symmetry. apply andb_true_intro. split; apply N.leb_le; lia. }
  destruct (N.ltb_spec v 62).
  { unfold sextet.
    replace ((65 <=? v - 4) && (v - 4 <=? 90))%bool with false.
    2:{ symmetry. apply andb_false_intro1. apply N.leb_gt. lia. }
    replace ((97 <=? v - 4) && (v - 4 <=? 122))%bool with false.
    2:{ symmetry. apply andb_false_intro1. apply N.leb_gt. lia. }
    replace ((48 <=? v - 4) && (v - 4 <=? 57))%bool with true.
    - f_equal. lia.
    - symmetry. apply andb_true_intro. split; apply N.leb_le; lia. }
  assert (Hv : v = 62 \/ v = 63) by lia.
  destruct Hv; subst v; reflexivity.
Qed.

Lemma sextet_bound c v : sextet c = Some v -> v < 64.
Proof.
  unfold sextet.
  destruct ((65 <=? c) && (c <=? 90))%bool eqn:E1.
  { apply andb_prop in E1 as [H1 H2]. apply N.leb_le in H1, H2.
    intros [= <-]. lia. }
  destruct ((97 <=? c) && (c <=? 122))%bool eqn:E2.
  { apply andb_prop in E2 as [H1 H2]. apply N.leb_le in H1, H2.
    intros [= <-]. lia. }
  destruct ((48 <=? c) && (c <=? 57))%bool eqn:E3.
  { apply andb_prop in E3 as [H1 H2]. apply N.leb_le in H1, H2.
    intros [= <-]. lia. }
  destruct (c =? 43); [intros [= <-]; lia |].
  destruct (c =? 47); [intros [= <-]; lia | discriminate].
Qed.

(** A character of the alphabet is neither white space nor [=]. *)
Lemma sextet_plain c v :
  sextet c = Some v -> is_ascii_whitespace c = false /\ (c =? 61) = false.
Proof.
  unfold sextet, is_ascii_whitespace.
  destruct ((65 <=? c) && (c <=? 90))%bool eqn:E1.
  { apply andb_prop in E1 as [H1 H2]. apply N.leb_le in H1, H2. intros _.
    repeat match goal with |- context [?a =? ?b] =>
      destruct (N.eqb_spec a b); [lia |] end. auto. }
  destruct ((97 <=? c) && (c <=? 122))%bool eqn:E2.
  { apply andb_prop in E2 as [H1 H2]. apply N.leb_le in H1, H2. intros _.
    repeat match goal with |- context [?a =? ?b] =>
      destruct (N.eqb_spec a b); [lia |] end. auto. }
  destruct ((48 <=? c) && (c <=? 57))%bool eqn:E3.
  { apply andb_prop in E3 as [H1 H2]. apply N.leb_le in H1, H2. intros _.
    repeat match goal with |- context [?a =? ?b] =>
      destruct (N.eqb_spec a b); [lia |] end. auto. }
  destruct (N.eqb_spec c 43) as [-> | _]; [intros _; now split |].
  destruct (N.eqb_spec c 47) as [-> | _]; [intros _; now split | discriminate].
Qed.

Lemma sextets_plain data : forall vs,
  sextets data = Some vs -> Forall plain data /\ Forall (fun v => v < 64) vs.
Proof.
  induction data as [| c data IH]; intros vs; cbn.
  - intros [= <-]. split; constructor.
  - destruct (sextet c) as [v |] eqn:Hc; [| discriminate].
    destruct (sextets data) as [vs' |]; [| discriminate].
    intros [= <-]. destruct (IH vs' eq_refl) as [Hd Hv].
    split; constructor; auto.
    + now apply sextet_plain with v.
    + now apply sextet_bound with c.
Qed.

(** ** Arithmetic of the bit buffer *)

Ltac divmod := zify; Z.to_euclidean_division_equations; lia.

Lemma quantum_sextets a b c :
  a < 256 -> b < 256 -> c < 256 ->
  a / 4 < 64 /\ (a mod 4) * 16 + b / 16 < 64
  /\ (b mod 16) * 4 + c / 64 < 64 /\ c mod 64 < 64
  /\ (a mod 4) * 16 < 64 /\ (b mod 16) * 4 < 64.
Proof. intros. repeat split; divmod. Qed.

Lemma quantum3 a b c :
  a < 256 -> b < 256 -> c < 256 ->
  let n := ((a / 4 * 64 + ((a mod 4) * 16 + b / 16)) * 64
            + ((b mod 16) * 4 + c / 64)) * 64 + c mod 64 in
  n / 65536 = a /\ (n / 256) mod 256 = b /\ n mod 256 = c.
Proof. intros. subst n. repeat split; divmod. Qed.

Lemma quantum2 a b :
  a < 256 -> b < 256 ->
  let n := ((a / 4 * 64 + ((a mod 4) * 16 + b / 16)) * 64 + (b mod 16) * 4) / 4 in
  n / 256 = a /\ n mod 256 = b.
Proof. intros. subst n. repeat split; divmod. Qed.

Lemma quantum1 a : a < 256 -> (a / 4 * 64 + (a mod 4) * 16) / 16 = a.
Proof. intros. divmod. Qed.

(** ** Decoding what was encoded *)

Lemma sextets_cons v data vs :
  v < 64 -> sextets data = Some vs ->
  sextets (base64_char v :: data) = Some (v :: vs).
Proof.
  intros Hv Hd. cbn [sextets]. now rewrite (sextet_base64_char v Hv), Hd.
Qed.

Lemma decode_unpadded : forall bytes,
  Forall is_byte bytes ->
  exists vs, sextets (unpadded bytes) = Some vs /\ decode vs = bytes.
Proof.
  unfold is_byte.
  induction bytes as [| a | a b | a b c rest IH] using list_ind3; intros Hb.
  - exists []. now split.
  - inversion_clear Hb as [| ? ? Ha _].
    destruct (quantum_sextets a a a Ha Ha Ha) as (H1 & _ & _ & _ & H5 & _).
    eexists. split.
    + cbn [unpadded]. apply sextets_cons; [exact H1 |].
      apply sextets_cons; [exact H5 | reflexivity].
    + cbn [decode]. now rewrite quantum1.
  - inversion_clear Hb as [| ? ? Ha Hb']. inversion_clear Hb' as [| ? ? Hb _].
    destruct (quantum_sextets a b b Ha Hb Hb) as (H1 & H2 & _ & _ & _ & H6).
    eexists. split.
    + cbn [unpadded]. apply sextets_cons; [exact H1 |].
      apply sextets_cons; [exact H2 |].
      apply sextets_cons; [exact H6 | reflexivity].
    + cbn [decode]. destruct (quantum2 a b Ha Hb) as [E1 E2].
      cbv zeta in E1, E2. now rewrite E1, E2.
  - inversion_clear Hb as [| ? ? Ha Hb']. inversion_clear Hb' as [| ? ? Hb Hb''].
    inversion_clear Hb'' as [| ? ? Hc Hrest].
    destruct (IH Hrest) as (vs & Hvs & Hdec).
    destruct (quantum_sextets a b c Ha Hb Hc) as (H1 & H2 & H3 & H4 & _ & _).
    eexists. split.
    + cbn [unpadded]. apply sextets_cons; [exact H1 |].
      apply sextets_cons; [exact H2 |].
      apply sextets_cons; [exact H3 |].
      apply sextets_cons; [exact H4 | exact Hvs].
    + cbn [decode]. destruct (quantum3 a b c Ha Hb Hc) as (E1 & E2 & E3).
      cbv zeta in E1, E2, E3. now rewrite E1, E2, E3, Hdec.
Qed.

(** The encoding is the unpadded one followed by no, one or two [=]; its
    length is a multiple of four, and the unpadded length is not one more
    than a multiple of four. *)
Lemma b64encode_padding : forall bytes,
  exists pad k r,
    b64encode bytes = unpadded bytes ++ pad
    /\ (pad = [] \/ pad = [61] \/ pad = [61; 61])
    /\ List.length (b64encode bytes) = (4 * k)%nat
    /\ List.length (unpadded bytes) = (4 * k - r)%nat
    /\ (r = 0 \/ r = 1 \/ r = 2)%nat /\ (r <= 4 * k)%nat
    /\ List.length pad = r.
Proof.
  induction bytes as [| a | a b | a b c rest IH] using list_ind3.
  - exists [], 0%nat, 0%nat. cbn. auto 10.
  - exists [61; 61], 1%nat, 2%nat. cbn. auto 10.
  - exists [61], 1%nat, 1%nat. cbn. auto 10.
  - destruct IH as (pad & k & r & E & Hpad & Hl & Hu & Hr & Hk & Hp).
    exists pad, (S k), r. cbn [b64encode unpadded List.length].
    rewrite E at 1. rewrite Hl, Hu. repeat split; auto; try lia.
Qed.

Lemma strip_padding_unpadded data pad :
  Forall plain data ->
  pad = [] \/ pad = [61] \/ pad = [61; 61] ->
  (pad <> [] -> data <> []) ->
  strip_padding (data ++ pad) = data.
Proof.
  intros Hplain Hpad Hne. unfold strip_padding.
  assert (Hlast : forall c r, rev data = c :: r -> (c =? 61) = false).
  { intros c r E.
    assert (Hin : In c data) by (apply in_rev; rewrite E; now left).
    rewrite Forall_forall in Hplain. now apply Hplain. }
  destruct Hpad as [-> | [-> | ->]].
  - rewrite app_nil_r. destruct (rev data) as [| c r] eqn:E; [reflexivity |].
    now rewrite (Hlast c r eq_refl).
  - rewrite rev_app_distr. cbn.
    destruct (rev data) as [| c r] eqn:E.
    + destruct data; [now destruct Hne | ].
      apply (f_equal (@List.length _)) in E. rewrite length_rev in E. discriminate.
    + rewrite (Hlast c r eq_refl). rewrite <- E. apply rev_involutive.
  - rewrite rev_app_distr. cbn. apply rev_involutive.
Qed.

Lemma filter_all (A : Type) (f : A -> bool) (l : list A) :
  Forall (fun x => f x = true) l -> filter f l = l.
Proof.
  induction 1 as [| x l Hx _ IH]; cbn; [reflexivity |]. now rewrite Hx, IH.
Qed.

(** [atob] undoes the encoding. *)
Lemma atob_b64encode bytes :
  Forall is_byte bytes -> atob (b64encode bytes) = Some bytes.
Proof.
  intros Hb.
  destruct (decode_unpadded bytes Hb) as (vs & Hvs & Hdec).
  destruct (sextets_plain _ _ Hvs) as [Hplain _].
  destruct (b64encode_padding bytes) as (pad & k & r & E & Hpad & Hl & Hu & Hr & Hk & Hp).
  unfold atob.
  assert (Hfilter : filter (fun c => negb (is_ascii_whitespace c)) (b64encode bytes)
                    = b64encode bytes).
  { apply filter_all. rewrite E. apply Forall_app. split.
    - revert Hplain. apply Forall_impl. intros c [Hc _]. now rewrite Hc.
    - destruct Hpad as [-> | [-> | ->]]; repeat constructor. }
  rewrite Hfilter, Hl.
  replace (N.of_nat (4 * k) mod 4 =? 0) with true
    by (symmetry; apply N.eqb_eq; divmod).
  rewrite E, strip_padding_unpadded; trivial.
  - rewrite Hu.
    replace (N.of_nat (4 * k - r) mod 4 =? 1) with false
      by (symmetry; apply N.eqb_neq; divmod).
    now rewrite Hvs, Hdec.
  - intros Hne Hnil. rewrite Hnil in Hu. cbn in Hu.
    destruct Hpad as [-> | [-> | ->]]; cbn in Hp; subst r; [now apply Hne | lia | lia].
Qed.

(** ** The copying loop *)

Local Close Scope N_scope.

Lemma firstn_succ_nth (A : Type) (l : list A) i x :
  nth_error l i = Some x -> firstn (S i) l = firstn i l ++ [x].
Proof.
  revert i. induction l as [| y l IH]; intros [| i]; cbn; try discriminate.
  - now intros [= ->].
  - intros H. now rewrite <- (IH i H).
Qed.

(** After [i] turns the first [i] slots hold the character codes and the
    others are still holes; the loop fills them all. *)
Lemma fill_spec (byteCharacters : list N) : forall todo i,
  i + todo = List.length byteCharacters ->
  fill byteCharacters todo i
       (map (@Some N) (firstn i byteCharacters) ++ repeat (@None N) todo)
  = map (@Some N) byteCharacters.
Proof.
  induction todo as [| todo IH]; intros i Hlen.
  - cbn. rewrite app_nil_r, firstn_all2 by lia. reflexivity.
  - cbn [fill]. unfold charCodeAt, code_unit.
    destruct (nth_error byteCharacters i) as [x |] eqn:Hx.
    2:{ apply nth_error_None in Hx. lia. }
    assert (Hi : List.length (map Some (firstn i byteCharacters)) = i).
    { rewrite length_map, length_firstn. lia. }
    unfold assign.
    rewrite length_app, Hi, repeat_length.
    replace (i - (i + S todo)) with 0 by lia. cbn [repeat]. rewrite app_nil_r.
    rewrite firstn_app, Hi, Nat.sub_diag, firstn_O, app_nil_r.
    rewrite firstn_all2 by lia.
    rewrite skipn_app, Hi.
    rewrite skipn_all2 by lia.
    replace (S i - i) with 1 by lia. cbn [skipn repeat app].
    rewrite <- (IH (S i)) by lia.
    rewrite (firstn_succ_nth _ _ _ _ Hx), map_app. cbn [map].
    now rewrite <- app_assoc.
Qed.

Lemma decode_bytes : forall vs,
  Forall (fun v => (v < 64)%N) vs -> Forall is_byte (decode vs).
Proof.
  unfold is_byte.
  fix IH 1.
  intros [| a [| b [| c [| d rest]]]] H; cbn [decode].
  - constructor.
  - constructor.
  - inversion_clear H as [| ? ? Ha H']. inversion_clear H' as [| ? ? Hb _].
    repeat constructor. divmod.
  - inversion_clear H as [| ? ? Ha H']. inversion_clear H' as [| ? ? Hb H''].
    inversion_clear H'' as [| ? ? Hc _].
    repeat constructor; divmod.
  - inversion_clear H as [| ? ? Ha H']. inversion_clear H' as [| ? ? Hb H''].
    inversion_clear H'' as [| ? ? Hc H3]. inversion_clear H3 as [| ? ? Hd Hrest].
    repeat (apply Forall_cons); try divmod.
    now apply IH.
Qed.

Lemma atob_bytes data byteCharacters :
  atob data = Some byteCharacters -> Forall is_byte byteCharacters.
Proof.
  unfold atob.
  destruct (_ =? 1)%N; [discriminate |].
  destruct (sextets _) as [vs |] eqn:Hvs; [| discriminate].
  intros [= <-]. apply decode_bytes. now apply (sextets_plain _ _ Hvs).
Qed.

Lemma Uint8Array_bytes bytes :
  Forall is_byte bytes -> Uint8Array (map Some bytes) = bytes.
Proof.
  unfold Uint8Array, is_byte.
  induction 1 as [| b bytes Hb _ IH]; cbn; [reflexivity |].
  rewrite IH. f_equal. now apply N.mod_small.
Qed.

(** [base64ToBlob] copies what [atob] decoded. *)
Lemma base64ToBlob_atob base64 mimeType byteCharacters :
  atob base64 = Some byteCharacters ->
  base64ToBlob base64 mimeType = Some (mkBlob byteCharacters (blobType mimeType)).
Proof.
  intros H. unfold base64ToBlob. rewrite H. cbv beta iota zeta. unfold new_Array.
  pose proof (fill_spec byteCharacters (List.length byteCharacters) 0 eq_refl) as Hf.
  cbn [firstn map app] in Hf. rewrite Hf. unfold new_Blob.
  rewrite Uint8Array_bytes; [reflexivity |]. now apply atob_bytes with base64.
Qed.

(** [new Blob] keeps a type of printable ASCII without capitals. *)
Lemma blobType_canonical type : canonical type -> blobType type = type.
Proof.
  unfold canonical, blobType. intros H.
  assert (Hp : forallb (fun c => N.leb 32 c && N.leb c 126) type = true).
  { apply forallb_forall. intros c Hc.
    rewrite Forall_forall in H. destruct (H c Hc) as ((Hlo & Hhi) & _).
    apply andb_true_intro. split; now apply N.leb_le. }
  rewrite Hp. induction H as [| c type ((Hlo & Hhi) & Hc) _ IH]; [reflexivity |].
  cbn [map]. cbn [forallb] in Hp. apply andb_prop in Hp as (_ & Hp).
  rewrite (IH Hp). f_equal. unfold to_ascii_lowercase.
  destruct (N.leb_spec 65 c), (N.leb_spec c 90); cbn [andb]; trivial.
  exfalso. apply Hc. split; assumption.
Qed.

(** C10. For every string [atob] accepts, [base64ToBlob] builds a byte array
    with one entry per decoded character, entry [i] being the character
    code at position [i]; so the bytes that were encoded as base64 come back
    unchanged. The blob has the type [new Blob] makes of [mimeType]. *)
Theorem base64ToBlob_roundtrip :
  (forall base64 mimeType byteCharacters,
      atob base64 = Some byteCharacters ->
      exists blob,
        base64ToBlob base64 mimeType = Some blob
        /\ blob.(blob_type) = blobType mimeType
        /\ List.length blob.(blob_bytes) = List.length byteCharacters
        /\ forall i, nth_error blob.(blob_bytes) i = charCodeAt byteCharacters i)
  /\ (forall bytes mimeType,
        Forall is_byte bytes ->
        base64ToBlob (b64encode bytes) mimeType
        = Some (mkBlob bytes (blobType mimeType))).
Proof.
  split.
  - intros base64 mimeType byteCharacters H.
    exists (mkBlob byteCharacters (blobType mimeType)).
    rewrite (base64ToBlob_atob _ _ _ H). cbn. auto.
  - intros bytes mimeType Hb. apply base64ToBlob_atob. now apply atob_b64encode.
Qed.

Lemma base64ToBlob_roundtrip_witness :
  base64ToBlob (lit "UklG") (lit "audio/wav") = Some (mkBlob riff (lit "audio/wav")).
Proof.
  apply (proj2 base64ToBlob_roundtrip riff (lit "audio/wav")).
  unfold is_byte, riff. repeat constructor.
Defined.

End Base64Facts.

(* ===================================================================== *)
(** * More on [base64ToBlob]                                              *)
(* ===================================================================== *)

Section BlobFacts.

Import Base64.

(** ** The size of the blob *)

Lemma decode_length : forall vs, 4 * List.length (decode vs) <= 3 * List.length vs.
Proof.
  fix IH 1.
  intros [| a [| b [| c [| d rest]]]]; cbn [decode List.length]; try lia.
  specialize (IH rest). lia.
Qed.

Lemma sextets_length data : forall vs,
  sextets data = Some vs -> List.length vs = List.length data.
Proof.
  induction data as [| c data IH]; intros vs; cbn.
  - now intros [= <-].
  - destruct (sextet c); [| discriminate].
    destruct (sextets data) as [vs' |]; [| discriminate].
    intros [= <-]. cbn. now rewrite (IH vs' eq_refl).
Qed.

Lemma strip_padding_length data :
  List.length (strip_padding data) <= List.length data.
Proof.
  unfold strip_padding.
  destruct (rev data) as [| c1 r1] eqn:E; [lia |].
  assert (Hlen : List.length data = S (List.length r1)).
  { rewrite <- (length_rev data), E. reflexivity. }
  destruct (N.eqb c1 61); [| lia].
  destruct r1 as [| c2 r2]; [cbn; lia |].
  destruct (N.eqb c2 61); rewrite length_rev; cbn in *; lia.
Qed.

Lemma atob_length data byteCharacters :
  atob data = Some byteCharacters ->
  4 * List.length byteCharacters <= 3 * List.length data.
Proof.
  unfold atob. cbv zeta.
  set (clean := filter (fun c => negb (is_ascii_whitespace c)) data).
  assert (Hclean : List.length clean <= List.length data) by apply filter_length_le.
  match goal with
  | |- context [N.eqb (N.of_nat (List.length ?b) mod 4) 1] => set (bare := b)
  end.
  assert (Hbare : List.length bare <= List.length clean).
  { subst bare. match goal with |- context [if ?c then _ else _] => destruct c end;
      [apply strip_padding_length | lia]. }
  match goal with |- context [if ?c then None else _] => destruct c end;
    [discriminate |].
  destruct (sextets bare) as [vs |] eqn:Hvs; [| discriminate].
  intros [= <-]. pose proof (decode_length vs) as Hd.
  rewrite (sextets_length _ _ Hvs) in Hd.
  clearbody bare clean. unfold jsstring, code_unit in *. lia.
Qed.

(** X17. The blob [base64ToBlob] builds never has more than three quarters
    as many bytes as the base64 text has characters, and every one of its
    entries is a byte. Its type is what [new Blob] makes of the type passed
    in: that type itself when it is printable ASCII without capitals. *)
Theorem base64ToBlob_size base64 mimeType blob :
  base64ToBlob base64 mimeType = Some blob ->
  4 * List.length blob.(blob_bytes) <= 3 * List.length base64
  /\ Forall is_byte blob.(blob_bytes)
  /\ blob.(blob_type) = blobType mimeType
  /\ (canonical mimeType -> blob.(blob_type) = mimeType).
Proof.
  intros H. destruct (atob base64) as [byteCharacters |] eqn:Ha.
  - rewrite (base64ToBlob_atob _ mimeType _ Ha) in H. injection H as <-. cbn.
    split; [now apply atob_length |]. split; [now apply atob_bytes with base64 |].
    split; [reflexivity | apply blobType_canonical].
  - unfold base64ToBlob in H. rewrite Ha in H. discriminate H.
Qed.

Lemma base64ToBlob_size_witness :
  4 * List.length riff <= 3 * List.length (lit "UklG").
Proof.
  exact (proj1 (base64ToBlob_size (lit "UklG") (lit "Audio/WAV")
                  (mkBlob riff (lit "audio/wav")) eq_refl)).
Defined.

(** ** What [atob] takes *)

Lemma sextets_alphabet data : forall vs,
  sextets data = Some vs -> Forall (fun c => sextet c <> None) data.
Proof.
  induction data as [| c data IH]; intros vs; cbn.
  - constructor.
  - destruct (sextet c) eqn:Hc; [| discriminate].
    destruct (sextets data) as [vs' |]; [| discriminate].
    intros _. constructor; [congruence | now apply IH with vs'].
Qed.

Lemma strip_padding_split data :
  exists padding,
    data = strip_padding data ++ padding
    /\ (padding = [] \/ padding = [61%N] \/ padding = [61%N; 61%N]).
Proof.
  unfold strip_padding.
  destruct (rev data) as [| c1 r1] eqn:E.
  - exists []. rewrite app_nil_r. auto.
  - assert (Hd : data = rev r1 ++ [c1]).
    { rewrite <- (rev_involutive data), E. reflexivity. }
    destruct (N.eqb_spec c1 61) as [-> | _].
    + destruct r1 as [| c2 r2].
      * exists [61%N]. auto.
      * destruct (N.eqb_spec c2 61) as [-> | _].
        -- exists [61%N; 61%N]. split; [| auto].
           rewrite Hd. cbn. now rewrite <- app_assoc.
        -- exists [61%N]. auto.
    + exists []. rewrite app_nil_r. auto.
Qed.

(** X18. [base64ToBlob] builds a blob only from well-formed base64: without
    its white space the text is a run of characters of the base64 alphabet,
    whose length is not 1 modulo 4, followed by at most two [=] signs. For
    every other text [atob] throws. *)
Theorem base64ToBlob_takes_base64_only base64 mimeType blob :
  base64ToBlob base64 mimeType = Some blob ->
  exists body padding,
    filter (fun c => negb (is_ascii_whitespace c)) base64 = body ++ padding
    /\ Forall (fun c => sextet c <> None) body
    /\ (N.of_nat (List.length body) mod 4 <> 1)%N
    /\ (padding = [] \/ padding = [61%N] \/ padding = [61%N; 61%N]).
Proof.
  unfold base64ToBlob.
  destruct (atob base64) as [byteCharacters |] eqn:Ha; [| discriminate].
  intros _. revert Ha. unfold atob. cbv zeta.
  set (clean := filter (fun c => negb (is_ascii_whitespace c)) base64).
  match goal with
  | |- context [N.eqb (N.of_nat (List.length ?b) mod 4) 1] => set (bare := b)
  end.
  destruct (N.eqb_spec (N.of_nat (List.length bare) mod 4) 1) as [| Hmod];
    [discriminate |].
  destruct (sextets bare) as [vs |] eqn:Hvs; [| discriminate].
  intros _. apply sextets_alphabet in Hvs.
  assert (Hsplit : exists padding,
             clean = bare ++ padding
             /\ (padding = [] \/ padding = [61%N] \/ padding = [61%N; 61%N])).
  { subst bare.
    match goal with |- context [if ?c then _ else _] => destruct c end.
    - apply strip_padding_split.
    - exists []. rewrite app_nil_r. auto. }
  destruct Hsplit as (padding & Hclean & Hpad).
  exists bare, padding. auto.
Qed.

Lemma base64ToBlob_takes_base64_only_witness :
  exists body padding,
    filter (fun c => negb (is_ascii_whitespace c)) (lit "Ukk= ") = body ++ padding
    /\ Forall (fun c => sextet c <> None) body
    /\ (N.of_nat (List.length body) mod 4 <> 1)%N
    /\ (padding = [] \/ padding = [61%N] \/ padding = [61%N; 61%N]).
Proof.
  exact (base64ToBlob_takes_base64_only (lit "Ukk= ") (lit "audio/wav")
           (mkBlob [82%N; 73%N] (lit "audio/wav")) eq_refl).
Defined.

End BlobFacts.

(* ===================================================================== *)
(** * Properties of the form script                                       *)
(* ===================================================================== *)

Section FormFacts.

Import Base64 Form.

Variable Number : Type.
Variable parseFloat : jsstring -> Number.
Variable parseInt : jsstring -> Number.
Variable atobMessage : jsstring.

(** ** The [submit] listener *)

(** X14. The [submit] listener sends a request exactly when the text, once
    trimmed, is not empty and has at most 300 code units. The request then
    carries the trimmed text, and it goes to [/tts-with-voice] with the
    chosen file, or to [/tts] as JSON when no file is chosen. Otherwise
    nothing is sent, an error status is shown, and the button and the audio
    player are left as they were. *)
Theorem submit_sends_trimmed_text fetch (d : Dom Number) :
  if existsb (fun c => negb (is_white_space c)) d.(textInput)
     && Nat.leb (List.length (trim d.(textInput))) 300
  then
    exists r,
      (submit parseFloat parseInt atobMessage fetch d).(requests)
      = d.(requests) ++ [r]
      /\ body_text r.(body) = trim d.(textInput)
      /\ 1 <= List.length (body_text r.(body)) <= 300
      /\ body_file r.(body) = d.(audioFileInput)
      /\ r.(endpoint) = match d.(audioFileInput) with
                        | Some _ => tts_with_voice
                        | None => tts
                        end
  else
    (submit parseFloat parseInt atobMessage fetch d).(requests) = d.(requests)
    /\ (submit parseFloat parseInt atobMessage fetch d).(statusClass) = Some error
    /\ (submit parseFloat parseInt atobMessage fetch d).(generateBtn_disabled)
       = d.(generateBtn_disabled)
    /\ (submit parseFloat parseInt atobMessage fetch d).(audioShown) = d.(audioShown).
Proof.
  unfold submit. rewrite <- truthy_trim.
  destruct (truthy (trim (textInput d))) eqn:Ht; cbn [negb andb]; [| now cbn].
  rewrite Nat.ltb_antisym.
  destruct (Nat.leb_spec (List.length (trim (textInput d))) 300) as [Hl | Hl];
    cbn [negb]; [| now cbn].
  exists (requestFor parseFloat parseInt (trim (textInput d)) d).
  assert (Hpos : 1 <= List.length (trim (textInput d))).
  { destruct (trim (textInput d)); [discriminate Ht | cbn; lia]. }
  split.
  - destruct (attempt _ _) as [m | [blob m]]; reflexivity.
  - unfold requestFor. destruct (audioFileInput d); cbn; auto.
Qed.

(** X15. After a request was sent the button is enabled again, whatever came
    back. The audio player is shown only when the server answered with a
    text that [atob] accepts, and it then plays exactly the decoded bytes;
    in every other case the player is hidden and an error status is shown,
    for an answer that is not base64 with the message of [atob]'s error. *)
Theorem submit_shows_player_or_error fetch (d : Dom Number) :
  truthy (trim d.(textInput)) = true ->
  List.length (trim d.(textInput)) <= 300 ->
  (submit parseFloat parseInt atobMessage fetch d).(generateBtn_disabled) = false
  /\ match fetch (requestFor parseFloat parseInt (trim d.(textInput)) d) with
     | Answered audio_base64 message =>
         match atob audio_base64 with
         | Some bytes =>
             (submit parseFloat parseInt atobMessage fetch d).(audioShown) = true
             /\ (submit parseFloat parseInt atobMessage fetch d).(audioPlayer)
                = Some (mkBlob bytes (lit "audio/wav"))
             /\ (submit parseFloat parseInt atobMessage fetch d).(statusClass)
                = Some success
         | None =>
             (submit parseFloat parseInt atobMessage fetch d).(audioShown) = false
             /\ (submit parseFloat parseInt atobMessage fetch d).(statusClass)
                = Some error
             /\ (submit parseFloat parseInt atobMessage fetch d).(statusText)
                = cross_mark ++ lit "Error: " ++ atobMessage
         end
     | _ =>
         (submit parseFloat parseInt atobMessage fetch d).(audioShown) = false
         /\ (submit parseFloat parseInt atobMessage fetch d).(statusClass)
            = Some error
     end.
Proof.
  intros Ht Hl. unfold submit. rewrite Ht. cbn [negb].
  destruct (Nat.ltb_spec 300 (List.length (trim (textInput d)))); [lia |].
  change (requestFor parseFloat parseInt (trim (textInput d))
            (setAudio false (audioPlayer d)
               (showStatus
                  (microphone ++ lit "Generating speech... This may take a moment.")
                  loading (setBusy true d))))
    with (requestFor parseFloat parseInt (trim (textInput d)) d).
  destruct (fetch _) as [m | detail status | audio message]; cbn [attempt].
  - cbn. auto.
  - cbn. auto.
  - destruct (atob audio) as [bytes |] eqn:Ha.
    + rewrite (base64ToBlob_atob _ (lit "audio/wav") _ Ha).
      change (blobType (lit "audio/wav")) with (lit "audio/wav"). cbn. auto.
    + unfold base64ToBlob. rewrite Ha. cbn. auto.
Qed.

(** X16. Whenever [submit] turns a text down as too long, the counter that
    [updateCharCounter] showed for it while it was typed is in the error
    class, and no request is sent. No answer of the server can produce this
    status. *)
Theorem submit_too_long_after_counter_error fetch value (d : Dom Number) :
  (submit parseFloat parseInt atobMessage fetch (onInput value d)).(statusText)
  = lit "Text must be 300 characters or less." ->
  300 < List.length (trim value)
  /\ (onInput value d).(charCounterClass) = counter_error
  /\ (submit parseFloat parseInt atobMessage fetch (onInput value d)).(requests)
     = d.(requests).
Proof.
  unfold submit. cbn [onInput updateCharCounter textInput].
  destruct (truthy (trim value)) eqn:Ht; cbn [negb].
  - destruct (Nat.ltb_spec 300 (List.length (trim value))) as [Hl | Hl].
    + intros _. pose proof (trim_length value) as Hlen.
      split; [exact Hl |]. split; [| reflexivity].
      unfold onInput, updateCharCounter. cbn [charCounterClass textInput].
      destruct (Nat.ltb_spec 280 (List.length value)); [reflexivity |].
      unfold jsstring, code_unit in *. lia.
    + destruct (attempt _ _) as [m | [blob m]]; cbn; intros H; discriminate H.
  - cbn. intros H. discriminate H.
Qed.

End FormFacts.

Lemma submit_too_long_after_counter_error_witness :
  (Form.onInput (repeat 97%N 301) Form.blank_page).(Form.charCounterClass)
  = Form.counter_error.
Proof.
  refine (proj1 (proj2 (submit_too_long_after_counter_error jsstring (fun v => v)
                          (fun v => v) (lit "bad") Form.server_riff
                          (repeat 97%N 301) Form.blank_page _))).
  vm_compute. reflexivity.
Defined.

Lemma submit_shows_player_or_error_witness :
  (Form.submit (fun v => v) (fun v => v) (lit "bad")
     Form.server_garbled (Form.onInput (lit " Hi ") Form.blank_page)).(Form.audioShown)
  = false.
Proof.
  refine (proj1 (proj2 (submit_shows_player_or_error jsstring (fun v => v) (fun v => v)
                          (lit "bad") Form.server_garbled
                          (Form.onInput (lit " Hi ") Form.blank_page) _ _))).
  - reflexivity.
  - apply Nat.leb_le. reflexivity.
Defined.

(* ===================================================================== *)
(** * Properties of the retrieval engine                                  *)
(* ===================================================================== *)

Section KnowledgeFacts.

Import Knowledge.

Context {Vec Score : Type} {M : Measure Vec Score}.

(** ** Ranking *)

Lemma insert_perm (r : RetrievalResult Score) l : Permutation (insert r l) (r :: l).
Proof.
  induction l as [| x l IH]; cbn; [reflexivity |].
  destruct (leb (score x) (score r)); [reflexivity |].
  rewrite IH. apply perm_swap.
Qed.

Lemma rank_perm (l : list (RetrievalResult Score)) : Permutation (rank l) l.
Proof.
  induction l as [| x l IH]; cbn; [reflexivity |].
  rewrite insert_perm. now constructor.
Qed.

Lemma rank_length (l : list (RetrievalResult Score)) :
  List.length (rank l) = List.length l.
Proof. apply Permutation_length, rank_perm. Qed.

Lemma insert_descending (r : RetrievalResult Score) l :
  descending l -> descending (insert r l).
Proof.
  unfold descending. induction 1 as [| x l Hl IH Hx]; cbn.
  - repeat constructor.
  - destruct (leb (score x) (score r)) eqn:E.
    + constructor; [now constructor |].
      constructor; [exact E |].
      revert Hx. apply Forall_impl. intros y Hy. unfold below in *.
      now apply leb_trans with (score x).
    + constructor; [exact IH |].
      rewrite (insert_perm r l). constructor; [| exact Hx].
      unfold below.
      destruct (leb_total (score x) (score r)) as [H | H]; [congruence | exact H].
Qed.

Lemma rank_descending (l : list (RetrievalResult Score)) : descending (rank l).
Proof.
  induction l as [| x l IH]; cbn; [constructor | now apply insert_descending].
Qed.

Lemma firstn_subset (A : Type) k (l : list A) x : In x (firstn k l) -> In x l.
Proof.
  intros H. rewrite <- (firstn_skipn k l). apply in_or_app. now left.
Qed.

Lemma firstn_descending k (l : list (RetrievalResult Score)) :
  descending l -> descending (firstn k l).
Proof.
  unfold descending. intros H. revert k.
  induction H as [| x l Hl IH Hx]; intros [| k]; cbn; try constructor.
  - apply IH.
  - rewrite Forall_forall in *. intros y Hy. apply Hx.
    now apply firstn_subset with k.
Qed.

Lemma filter_descending f (l : list (RetrievalResult Score)) :
  descending l -> descending (filter f l).
Proof.
  unfold descending. induction 1 as [| x l Hl IH Hx]; cbn; [constructor |].
  destruct (f x); [| exact IH].
  constructor; [exact IH |].
  rewrite Forall_forall in *. intros y Hy. apply Hx.
  now apply filter_In in Hy.
Qed.

(** Ranking leaves results of equal score in the order they came in. *)
Lemma insert_stable x (r : RetrievalResult Score) l :
  filter (tied x) (insert r l) = filter (tied x) (r :: l).
Proof.
  induction l as [| y l IH]; [reflexivity |].
  cbn [insert]. destruct (leb (score y) (score r)) eqn:E; [reflexivity |].
  cbn [filter] in *. rewrite IH.
  destruct (tied x r) eqn:Hr, (tied x y) eqn:Hy; try reflexivity.
  unfold tied in Hr, Hy.
  apply andb_prop in Hr as [Hr1 Hr2]. apply andb_prop in Hy as [Hy1 Hy2].
  rewrite (leb_trans _ _ _ Hy2 Hr1) in E. discriminate.
Qed.

Lemma rank_stable x (l : list (RetrievalResult Score)) :
  filter (tied x) (rank l) = filter (tied x) l.
Proof.
  induction l as [| r l IH]; [reflexivity |].
  cbn [rank fold_right]. fold (rank l). rewrite insert_stable.
  cbn [filter]. now rewrite IH.
Qed.

(** ** [query] *)

Lemma query_length (q : Vec) k (c : Collection) :
  List.length (query q k c) = Nat.min k (totalDocuments c).
Proof.
  unfold query, totalDocuments. now rewrite length_firstn, rank_length, length_map.
Qed.

Lemma query_descending (q : Vec) k (c : Collection) : descending (query q k c).
Proof. apply firstn_descending, rank_descending. Qed.

Lemma query_members (q : Vec) k (c : Collection) r :
  In r (query q k c) -> exists d, In d c /\ r = scored q d.
Proof.
  intros H. apply firstn_subset in H.
  apply (Permutation_in _ (rank_perm _)) in H.
  apply in_map_iff in H as (d & <- & Hd). now exists d.
Qed.

Lemma sorted_app_below (l1 l2 : list (RetrievalResult Score)) :
  descending (l1 ++ l2) ->
  forall r r', In r l1 -> In r' l2 -> below r' r.
Proof.
  unfold descending. induction l1 as [| x l1 IH]; cbn; [contradiction |].
  intros H r r' [-> | Hr] Hr'.
  - apply StronglySorted_inv in H as [_ H].
    rewrite Forall_forall in H. apply H. apply in_or_app. now right.
  - apply StronglySorted_inv in H as [H _]. now apply IH.
Qed.

(** What [query] leaves out does not score higher than what it returns. *)
Lemma query_nearest (q : Vec) k (c : Collection) :
  exists others,
    Permutation (query q k c ++ others) (map (scored q) c)
    /\ forall r r', In r (query q k c) -> In r' others -> below r' r.
Proof.
  exists (skipn k (rank (map (scored q) c))). unfold query. split.
  - rewrite firstn_skipn. apply rank_perm.
  - apply sorted_app_below. rewrite firstn_skipn. apply rank_descending.
Qed.

Lemma query_stable (q : Vec) k (c : Collection) x :
  exists others,
    filter (tied x) (map (scored q) c) = filter (tied x) (query q k c) ++ others.
Proof.
  exists (filter (tied x) (skipn k (rank (map (scored q) c)))). unfold query.
  now rewrite <- filter_app, firstn_skipn, rank_stable.
Qed.

(** ** [retrieve] *)

Lemma kept_leb threshold (r : RetrievalResult Score) :
  kept threshold r = leb threshold r.(score).
Proof. unfold kept, ltb. apply negb_involutive. Qed.

(** Results of equal score are kept or dropped together. *)
Lemma kept_tied threshold x (r r' : RetrievalResult Score) :
  tied x r = true -> tied x r' = true -> kept threshold r = kept threshold r'.
Proof.
  unfold tied. rewrite !kept_leb. intros Hr Hr'.
  apply andb_prop in Hr as [Hr1 Hr2]. apply andb_prop in Hr' as [Hr1' Hr2'].
  destruct (leb threshold (score r)) eqn:E, (leb threshold (score r')) eqn:E';
    try reflexivity.
  - rewrite (leb_trans _ _ _ E (leb_trans _ _ _ Hr2 Hr1')) in E'. discriminate.
  - rewrite (leb_trans _ _ _ E' (leb_trans _ _ _ Hr2' Hr1)) in E. discriminate.
Qed.

Lemma filter_swap (A : Type) (f g : A -> bool) l :
  filter f (filter g l) = filter g (filter f l).
Proof.
  induction l as [| a l IH]; [reflexivity |]. cbn.
  destruct (f a) eqn:Ef, (g a) eqn:Eg; cbn; rewrite ?Ef, ?Eg, IH; reflexivity.
Qed.

(** Filtering a list of results that all tie keeps all of it or none of it. *)
Lemma filter_kept_tied threshold x (l : list (RetrievalResult Score)) :
  Forall (fun r => tied x r = true) l ->
  filter (kept threshold) l = l \/ filter (kept threshold) l = [].
Proof.
  induction 1 as [| r l Hr Hl IH]; [now left |]. cbn.
  destruct (kept threshold r) eqn:E.
  - destruct l as [| r' l]; [now left |].
    inversion_clear Hl as [| ? ? Hr' _].
    assert (E' : kept threshold r' = true)
      by now rewrite <- (kept_tied threshold x r r').
    destruct IH as [IH | IH]; [left; now rewrite IH |].
    cbn in IH. rewrite E' in IH. discriminate.
  - destruct l as [| r' l]; [now right |].
    inversion_clear Hl as [| ? ? Hr' _].
    assert (E' : kept threshold r' = false)
      by now rewrite <- (kept_tied threshold x r r').
    destruct IH as [IH | IH]; [| now right].
    cbn in IH. rewrite E' in IH.
    assert (Hlen : List.length (filter (kept threshold) l) <= List.length l)
      by apply filter_length_le.
    rewrite IH in Hlen. cbn in Hlen. lia.
Qed.

Lemma filter_tied_all x (l : list (RetrievalResult Score)) :
  Forall (fun r => tied x r = true) (filter (tied x) l).
Proof. apply Forall_forall. intros r Hr. now apply filter_In in Hr. Qed.

Variable embed : string -> Error + Vec.

Lemma retrieve_ok queryText k threshold (c : Collection) v :
  embed queryText = inr v ->
  retrieve embed queryText k threshold c = inr (filter (kept threshold) (query v k c)).
Proof. intros H. unfold retrieve. now rewrite H. Qed.

Lemma retrieve_inv queryText k threshold (c : Collection) results :
  retrieve embed queryText k threshold c = inr results ->
  exists v, embed queryText = inr v
            /\ results = filter (kept threshold) (query v k c).
Proof.
  unfold retrieve. destruct (embed queryText) as [e | v]; [discriminate |].
  intros [= <-]. now exists v.
Qed.

(** C4. [retrieve] embeds the query, asks the store for the best [k]
    candidates and then drops those below the threshold: an embedding
    failure is the only error; every result is one of the [k] candidates
    and each dropped candidate makes the result one shorter, so there may be
    fewer than [k] results, and none at all is a result like any other. *)
Theorem retrieve_query_then_filter queryText k threshold (c : Collection) :
  match embed queryText with
  | inl e => retrieve embed queryText k threshold c = inl e
  | inr v =>
      exists results,
        retrieve embed queryText k threshold c = inr results
        /\ results = filter (kept threshold) (query v k c)
        /\ incl results (query v k c)
        /\ List.length results
           + List.length (filter (fun r => ltb r.(score) threshold) (query v k c))
           = List.length (query v k c)
        /\ List.length results <= k
        /\ (Forall (fun r => ltb r.(score) threshold = true) (query v k c) ->
            results = [])
  end.
Proof.
  destruct (embed queryText) as [e | v] eqn:He.
  - unfold retrieve. now rewrite He.
  - exists (filter (kept threshold) (query v k c)).
    split; [now apply retrieve_ok |]. split; [reflexivity |].
    split; [apply incl_filter |]. split; [| split].
    + rewrite <- (filter_length (kept threshold) (query v k c)).
      f_equal. f_equal. apply filter_ext. intros r. unfold kept.
      now rewrite negb_involutive.
    + etransitivity; [apply filter_length_le |].
      rewrite query_length. apply Nat.le_min_l.
    + intros Hall. induction Hall as [| r l Hr _ IH]; [reflexivity |].
      cbn. unfold kept at 1. rewrite Hr. exact IH.
Qed.

(** C5. A list [retrieve] returns is sorted by score, highest first; results
    of equal score are the first of their score in insertion order; every
    score is at least the threshold; and there are at most [k] results. *)
Theorem retrieve_results_ordered queryText k threshold (c : Collection) results :
  retrieve embed queryText k threshold c = inr results ->
  descending results
  /\ (forall x, exists v others,
         embed queryText = inr v
         /\ filter (tied x) (map (scored v) c)
            = filter (tied x) results ++ others)
  /\ Forall (fun r => leb threshold r.(score) = true) results
  /\ List.length results <= k.
Proof.
  intros H. apply retrieve_inv in H as (v & Hv & ->). repeat split.
  - apply filter_descending, query_descending.
  - intros x. destruct (query_stable v k c x) as (others & Hothers).
    exists v. rewrite filter_swap.
    destruct (filter_kept_tied threshold x _ (filter_tied_all x (query v k c)))
      as [E | E]; rewrite E.
    + now exists others.
    + now exists (filter (tied x) (map (scored v) c)).
  - apply Forall_forall. intros r Hr. apply filter_In in Hr as [_ Hr].
    now rewrite kept_leb in Hr.
  - etransitivity; [apply filter_length_le |].
    rewrite query_length. apply Nat.le_min_l.
Qed.

(** ** [reset] *)

(** C7. After [reset] the collection is empty: a query returns no result,
    retrieval returns no result, [totalDocuments] is 0, and the state keeps
    nothing of the documents it held, so nothing can bring them back. On the
    page, a confirmed and accepted "Clear Knowledge Base" leaves no
    document, no message and a shown count of 0. *)
Theorem reset_clears_everything (c : Collection) :
  (forall v k, query v k (reset c) = [])
  /\ (forall queryText k threshold v,
        embed queryText = inr v ->
        retrieve embed queryText k threshold (reset c) = inr [])
  /\ totalDocuments (reset c) = 0
  /\ (forall c' : Collection, reset c' = reset c)
  /\ (forall api s,
        api.(Page.resetKnowledge) s.(Page.effects) = Page.Ok tt ->
        (snd (Page.clearKnowledgeBase api true s)).(Page.documents) = []
        /\ (snd (Page.clearKnowledgeBase api true s)).(Page.messages) = []
        /\ Page.shownDocumentCount (snd (Page.clearKnowledgeBase api true s)) = 0%Z).
Proof.
  split; [| split; [| split; [| split]]].
  - intros v k. unfold query, reset, empty. cbn. apply firstn_nil.
  - intros queryText k threshold v Hv. rewrite (retrieve_ok _ _ _ _ _ Hv).
    unfold query, reset, empty. cbn. now rewrite firstn_nil.
  - reflexivity.
  - reflexivity.
  - intros api s H.
    destruct (clearKnowledgeBase_cleared api s H) as (H1 & H2 & H3 & _).
    auto.
Qed.

(** ** [chatWithKnowledge] *)

Variable PromptSegments : Type.
Variable assemble :
  string -> list (RetrievalResult Score) -> list Turn -> string -> PromptSegments.
Variable generate : nat -> PromptSegments -> Error + Generated.

(** A chat turn that succeeds went through a successful retrieval and a
    successful generation. *)
Lemma chatWithKnowledge_ok cfg (c : Collection) message cid persona now cs result cs' :
  chatWithKnowledge embed assemble generate cfg c message cid persona now cs
  = (inr result, cs') ->
  exists retrieved g,
    retrieve embed message cfg.(top_k) cfg.(similarity_threshold) c = inr retrieved
    /\ result = mkChatResult g.(generated_text) (List.length retrieved)
                  (map (fun r => r.(score)) retrieved) g.(generated_tokens)
    /\ cs' = appendTurn cid (mkTurn assistant g.(generated_text) now false)
               (appendTurn cid (mkTurn user message now false) cs).
Proof.
  unfold chatWithKnowledge.
  destruct (retrieve embed message _ _ c) as [e | retrieved]; [discriminate |].
  destruct (generate_with_retry _ _ _ _) as [e | g]; [discriminate |].
  intros [= <- <-]. now exists retrieved, g.
Qed.

(** A failed generation leaves the user's turn and a turn marked failed. *)
Lemma chatWithKnowledge_failed cfg (c : Collection) message cid persona now cs e cs' :
  chatWithKnowledge embed assemble generate cfg c message cid persona now cs
  = (inl e, cs') ->
  cs' cid = cs cid ++ [mkTurn user message now false; error_turn now].
Proof.
  unfold chatWithKnowledge.
  destruct (retrieve embed message _ _ c) as [e' | retrieved].
  - intros [= _ <-]. unfold appendTurn. rewrite N.eqb_refl.
    now rewrite <- app_assoc.
  - destruct (generate_with_retry _ _ _ _) as [e' | g]; [| discriminate].
    intros [= _ <-]. unfold appendTurn. rewrite N.eqb_refl.
    now rewrite <- app_assoc.
Qed.

(** C3. A successful chat result reports as [sourcesUsed] the number of
    retrieved results and as [relevanceScores] their scores, so that
    [sourcesUsed] is 0 exactly when nothing was retrieved; on an empty
    collection a message is answered with [sourcesUsed = 0] whenever the
    embedder and the model answer. The page stores the reported number with
    the answer, 0 included, and shows the sources line exactly when the
    number is positive. *)
Theorem chat_result_reports_sources cfg message cid persona now cs :
  (forall (c : Collection) result cs',
      chatWithKnowledge embed assemble generate cfg c message cid persona now cs
      = (inr result, cs') ->
      exists retrieved,
        retrieve embed message cfg.(top_k) cfg.(similarity_threshold) c
        = inr retrieved
        /\ result.(sourcesUsed) = List.length retrieved
        /\ result.(relevanceScores) = map (fun r => r.(score)) retrieved
        /\ (result.(sourcesUsed) = 0 <-> retrieved = []))
  /\ (forall v g,
        embed message = inr v ->
        generate_with_retry generate cfg.(retries) 0
          (assemble persona []
             (getHistory cid cfg.(max_turns)
                (appendTurn cid (mkTurn user message now false) cs))
             message)
        = inr g ->
        fst (chatWithKnowledge embed assemble generate cfg empty message cid
               persona now cs)
        = inr (mkChatResult g.(generated_text) 0 [] g.(generated_tokens)))
  /\ (forall api t t' s0,
        (snd (Page.sendMessage api t t' s0)).(Page.messages) = s0.(Page.messages)
        \/ (snd (Page.sendMessage api t t' s0)).(Page.messages)
           = s0.(Page.messages)
             ++ [Page.mkMessage t Page.user s0.(Page.inputMessage) None None t]
        \/ exists response url,
             (snd (Page.sendMessage api t t' s0)).(Page.messages)
             = s0.(Page.messages)
               ++ [Page.mkMessage t Page.user s0.(Page.inputMessage) None None t;
                   Page.mkMessage t' Page.assistant response.(Page.text_response)
                     url (Some response.(Page.sources_used)) t']
             /\ Page.sourcesBadge
                  (Page.mkMessage t' Page.assistant response.(Page.text_response)
                     url (Some response.(Page.sources_used)) t')
                = (0 <? response.(Page.sources_used))%Z).
Proof.
  split; [| split].
  - intros c result cs' H.
    apply chatWithKnowledge_ok in H as (retrieved & g & Hr & -> & _).
    exists retrieved. cbn. repeat split; trivial.
    + now intros ->%length_zero_iff_nil.
    + now intros ->.
  - intros v g Hv Hg. unfold chatWithKnowledge.
    rewrite (retrieve_ok _ _ _ _ _ Hv).
    unfold query, empty. cbn [map rank fold_right]. rewrite firstn_nil.
    cbn [filter]. now rewrite Hg.
  - intros api t t' s0.
    destruct (sendMessage_messages api t t' s0) as [H | [H | (response & url & _ & H)]].
    + now left.
    + right. now left.
    + right. right. exists response, url. split; [exact H | reflexivity].
Qed.

End KnowledgeFacts.

(** ** The store with cosine similarity *)

(** C6. With cosine similarity, [query] returns as many results as asked
    for or as the collection has, whichever is less, and none on an empty
    collection; each is a document of the collection scored by the dot
    product of the query and its embedding divided by the product of their
    norms; the results are in order of decreasing score, and no document
    left out scores higher than one returned. *)
Theorem query_cosine_nearest (c : Knowledge.Collection (Vec := list R)) (q : list R) (k : nat) :
  List.length (Knowledge.query q k c) = Nat.min k (List.length c)
  /\ Knowledge.query q k (Knowledge.empty (Vec := list R)) = []
  /\ (forall r, In r (Knowledge.query q k c) ->
        exists d, In d c
          /\ r.(Knowledge.document_id) = d.(Knowledge.id)
          /\ r.(Knowledge.result_text) = d.(Knowledge.text)
          /\ r.(Knowledge.score)
             = (Knowledge.dot q d.(Knowledge.embedding)
                / (Knowledge.norm q * Knowledge.norm d.(Knowledge.embedding)))%R)
  /\ StronglySorted
       (fun a b => (b.(Knowledge.score) <= a.(Knowledge.score))%R)
       (Knowledge.query q k c)
  /\ exists others,
       Permutation (Knowledge.query q k c ++ others) (map (Knowledge.scored q) c)
       /\ forall r r', In r (Knowledge.query q k c) -> In r' others ->
            (r'.(Knowledge.score) <= r.(Knowledge.score))%R.
Proof.
  split; [apply query_length |].
  split; [unfold Knowledge.query; cbn; apply firstn_nil |].
  split; [| split].
  - intros r Hr. apply query_members in Hr as (d & Hd & ->).
    exists d. cbn. auto.
  - pose proof (query_descending q k c) as H.
    unfold Knowledge.descending in H.
    induction H as [| r l _ IH Hr]; constructor; [exact IH |].
    revert Hr. apply Forall_impl. intros a Ha. now apply Rleb_le.
  - destruct (query_nearest q k c) as (others & Hperm & Hbelow).
    exists others. split; [exact Hperm |].
    intros r r' Hr Hr'. apply Rleb_le. now apply Hbelow.
Qed.

(** ** Runs on the small knowledge base *)

(** The scenario of the design document: the two animal documents are
    returned, best first, and "the sky is blue" is left out. *)
Example retrieve_mammals :
  option_map (map (fun r => r.(Knowledge.document_id)))
    (match Knowledge.retrieve toy_embed "what mammals exist?" 2 (1 # 2)%Q zoo with
     | inr results => Some results
     | inl _ => None
     end)
  = Some [2; 1]%N.
Proof. vm_compute. reflexivity. Qed.

Lemma retrieve_results_ordered_witness :
  exists results,
    Knowledge.retrieve toy_embed "what mammals exist?" 2 (1 # 2)%Q zoo = inr results
    /\ List.length results = 2
    /\ Knowledge.descending results
    /\ Forall (fun r => Qle_bool (1 # 2) r.(Knowledge.score) = true) results
    /\ List.length results <= 2.
Proof.
  eexists. split; [reflexivity |]. split; [reflexivity |].
  pose proof (retrieve_results_ordered toy_embed "what mammals exist?" 2 (1 # 2)%Q
                zoo _ eq_refl) as (Hd & _ & Hf & Hl).
  exact (conj Hd (conj Hf Hl)).
Defined.

(** A question about nothing the base knows is answered from nothing. *)
Example retrieve_nothing :
  Knowledge.retrieve toy_embed "who are you?" 2 (1 # 2)%Q (Knowledge.reset zoo)
  = inr [].
Proof. reflexivity. Qed.

(** The empty text is not embedded: the one error of retrieval. *)
Example retrieve_empty_text :
  Knowledge.retrieve toy_embed "" 2 (1 # 2)%Q zoo = inl Knowledge.EmbeddingError.
Proof. reflexivity. Qed.

(** "hello" on an empty collection: an answer with no source. *)
Example chat_on_empty_collection :
  fst (Knowledge.chatWithKnowledge toy_embed toy_assemble toy_generate toy_config
         Knowledge.empty "hello" 1 "persona" 20 Knowledge.no_conversations)
  = inr (Knowledge.mkChatResult "hello" 0 [] 7).
Proof. reflexivity. Qed.

(** Two timeouts are retried; the third attempt answers. *)
Example chat_after_retries :
  fst (Knowledge.chatWithKnowledge toy_embed toy_assemble slow_generate toy_config
         Knowledge.empty "hello" 1 "persona" 20 Knowledge.no_conversations)
  = inr (Knowledge.mkChatResult "hello" 0 [] 7).
Proof. reflexivity. Qed.

(** With one retry less the timeout is surfaced and the conversation holds
    the user's turn and a turn marked failed. *)
Example chat_timeout :
  let run := Knowledge.chatWithKnowledge toy_embed toy_assemble slow_generate
               (Knowledge.mkConfig 2 (1 # 2)%Q 6 1) Knowledge.empty "hello" 1
               "persona" 20 Knowledge.no_conversations in
  fst run = inl Knowledge.Timeout
  /\ snd run 1%N = [Knowledge.mkTurn Knowledge.user "hello" 20 false;
                    Knowledge.mkTurn Knowledge.assistant "" 20 true].
Proof. split; reflexivity. Qed.

(** ** Runs of the page *)

Example sendMessage_answered :
  (snd (Page.sendMessage (Page.api_up 0) 5 6 Page.typed_hello)).(Page.messages)
  = [Page.mkMessage 5 Page.user (lit "hello") None None 5;
     Page.mkMessage 6 Page.assistant (lit "hello") None (Some 0%Z) 6].
Proof. reflexivity. Qed.

Example sendMessage_blank_input :
  Page.sendMessage Page.api_down 5 6
    (Page.setInputMessage (lit "   ") (Page.initial 1))
  = (Page.Ok tt, Page.setInputMessage (lit "   ") (Page.initial 1)).
Proof. reflexivity. Qed.

Example processDocuments_first_rejected :
  (snd (Page.processDocuments (Page.api_rejecting (lit "bad.txt"))
          Page.bad_then_good)).(Page.effects)
  = [Page.CallUpload (Page.mkFile (lit "bad.txt") (lit "text/plain") 10);
     Page.ConsoleError;
     Page.ShowToast (Page.mkToast "Processing failed"
                       "Failed to create knowledge base" Page.destructive)].
Proof. vm_compute. reflexivity. Qed.

Example atob_rejects_stray_padding : Base64.atob (lit "TQ=") = None.
Proof. reflexivity. Qed.

Example b64encode_riff : Base64.b64encode Base64.riff = lit "UklG".
Proof. reflexivity. Qed.

(** [new Blob] lowers the case of a type and drops a type that is not
    printable ASCII. *)
Example blobType_lowers_case :
  Base64.blobType (lit "Audio/WAV") = lit "audio/wav"
  /\ Base64.blobType [97%N; 233%N] = [].
Proof. split; reflexivity. Qed.
